(** * Physics character controller: dual-mode motion controller

    Shallow embedding of [src/character.js] (class [CharacterController]),
    of the parts of [src/physics.js] (class [PhysicsWorld]) it calls, of
    the input handler it reads (class [InputHandler]) and of the frame
    time the game loop of [src/main.js] hands to it.

    Numbers.  JavaScript numbers are idealised as real numbers: there is
    no rounding, no NaN and no infinity.  [Math.PI], [Math.sin],
    [Math.cos], [Math.abs] are [PI], [sin], [cos], [Rabs]; [Math.atan2]
    is defined below from [atan].

    Effects.  A JavaScript method that may throw and that mutates objects
    is a function [S -> outcome A * S]: the mutated state is returned in
    both outcomes, since an exception does not undo earlier assignments.
    The physics engine (Rapier) is outside the repository; its mutable
    state is an arbitrary type [W] and every engine entry point is a
    field of an interface record whose calls may throw. *)

From Stdlib Require Import Reals Lra Lia List Bool ZArith.
From Stdlib Require String.
Import ListNotations.
Local Open Scope R_scope.

(** ** Vectors: the object literals [{x, y, z}] and [{x, z}] *)

Module V3.
Record t : Type := mk { x : R; y : R; z : R }.
Definition zero : t := mk 0 0 0.
Definition set_x (v : t) (a : R) : t := mk a (y v) (z v).
Definition set_y (v : t) (a : R) : t := mk (x v) a (z v).
Definition set_z (v : t) (a : R) : t := mk (x v) (y v) a.
End V3.

Module V2.
Record t : Type := mk { x : R; z : R }.
End V2.

(** ** Comparisons of numbers as booleans *)

Definition Rgtb (a b : R) : bool := if Rgt_dec a b then true else false.
Definition Rltb (a b : R) : bool := if Rlt_dec a b then true else false.
Definition Rleb (a b : R) : bool := if Rle_dec a b then true else false.
Definition Rneqb (a b : R) : bool := if Req_dec_T a b then false else true.

(** [Math.atan2(y, x)]: the angle of the point [(x, y)], in [(-PI, PI]]. *)
Definition atan2 (y x : R) : R :=
  if Rlt_dec 0 x then atan (y / x)
  else if Rlt_dec x 0 then
         (if Rle_dec 0 y then atan (y / x) + PI else atan (y / x) - PI)
  else if Rlt_dec 0 y then PI / 2
  else if Rlt_dec y 0 then - (PI / 2)
  else 0.

(** ** Computations that mutate a state and may throw *)

Inductive outcome (A : Type) : Type :=
| Ok (a : A)
| Throw.
Arguments Ok {A} a.
Arguments Throw {A}.

Definition Exn (S A : Type) : Type := S -> outcome A * S.

Definition ret {S A : Type} (a : A) : Exn S A := fun s => (Ok a, s).

Definition throw {S A : Type} : Exn S A := fun s => (Throw, s).

Definition bind {S A B : Type} (m : Exn S A) (k : A -> Exn S B) : Exn S B :=
  fun s => match m s with
           | (Ok a, s') => k a s'
           | (Throw, s') => (Throw, s')
           end.

(** [try { m } catch (error) { h }] *)
Definition try_catch {S A : Type} (m h : Exn S A) : Exn S A :=
  fun s => match m s with
           | (Ok a, s') => (Ok a, s')
           | (Throw, s') => h s'
           end.

Declare Scope exn_scope.
Delimit Scope exn_scope with exn.
Notation "x <- m ;; k" := (bind m (fun x => k))
  (at level 61, m at next level, right associativity) : exn_scope.
Notation "m ;; k" := (bind m (fun _ => k))
  (at level 61, right associativity) : exn_scope.
Local Open Scope exn_scope.

(** ** The physics engine as the repository sees it *)

(** A Rapier rigid body: the four methods the repository calls on it. *)
Module RigidBody.
Record t (W : Type) : Type := mk {
  translation : Exn W V3.t;
  linvel : Exn W V3.t;
  setLinvel : V3.t -> Exn W unit;
  applyImpulse : V3.t -> Exn W unit
}.
Arguments mk {W}.
Arguments translation {W}.
Arguments linvel {W}.
Arguments setLinvel {W}.
Arguments applyImpulse {W}.
End RigidBody.

(** The object returned by [createCharacter]: [{ id, body, collider }];
    [body] is [None] when it is missing or has no [translation] method. *)
Module Character.
Record t (W : Type) : Type := mk { body : option (RigidBody.t W) }.
Arguments mk {W}.
Arguments body {W}.
End Character.

(** The [physics] object handed to the controller's constructor, by the
    methods the controller calls on it. *)
Module Physics.
Record t (W : Type) : Type := mk {
  createCharacter : V3.t -> R -> R -> Exn W (option (Character.t W));
  isGrounded : option (RigidBody.t W) -> Exn W bool;
  getBodyPosition : option (RigidBody.t W) -> Exn W V3.t;
  setBodyVelocity : option (RigidBody.t W) -> V3.t -> Exn W unit;
  applyImpulse : option (RigidBody.t W) -> V3.t -> Exn W unit
}.
Arguments mk {W}.
Arguments createCharacter {W}.
Arguments isGrounded {W}.
Arguments getBodyPosition {W}.
Arguments setBodyVelocity {W}.
Arguments applyImpulse {W}.
End Physics.

(** ** [src/physics.js]: class [PhysicsWorld] *)

Module PhysicsWorld.

(** [this.world]: a [RAPIER.World], or the stand-in made by
    [createFallbackWorld].  [createRigidBody] stands for building the
    dynamic body descriptor at a position and creating the body,
    [createCollider] for building the capsule descriptor and creating
    the collider, [castRay] for building the [RAPIER.Ray] and casting it
    (the result is the hit's time of impact, [None] for [null]). *)
Record World (W : Type) : Type := mkWorld {
  createRigidBody : V3.t -> Exn W (RigidBody.t W);
  createCollider : R -> R -> Exn W unit;
  castRay : V3.t -> V3.t -> R -> Exn W (option R)
}.
Arguments mkWorld {W}.
Arguments createRigidBody {W}.
Arguments createCollider {W}.
Arguments castRay {W}.

Record t (W : Type) : Type := mk {
  initialized : bool;
  world : World W
}.
Arguments mk {W}.
Arguments initialized {W}.
Arguments world {W}.

Section Methods.
Context {W : Type}.

(** [createFallbackBody()] (the random [handle] is not modelled). *)
Definition createFallbackBody : RigidBody.t W :=
  RigidBody.mk (ret V3.zero) (ret V3.zero)
               (fun _ => ret tt) (fun _ => ret tt).

(** The [world] object made by [createFallbackWorld()]. *)
Definition fallbackWorld : World W :=
  mkWorld (fun _ => ret createFallbackBody)
          (fun _ _ => ret tt)
          (fun _ _ _ => ret None).

(** [createFallbackWorld()]: what [init()] leaves when Rapier fails. *)
Definition createFallbackWorld : t W := mk true fallbackWorld.

(** [new PhysicsWorld()] before [init()]: [initialized] is false and
    no method reads [world]. *)
Definition uninitialized : t W := mk false fallbackWorld.

(** [createCharacter(position, radius, height)]; the bookkeeping in
    [this.bodies] is not modelled. *)
Definition createCharacter (this : t W) (position : V3.t)
           (radius height : R) : Exn W (option (Character.t W)) :=
  if negb (initialized this) then ret None
  else
    try_catch
      (characterBody <- createRigidBody (world this) position ;;
       createCollider (world this) (height / 2) radius ;;
       ret (Some (Character.mk (Some characterBody))))
      (ret (Some (Character.mk (Some createFallbackBody)))).

(** [isGrounded(body, rayLength = 0.6)] *)
Definition isGrounded (this : t W) (body : option (RigidBody.t W))
           (rayLength : R) : Exn W bool :=
  match body with
  | None => ret false
  | Some b =>
      if negb (initialized this) then ret false
      else
        try_catch
          (position <- RigidBody.translation b ;;
           hit <- castRay (world this)
                    (V3.mk (V3.x position) (V3.y position) (V3.z position))
                    (V3.mk 0 (-1) 0) rayLength ;;
           ret (match hit with Some _ => true | None => false end))
          (ret true)
  end.

(** [getBodyPosition(body)] *)
Definition getBodyPosition (body : option (RigidBody.t W)) : Exn W V3.t :=
  match body with
  | None => ret V3.zero
  | Some b =>
      try_catch
        (position <- RigidBody.translation b ;;
         ret (V3.mk (V3.x position) (V3.y position) (V3.z position)))
        (ret V3.zero)
  end.

(** [setBodyVelocity(body, velocity)] *)
Definition setBodyVelocity (body : option (RigidBody.t W))
           (velocity : V3.t) : Exn W unit :=
  match body with
  | None => ret tt
  | Some b =>
      try_catch
        (RigidBody.setLinvel b
           (V3.mk (V3.x velocity) (V3.y velocity) (V3.z velocity)))
        (ret tt)
  end.

(** [applyImpulse(body, impulse)] *)
Definition applyImpulse (body : option (RigidBody.t W))
           (impulse : V3.t) : Exn W unit :=
  match body with
  | None => ret tt
  | Some b =>
      try_catch
        (RigidBody.applyImpulse b
           (V3.mk (V3.x impulse) (V3.y impulse) (V3.z impulse)))
        (ret tt)
  end.

(** A [PhysicsWorld] instance as the controller's [physics] object;
    the controller never passes [rayLength], so it is [0.6]. *)
Definition asPhysics (this : t W) : Physics.t W :=
  Physics.mk (createCharacter this)
             (fun body => isGrounded this body (6 / 10))
             getBodyPosition setBodyVelocity applyImpulse.
End Methods.
End PhysicsWorld.

(** ** The input handler, as the controller reads it during one frame *)

Module Input.
Record t : Type := mk {
  getMovementDirection : V2.t;
  isJumping : bool
}.
End Input.

(** ** [src/character.js]: class [CharacterController] *)

Module CharacterController.

Record Options : Type := mkOptions {
  moveSpeed : R;
  jumpForce : R;
  jumpCooldown : R;
  rotationSpeed : R;
  airControl : R
}.

Definition defaultOptions : Options :=
  mkOptions 5 10 (3 / 10) 5 (3 / 10).

Record State : Type := mkState {
  isGrounded : bool;
  isJumping : bool;
  jumpCooldownTimer : R;
  velocity : V3.t;
  position : V3.t;
  rotation : V3.t;
  direction : V2.t;
  movementDirection : V2.t
}.

Definition initialState : State :=
  mkState false false 0 (V3.mk 0 0 0) (V3.mk 0 1 0) (V3.mk 0 0 0)
          (V2.mk 0 (-1)) (V2.mk 0 0).

(** Assignments to one field of [this.state]. *)
Definition set_isGrounded (b : bool) (s : State) : State :=
  mkState b (isJumping s) (jumpCooldownTimer s) (velocity s) (position s)
          (rotation s) (direction s) (movementDirection s).
Definition set_isJumping (b : bool) (s : State) : State :=
  mkState (isGrounded s) b (jumpCooldownTimer s) (velocity s) (position s)
          (rotation s) (direction s) (movementDirection s).
Definition set_jumpCooldownTimer (r : R) (s : State) : State :=
  mkState (isGrounded s) (isJumping s) r (velocity s) (position s)
          (rotation s) (direction s) (movementDirection s).
Definition set_velocity (v : V3.t) (s : State) : State :=
  mkState (isGrounded s) (isJumping s) (jumpCooldownTimer s) v (position s)
          (rotation s) (direction s) (movementDirection s).
Definition set_position (v : V3.t) (s : State) : State :=
  mkState (isGrounded s) (isJumping s) (jumpCooldownTimer s) (velocity s) v
          (rotation s) (direction s) (movementDirection s).
Definition set_rotation (v : V3.t) (s : State) : State :=
  mkState (isGrounded s) (isJumping s) (jumpCooldownTimer s) (velocity s)
          (position s) v (direction s) (movementDirection s).
Definition set_direction (d : V2.t) (s : State) : State :=
  mkState (isGrounded s) (isJumping s) (jumpCooldownTimer s) (velocity s)
          (position s) (rotation s) d (movementDirection s).
Definition set_movementDirection (d : V2.t) (s : State) : State :=
  mkState (isGrounded s) (isJumping s) (jumpCooldownTimer s) (velocity s)
          (position s) (rotation s) (direction s) d.

(** *** [updateRotation(inputDirection, deltaTime)] *)

(** [while (currentAngle > Math.PI) currentAngle -= Math.PI * 2;]
    unrolled [n] times. *)
Fixpoint whileAbovePI (n : nat) (currentAngle : R) : R :=
  match n with
  | O => currentAngle
  | S n' => if Rgt_dec currentAngle PI
            then whileAbovePI n' (currentAngle - PI * 2)
            else currentAngle
  end.

(** [while (currentAngle < -Math.PI) currentAngle += Math.PI * 2;]
    unrolled [n] times. *)
Fixpoint whileBelowPI (n : nat) (currentAngle : R) : R :=
  match n with
  | O => currentAngle
  | S n' => if Rlt_dec currentAngle (- PI)
            then whileBelowPI n' (currentAngle + PI * 2)
            else currentAngle
  end.

(** A number of iterations after which each loop has exited. *)
Definition turns (a : R) : nat := Z.to_nat (up (a / (PI * 2))).

(** The two normalisation loops, run to their exit. *)
Definition normalizeAngle (currentAngle : R) : R :=
  let a1 := whileAbovePI (turns currentAngle) currentAngle in
  whileBelowPI (turns (- a1)) a1.

(** The value of [angleDiff] after the two [if]s. *)
Definition shortestDiff (targetAngle currentAngle : R) : R :=
  let angleDiff := targetAngle - currentAngle in
  let angleDiff := if Rgt_dec angleDiff PI then angleDiff - PI * 2
                   else angleDiff in
  if Rlt_dec angleDiff (- PI) then angleDiff + PI * 2 else angleDiff.

Definition updateRotation (o : Options) (inputDirection : V2.t)
           (deltaTime : R) (s : State) : State :=
  if Rneqb (V2.x inputDirection) 0 || Rneqb (V2.z inputDirection) 0 then
    let targetAngle := atan2 (V2.x inputDirection) (V2.z inputDirection) in
    let currentAngle := normalizeAngle (V3.y (rotation s)) in
    let angleDiff := shortestDiff targetAngle currentAngle in
    let rotationAmount := angleDiff * rotationSpeed o * deltaTime in
    let s := set_rotation
               (V3.set_y (rotation s) (V3.y (rotation s) + rotationAmount)) s in
    set_direction (V2.mk (sin (V3.y (rotation s))) (cos (V3.y (rotation s)))) s
  else s.

(** *** [updateFallbackMovement(input, deltaTime)], block by block *)

(** "Simple gravity simulation" *)
Definition fallbackGravity (deltaTime : R) (s : State) : State :=
  if negb (isGrounded s) then
    set_velocity (V3.set_y (velocity s)
                           (V3.y (velocity s) - 981 / 100 * deltaTime)) s
  else
    let s := set_velocity (V3.set_y (velocity s) 0) s in
    if isJumping s then set_isJumping false s else s.

(** "Update jump cooldown timer" (the same statement is in [update]) *)
Definition tickCooldown (deltaTime : R) (s : State) : State :=
  if Rgtb (jumpCooldownTimer s) 0
  then set_jumpCooldownTimer (jumpCooldownTimer s - deltaTime) s
  else s.

(** The condition of both jump statements. *)
Definition canJump (input : Input.t) (s : State) : bool :=
  Input.isJumping input && isGrounded s && Rleb (jumpCooldownTimer s) 0.

(** "Handle jumping with fallback system" *)
Definition fallbackJump (o : Options) (input : Input.t) (s : State) : State :=
  if canJump input s then
    let s := set_velocity (V3.set_y (velocity s) (jumpForce o * (1 / 10))) s in
    let s := set_isJumping true s in
    let s := set_isGrounded false s in
    set_jumpCooldownTimer (jumpCooldown o) s
  else s.

(** [this.options.moveSpeed * (this.state.isGrounded ? 1.0 : this.options.airControl)] *)
Definition currentMoveSpeed (o : Options) (s : State) : R :=
  moveSpeed o * (if isGrounded s then 1 else airControl o).

(** "Calculate movement velocity based on character's forward direction" *)
Definition fallbackHorizontal (o : Options) (inputDirection : V2.t)
           (s : State) : State :=
  if Rneqb (V2.x inputDirection) 0 || Rneqb (V2.z inputDirection) 0 then
    let moveSpeed := currentMoveSpeed o s in
    let s := set_velocity
               (V3.set_x (velocity s)
                  (V2.x (direction s) * V2.z inputDirection * moveSpeed)) s in
    let s := set_velocity
               (V3.set_z (velocity s)
                  (V2.z (direction s) * V2.z inputDirection * moveSpeed)) s in
    let s := set_velocity
               (V3.set_x (velocity s)
                  (V3.x (velocity s)
                   + - V2.z (direction s) * V2.x inputDirection * moveSpeed)) s in
    set_velocity
      (V3.set_z (velocity s)
         (V3.z (velocity s)
          + V2.x (direction s) * V2.x inputDirection * moveSpeed)) s
  else
    let s := set_velocity (V3.set_x (velocity s) (V3.x (velocity s) * (9 / 10))) s in
    let s := set_velocity (V3.set_z (velocity s) (V3.z (velocity s) * (9 / 10))) s in
    let s := if Rltb (Rabs (V3.x (velocity s))) (1 / 100)
             then set_velocity (V3.set_x (velocity s) 0) s else s in
    if Rltb (Rabs (V3.z (velocity s))) (1 / 100)
    then set_velocity (V3.set_z (velocity s) 0) s else s.

(** "Update position based on velocity" *)
Definition fallbackIntegrate (deltaTime : R) (s : State) : State :=
  let s := set_position
             (V3.set_x (position s)
                (V3.x (position s) + V3.x (velocity s) * deltaTime)) s in
  let s := set_position
             (V3.set_y (position s)
                (V3.y (position s) + V3.y (velocity s) * deltaTime)) s in
  set_position
    (V3.set_z (position s)
       (V3.z (position s) + V3.z (velocity s) * deltaTime)) s.

(** "Simple ground collision" *)
Definition fallbackGroundCollision (s : State) : State :=
  if Rltb (V3.y (position s)) 1 then
    set_isGrounded true (set_position (V3.set_y (position s) 1) s)
  else set_isGrounded false s.

Definition updateFallbackMovement (o : Options) (input : Input.t)
           (deltaTime : R) (s : State) : State :=
  let inputDirection := Input.getMovementDirection input in
  let s := set_movementDirection inputDirection s in
  let s := updateRotation o inputDirection deltaTime s in
  let s := fallbackGravity deltaTime s in
  let s := tickCooldown deltaTime s in
  let s := fallbackJump o input s in
  let s := fallbackHorizontal o inputDirection s in
  let s := fallbackIntegrate deltaTime s in
  fallbackGroundCollision s.

(** *** The controller object and the methods that call the engine *)

Record t (W : Type) : Type := mk {
  physics : Physics.t W;
  options : Options;
  state : State;
  usingFallback : bool;
  character : option (Character.t W)
}.
Arguments mk {W}.
Arguments physics {W}.
Arguments options {W}.
Arguments state {W}.
Arguments usingFallback {W}.
Arguments character {W}.

(** The calls a run makes, in order: a ghost record kept beside the
    program state, as a test double of [physics] would keep it. *)
Inductive Call : Type :=
| CallIsGrounded
| CallLinvel
| CallSetBodyVelocity (velocity : V3.t)
| CallApplyImpulse (impulse : V3.t)
| CallGetBodyPosition
| CallUpdateFallbackMovement (input : Input.t) (deltaTime : R).

(** What a method of the controller can read and write: the controller
    object, the engine's state, and the record of calls. *)
Record Heap (W : Type) : Type := mkHeap {
  this : t W;
  engine : W;
  calls : list Call
}.
Arguments mkHeap {W}.
Arguments this {W}.
Arguments engine {W}.
Arguments calls {W}.

Section Methods.
Context {W : Type}.

Definition M (A : Type) : Type := Exn (Heap W) A.

Definition set_state (s : State) (c : t W) : t W :=
  mk (physics c) (options c) s (usingFallback c) (character c).

Definition set_usingFallback (b : bool) (c : t W) : t W :=
  mk (physics c) (options c) (state c) b (character c).

Definition readThis : M (t W) := fun h => (Ok (this h), h).

(** [this.state = f(this.state)]: one or more assignments to fields
    of [this.state]. *)
Definition assignState (f : State -> State) : M unit :=
  fun h => (Ok tt, mkHeap (set_state (f (state (this h))) (this h))
                          (engine h) (calls h)).

(** [this.usingFallback = b] *)
Definition assignUsingFallback (b : bool) : M unit :=
  fun h => (Ok tt, mkHeap (set_usingFallback b (this h))
                          (engine h) (calls h)).

Definition record (c : Call) : M unit :=
  fun h => (Ok tt, mkHeap (this h) (engine h) (calls h ++ [c])).

Definition engineCall {A : Type} (e : Exn W A) : M A :=
  fun h => let (r, w) := e (engine h) in
           (r, mkHeap (this h) w (calls h)).

(** [constructor(physics, options)]; [o] is the merged option object. *)
Definition constructor (physics : Physics.t W) (o : Options) : Exn W (t W) :=
  try_catch
    (character <- Physics.createCharacter physics (V3.mk 0 5 0) (1 / 2) 1 ;;
     ret (match character with
          | Some (Character.mk (Some _)) =>
              mk physics o initialState false character
          | _ => mk physics o initialState true character
          end))
    (ret (mk physics o initialState true None)).

(** The call [this.updateFallbackMovement(input, deltaTime)]. *)
Definition callUpdateFallbackMovement (input : Input.t) (deltaTime : R)
  : M unit :=
  c <- readThis ;;
  record (CallUpdateFallbackMovement input deltaTime) ;;
  assignState (updateFallbackMovement (options c) input deltaTime).

(** "Reset jump state when landing", the last statement of the [try]
    block of [handleJump]. *)
Definition landingReset (s : State) : State :=
  if isGrounded s && isJumping s then set_isJumping false s else s.

(** The local [targetVelocity] of [handleMovement] when it is passed
    to [setBodyVelocity]. *)
Definition targetVelocity (o : Options) (inputDirection : V2.t)
           (s : State) : V3.t :=
  let moveSpeed := currentMoveSpeed o s in
  let targetVelocity := V3.mk 0 (V3.y (velocity s)) 0 in
  if Rneqb (V2.x inputDirection) 0 || Rneqb (V2.z inputDirection) 0 then
    let targetVelocity :=
      V3.set_x targetVelocity
               (V2.x (direction s) * V2.z inputDirection * moveSpeed) in
    let targetVelocity :=
      V3.set_z targetVelocity
               (V2.z (direction s) * V2.z inputDirection * moveSpeed) in
    let targetVelocity :=
      V3.set_x targetVelocity
               (V3.x targetVelocity
                + - V2.z (direction s) * V2.x inputDirection * moveSpeed) in
    V3.set_z targetVelocity
             (V3.z targetVelocity
              + V2.x (direction s) * V2.x inputDirection * moveSpeed)
  else targetVelocity.

(** [handleMovement(input, deltaTime)] *)
Definition handleMovement (input : Input.t) (deltaTime : R) : M unit :=
  try_catch
    (c <- readThis ;;
     let inputDirection := Input.getMovementDirection input in
     let targetVelocity := targetVelocity (options c) inputDirection (state c) in
     match character c with
     | None => throw
     | Some ch =>
         record (CallSetBodyVelocity targetVelocity) ;;
         engineCall (Physics.setBodyVelocity (physics c) (Character.body ch)
                                             targetVelocity)
     end)
    (assignUsingFallback true).

(** [handleJump(input, deltaTime)] *)
Definition handleJump (input : Input.t) (deltaTime : R) : M unit :=
  try_catch
    (c <- readThis ;;
     (if canJump input (state c) then
        match character c with
        | None => throw
        | Some ch =>
            let impulse := V3.mk 0 (jumpForce (options c)) 0 in
            record (CallApplyImpulse impulse) ;;
            engineCall (Physics.applyImpulse (physics c) (Character.body ch)
                                             impulse) ;;
            assignState (set_isJumping true) ;;
            assignState (set_isGrounded false) ;;
            assignState (set_jumpCooldownTimer (jumpCooldown (options c)))
        end
      else ret tt) ;;
     assignState landingReset)
    (assignUsingFallback true).

(** The [try] block of [update], for a character with body [b]. *)
Definition updatePhysics (b : RigidBody.t W) (input : Input.t)
           (deltaTime : R) : M unit :=
  c <- readThis ;;
  record CallIsGrounded ;;
  grounded <- engineCall (Physics.isGrounded (physics c) (Some b)) ;;
  assignState (set_isGrounded grounded) ;;
  assignState (tickCooldown deltaTime) ;;
  record CallLinvel ;;
  currentVelocity <- engineCall (RigidBody.linvel b) ;;
  assignState (set_velocity (V3.mk (V3.x currentVelocity)
                                   (V3.y currentVelocity)
                                   (V3.z currentVelocity))) ;;
  let inputDirection := Input.getMovementDirection input in
  assignState (set_movementDirection inputDirection) ;;
  assignState (updateRotation (options c) inputDirection deltaTime) ;;
  handleMovement input deltaTime ;;
  handleJump input deltaTime ;;
  record CallGetBodyPosition ;;
  position <- engineCall (Physics.getBodyPosition (physics c) (Some b)) ;;
  assignState (set_position position).

(** The body of a character object, when both are there. *)
Definition bodyOf (character : option (Character.t W))
  : option (RigidBody.t W) :=
  match character with
  | Some ch => Character.body ch
  | None => None
  end.

(** [update(input, deltaTime)] *)
Definition update (input : Input.t) (deltaTime : R) : M unit :=
  c <- readThis ;;
  if usingFallback c then callUpdateFallbackMovement input deltaTime
  else
    match bodyOf (character c) with
    | None =>
        assignUsingFallback true ;;
        callUpdateFallbackMovement input deltaTime
    | Some b =>
        try_catch
          (updatePhysics b input deltaTime)
          (assignUsingFallback true ;;
           callUpdateFallbackMovement input deltaTime)
    end.

(** [getPosition()] *)
Definition getPosition : M V3.t :=
  c <- readThis ;;
  if usingFallback c then ret (position (state c))
  else
    match bodyOf (character c) with
    | None =>
        assignUsingFallback true ;;
        ret (position (state c))
    | Some b =>
        try_catch
          (record CallGetBodyPosition ;;
           position <- engineCall
                         (Physics.getBodyPosition (physics c) (Some b)) ;;
           assignState (set_position position) ;;
           ret position)
          (assignUsingFallback true ;;
           c' <- readThis ;;
           ret (position (state c')))
    end.

(** [getState()] *)
Definition getState : M State :=
  c <- readThis ;; ret (state c).

(** [getRotation()], [getDirection()], [getMovementDirection()]: copies
    of the three objects. *)
Definition getRotation : M V3.t :=
  c <- readThis ;;
  ret (V3.mk (V3.x (rotation (state c))) (V3.y (rotation (state c)))
             (V3.z (rotation (state c)))).

Definition getDirection : M V2.t :=
  c <- readThis ;;
  ret (V2.mk (V2.x (direction (state c))) (V2.z (direction (state c)))).

Definition getMovementDirection : M V2.t :=
  c <- readThis ;;
  ret (V2.mk (V2.x (movementDirection (state c)))
             (V2.z (movementDirection (state c)))).

(** The heap a method finishes in, and the controller in it. *)
Definition after {A : Type} (m : M A) (h : Heap W) : Heap W := snd (m h).
Definition returned {A : Type} (m : M A) (h : Heap W) : outcome A := fst (m h).
End Methods.
End CharacterController.

(** ** Sessions: the calls an application makes on one controller *)

Module Session.
Import CharacterController.

Inductive Request : Type :=
| ReqUpdate (input : Input.t) (deltaTime : R)
| ReqGetPosition
| ReqGetState.

Section Run.
Context {W : Type}.

Definition serve (r : Request) (h : Heap W) : Heap W :=
  match r with
  | ReqUpdate input deltaTime => after (update input deltaTime) h
  | ReqGetPosition => after getPosition h
  | ReqGetState => after getState h
  end.

Definition serveAll (rs : list Request) (h : Heap W) : Heap W :=
  fold_left (fun h r => serve r h) rs h.

(** [usingFallback] before the first request and after each one. *)
Fixpoint modeTrace (rs : list Request) (h : Heap W) : list bool :=
  usingFallback (this h)
  :: match rs with
     | [] => []
     | r :: rs' => modeTrace rs' (serve r h)
     end.

(** The heaps at the end of each frame of a run of [update] calls. *)
Fixpoint frames (fs : list (Input.t * R)) (h : Heap W) : list (Heap W) :=
  match fs with
  | [] => []
  | (input, deltaTime) :: fs' =>
      let h' := after (update input deltaTime) h in
      h' :: frames fs' h'
  end.

(** The heap right after [new CharacterController(physics, o)]; the
    constructor catches every failure, so the second case does not arise. *)
Definition spawn (physics : Physics.t W) (o : Options) (w : W) : Heap W :=
  match constructor physics o w with
  | (Ok c, w') => mkHeap c w' []
  | (Throw, w') => mkHeap (mk physics o initialState true None) w' []
  end.
End Run.
End Session.

(** ** Scenarios: concrete engines, physics objects and heaps *)

Module Scenario.
Import CharacterController.

Definition noInput : Input.t := Input.mk (V2.mk 0 0) false.
Definition jumpPressed : Input.t := Input.mk (V2.mk 0 0) true.
Definition moveRight : Input.t := Input.mk (V2.mk 1 0) false.

(** The controller over a [PhysicsWorld] whose [init()] was never run:
    [createCharacter] returns [null] and the controller starts in
    fallback mode. *)
Definition fallbackFromStart : Heap unit :=
  Session.spawn (PhysicsWorld.asPhysics PhysicsWorld.uninitialized)
                defaultOptions tt.

(** The controller over the world of [createFallbackWorld()]: it is in
    physics mode. *)
Definition overFallbackWorld : Heap unit :=
  Session.spawn (PhysicsWorld.asPhysics PhysicsWorld.createFallbackWorld)
                defaultOptions tt.

(** A fallback-mode heap with a given state. *)
Definition inFallback (s : State) : Heap unit :=
  mkHeap (mk (PhysicsWorld.asPhysics PhysicsWorld.uninitialized)
             defaultOptions s true None) tt [].

(** A body that stays where it was created and never fails. *)
Definition restingBody (position : V3.t) : RigidBody.t unit :=
  RigidBody.mk (ret position) (ret V3.zero)
               (fun _ => ret tt) (fun _ => ret tt).

(** An initialised world with no collider under the character. *)
Definition emptyWorld : PhysicsWorld.t unit :=
  PhysicsWorld.mk true
    (PhysicsWorld.mkWorld (fun position => ret (restingBody position))
                          (fun _ _ => ret tt)
                          (fun _ _ _ => ret None)).

Definition overEmptyWorld : Heap unit :=
  Session.spawn (PhysicsWorld.asPhysics emptyWorld) defaultOptions tt.

(** A body whose [translation()] throws. *)
Definition noTranslationBody : RigidBody.t unit :=
  RigidBody.mk throw (ret V3.zero) (fun _ => ret tt) (fun _ => ret tt).

Definition noTranslationWorld : PhysicsWorld.t unit :=
  PhysicsWorld.mk true
    (PhysicsWorld.mkWorld (fun _ => ret noTranslationBody)
                          (fun _ _ => ret tt)
                          (fun _ _ _ => ret None)).

(** Physics mode over a body whose [translation()] throws.  (The
    constructor only tests that the method is there.) *)
Definition overNoTranslation : Heap unit :=
  Session.spawn (PhysicsWorld.asPhysics noTranslationWorld) defaultOptions tt.

(** A body whose [linvel()] throws. *)
Definition noLinvelBody : RigidBody.t unit :=
  RigidBody.mk (ret (V3.mk 0 5 0)) throw (fun _ => ret tt) (fun _ => ret tt).

Definition noLinvelWorld : PhysicsWorld.t unit :=
  PhysicsWorld.mk true
    (PhysicsWorld.mkWorld (fun _ => ret noLinvelBody)
                          (fun _ _ => ret tt)
                          (fun _ _ _ => ret None)).

Definition overNoLinvel : Heap unit :=
  Session.spawn (PhysicsWorld.asPhysics noLinvelWorld) defaultOptions tt.

(** A body whose [setLinvel()] throws. *)
Definition noSetLinvelBody : RigidBody.t unit :=
  RigidBody.mk (ret (V3.mk 0 5 0)) (ret V3.zero) (fun _ => throw)
               (fun _ => ret tt).

Definition noSetLinvelWorld : PhysicsWorld.t unit :=
  PhysicsWorld.mk true
    (PhysicsWorld.mkWorld (fun _ => ret noSetLinvelBody)
                          (fun _ _ => ret tt)
                          (fun _ _ _ => ret None)).

Definition overNoSetLinvel : Heap unit :=
  Session.spawn (PhysicsWorld.asPhysics noSetLinvelWorld) defaultOptions tt.

(** A [physics] object whose [setBodyVelocity] throws: the failure that
    the [catch] of [handleMovement] is written for. *)
Definition throwingSetBodyVelocity : Physics.t unit :=
  Physics.mk
    (fun position _ _ => ret (Some (Character.mk (Some (restingBody position)))))
    (fun _ => ret false)
    (fun _ => ret (V3.mk 0 5 0))
    (fun _ _ => throw)
    (fun _ _ => ret tt).

Definition overThrowingSetBodyVelocity : Heap unit :=
  Session.spawn throwingSetBodyVelocity defaultOptions tt.

(** A grounded state below the resting height [y = 1] of the fallback
    integrator, as the physics path can leave it: the position is the
    origin, which [PhysicsWorld.getBodyPosition] answers when the engine
    fails. *)
Definition groundedAtOrigin : State :=
  mkState true false 0 (V3.mk 0 0 0) (V3.mk 0 0 0) (V3.mk 0 0 0)
          (V2.mk 0 (-1)) (V2.mk 0 0).

(** An engine that breaks at the first [setLinvel]: its state is whether
    it is broken, [translation()] always throws, and [linvel()] throws
    once it is broken. *)
Definition breakingBody : RigidBody.t bool :=
  RigidBody.mk throw
               (fun broken : bool =>
                  (if broken then Throw else Ok V3.zero, broken))
               (fun _ _ => (Ok tt, true))
               (fun _ => ret tt).

Definition breakingWorld : PhysicsWorld.t bool :=
  PhysicsWorld.mk true
    (PhysicsWorld.mkWorld (fun _ => ret breakingBody)
                          (fun _ _ => ret tt)
                          (fun _ _ _ => ret None)).

Definition overBreakingWorld : Heap bool :=
  Session.spawn (PhysicsWorld.asPhysics breakingWorld) defaultOptions false.

(** A grounded state at the resting height. *)
Definition groundedAtRest : State :=
  mkState true false 0 (V3.mk 0 0 0) (V3.mk 0 1 0) (V3.mk 0 0 0)
          (V2.mk 0 (-1)) (V2.mk 0 0).

(** Coming down from a jump, just above the resting height. *)
Definition comingDown : State :=
  mkState false true (1 / 10) (V3.mk 0 (-1) 0) (V3.mk 0 (105 / 100) 0)
          (V3.mk 0 0 0) (V2.mk 0 (-1)) (V2.mk 0 0).

(** Six frames of at most a tenth of a second: land, jump, then four
    frames without input. *)
Definition cooldownRun : list (Input.t * R) :=
  [(noInput, 1 / 10); (jumpPressed, 1 / 10); (noInput, 1 / 10);
   (noInput, 1 / 10); (noInput, 7 / 100); (noInput, 1 / 10)].

(** An initialised world with ground under the character: the ray cast
    hits after half a unit. *)
Definition solidGround : PhysicsWorld.t unit :=
  PhysicsWorld.mk true
    (PhysicsWorld.mkWorld (fun position => ret (restingBody position))
                          (fun _ _ => ret tt)
                          (fun _ _ _ => ret (Some (1 / 2)))).

Definition overSolidGround : Heap unit :=
  Session.spawn (PhysicsWorld.asPhysics solidGround) defaultOptions tt.
End Scenario.

(** ** Derived notions used to state the properties *)

Import CharacterController.

(** [wp m h Q]: running the method [m] from the heap [h] ends in an
    outcome and a heap that satisfy [Q]. *)
Definition wp {W A : Type} (m : M A) (h : Heap W)
           (Q : outcome A -> Heap W -> Prop) : Prop :=
  Q (returned m h) (after m h).

(** The timer after the cooldown statement
    [if (timer > 0) timer -= deltaTime]. *)
Definition ticked (deltaTime t : R) : R :=
  if Rgtb t 0 then t - deltaTime else t.

(** Whether a frame of the fallback integrator starts a jump: the jump
    condition, read after the cooldown statement. *)
Definition jumps (input : Input.t) (deltaTime : R) (s : State) : bool :=
  Input.isJumping input && isGrounded s
  && Rleb (ticked deltaTime (jumpCooldownTimer s)) 0.

(** The vertical velocity a frame of the fallback integrator ends with. *)
Definition verticalVelocity (o : Options) (input : Input.t) (deltaTime : R)
           (s : State) : R :=
  if jumps input deltaTime s then jumpForce o * (1 / 10)
  else if isGrounded s then 0
  else V3.y (velocity s) - 981 / 100 * deltaTime.

(** A run of fallback frames on the state alone. *)
Definition fallbackRun (o : Options) (fs : list (Input.t * R)) (s : State)
  : State :=
  fold_left (fun s f => updateFallbackMovement o (fst f) (snd f) s) fs s.

(** The same frames as requests to the controller. *)
Definition asRequests (fs : list (Input.t * R)) : list Session.Request :=
  map (fun f => Session.ReqUpdate (fst f) (snd f)) fs.

(** Both flags set: grounded and jumping at once. *)
Definition groundedAndJumping (s : State) : bool :=
  isGrounded s && isJumping s.

(** What holds of the controller between two frames over a
    [PhysicsWorld]: in fallback mode the character is at or above the
    resting height; in physics mode the two flags are not both set. *)
Definition betweenFrames {W : Type} (pw : PhysicsWorld.t W) (h : Heap W)
  : Prop :=
  physics (this h) = PhysicsWorld.asPhysics pw
  /\ (usingFallback (this h) = true -> 1 <= V3.y (position (state (this h))))
  /\ (usingFallback (this h) = false ->
      groundedAndJumping (state (this h)) = false).

(** [n] calls of [update] with the same input and time step. *)
Fixpoint repeatUpdate {W : Type} (n : nat) (input : Input.t) (deltaTime : R)
         (h : Heap W) : Heap W :=
  match n with
  | O => h
  | S n' => after (update input deltaTime) (repeatUpdate n' input deltaTime h)
  end.


(** ** [src/input.js]: class [InputHandler] *)

Module InputHandler.
Import String.
Local Open Scope string_scope.

(** [this.keys] *)
Record Keys : Type := mkKeys {
  forward : bool;
  backward : bool;
  left : bool;
  right : bool;
  jump : bool
}.

(** The property names of [this.keys]: the values of [this.keyCodes]. *)
Inductive Key : Type := Forward | Backward | Left | Right | Jump.

(** [this.keys[key]] *)
Definition getKey (key : Key) (keys : Keys) : bool :=
  match key with
  | Forward => forward keys
  | Backward => backward keys
  | Left => left keys
  | Right => right keys
  | Jump => jump keys
  end.

(** [this.keys[key] = value] *)
Definition setKey (key : Key) (value : bool) (keys : Keys) : Keys :=
  match key with
  | Forward =>
      mkKeys value (backward keys) (left keys) (right keys) (jump keys)
  | Backward =>
      mkKeys (forward keys) value (left keys) (right keys) (jump keys)
  | Left =>
      mkKeys (forward keys) (backward keys) value (right keys) (jump keys)
  | Right =>
      mkKeys (forward keys) (backward keys) (left keys) value (jump keys)
  | Jump =>
      mkKeys (forward keys) (backward keys) (left keys) (right keys) value
  end.

(** The key states set by [new InputHandler()]. *)
Definition initialKeys : Keys := mkKeys false false false false false.

(** A [KeyboardEvent], by the two fields the handlers read: [code]
    ([None] where the browser leaves it undefined) and [keyCode] ([0]
    where it is [0] or undefined: both are falsy). *)
Record KeyboardEvent : Type := mkEvent {
  code : option string;
  keyCode : Z
}.

(** The values the local [keyName] takes: [event.code] or
    [event.keyCode]. *)
Inductive KeyName : Type :=
| OfCode (code : option string)
| OfKeyCode (keyCode : Z).

(** [this.keyCodes[keyName]], [None] for [undefined].  A number indexes
    the object by its decimal spelling, so the string ["87"] finds the
    same entry as the number [87].  [event.code] is taken to be a
    keyboard code value: the properties that every object inherits
    ([constructor], [toString], ...) are not among the names looked up. *)
Definition keyCodes (keyName : KeyName) : option Key :=
  match keyName with
  | OfCode None => None
  | OfCode (Some name) =>
      if String.eqb name "KeyW" then Some Forward
      else if String.eqb name "KeyS" then Some Backward
      else if String.eqb name "KeyA" then Some Left
      else if String.eqb name "KeyD" then Some Right
      else if String.eqb name "Space" then Some Jump
      else if String.eqb name "87" then Some Forward
      else if String.eqb name "83" then Some Backward
      else if String.eqb name "65" then Some Left
      else if String.eqb name "68" then Some Right
      else if String.eqb name "32" then Some Jump
      else None
  | OfKeyCode n =>
      if Z.eqb n 87 then Some Forward
      else if Z.eqb n 83 then Some Backward
      else if Z.eqb n 65 then Some Left
      else if Z.eqb n 68 then Some Right
      else if Z.eqb n 32 then Some Jump
      else None
  end.

(** The value of [keyName] after
    [if (!this.keyCodes[keyName] && event.keyCode) keyName = event.keyCode;] *)
Definition keyNameOf (event : KeyboardEvent) : KeyName :=
  let keyName := OfCode (code event) in
  match keyCodes keyName with
  | Some _ => keyName
  | None => if Z.eqb (keyCode event) 0 then keyName
            else OfKeyCode (keyCode event)
  end.

(** [onKeyDown(event)]; the debug display is not modelled. *)
Definition onKeyDown (event : KeyboardEvent) (keys : Keys) : Keys :=
  let keyName := keyNameOf event in
  match keyCodes keyName with
  | Some key => setKey key true keys
  | None => keys
  end.

(** [onKeyUp(event)] *)
Definition onKeyUp (event : KeyboardEvent) (keys : Keys) : Keys :=
  let keyName := keyNameOf event in
  match keyCodes keyName with
  | Some key => setKey key false keys
  | None => keys
  end.

(** [getMovementDirection()] *)
Definition getMovementDirection (keys : Keys) : V2.t :=
  let direction := V2.mk 0 0 in
  let direction := if forward keys
                   then V2.mk (V2.x direction) (V2.z direction - 1)
                   else direction in
  let direction := if backward keys
                   then V2.mk (V2.x direction) (V2.z direction + 1)
                   else direction in
  let direction := if left keys
                   then V2.mk (V2.x direction - 1) (V2.z direction)
                   else direction in
  let direction := if right keys
                   then V2.mk (V2.x direction + 1) (V2.z direction)
                   else direction in
  let length := sqrt (V2.x direction * V2.x direction
                      + V2.z direction * V2.z direction) in
  if Rgtb length 0 then
    let direction := V2.mk (V2.x direction / length) (V2.z direction) in
    V2.mk (V2.x direction) (V2.z direction / length)
  else direction.

(** [isJumping()] *)
Definition isJumping (keys : Keys) : bool := jump keys.

(** The input handler as the controller reads it during one frame: no
    event handler runs while [update] does. *)
Definition asInput (keys : Keys) : Input.t :=
  Input.mk (getMovementDirection keys) (isJumping keys).

End InputHandler.

(** ** [src/main.js]: the frame time of [Application.gameLoop] *)

Module Application.

(** The value of [this.deltaTime] that [gameLoop(currentTime)] passes to
    [this.character.update]: the time since the last frame in seconds,
    [if (this.deltaTime > 0.1) this.deltaTime = 0.1;]. *)
Definition deltaTime (lastTime currentTime : R) : R :=
  let deltaTime := (currentTime - lastTime) / 1000 in
  if Rgtb deltaTime (1 / 10) then 1 / 10 else deltaTime.

End Application.

(** ** Further notions used to state the properties *)

Import CharacterController.

(** The direction vector is the one of the yaw, as [updateRotation]
    leaves it. *)
Definition facesYaw (s : State) : Prop :=
  direction s = V2.mk (sin (V3.y (rotation s))) (cos (V3.y (rotation s))).

(** The value of [angleDiff] in [updateRotation] for a movement input:
    the signed angle left to turn. *)
Definition headingError (move : V2.t) (s : State) : R :=
  shortestDiff (atan2 (V2.x move) (V2.z move))
               (normalizeAngle (V3.y (rotation s))).

(** The square of the horizontal speed of a velocity. *)
Definition horizontalSpeed2 (v : V3.t) : R :=
  V3.x v * V3.x v + V3.z v * V3.z v.

(** Whether a movement input makes the controller move and turn: the
    condition [inputDirection.x !== 0 || inputDirection.z !== 0]. *)
Definition moving (move : V2.t) : bool :=
  Rneqb (V2.x move) 0 || Rneqb (V2.z move) 0.

(** The time a run of frames takes. *)
Definition elapsed (fs : list (Input.t * R)) : R :=
  fold_right (fun f t => snd f + t) 0 fs.
(** * Properties *)

(** ** Tactics *)

(** Split on every comparison of numbers in the goal, innermost first,
    closing the cases that contradict the context. *)
Ltac no_conditional a :=
  lazymatch a with
  | context [if _ then _ else _] => fail
  | _ => idtac
  end.

Ltac split_comparisons :=
  repeat match goal with
    | |- context [Rgt_dec ?a ?b] =>
        no_conditional a; no_conditional b;
        destruct (Rgt_dec a b); try (exfalso; lra)
    | |- context [Rlt_dec ?a ?b] =>
        no_conditional a; no_conditional b;
        destruct (Rlt_dec a b); try (exfalso; lra)
    | |- context [Rle_dec ?a ?b] =>
        no_conditional a; no_conditional b;
        destruct (Rle_dec a b); try (exfalso; lra)
    | |- context [Req_dec_T ?a ?b] =>
        no_conditional a; no_conditional b;
        destruct (Req_dec_T a b); try (exfalso; lra)
    end.

Ltac heap_simpl :=
  cbn [this engine calls physics options state usingFallback character
       set_state set_usingFallback Character.body bodyOf] in *.

Ltac unfold_fields :=
  cbv beta iota zeta delta
    [set_isGrounded set_isJumping set_jumpCooldownTimer set_velocity
     set_position set_rotation set_direction set_movementDirection
     isGrounded isJumping jumpCooldownTimer velocity position rotation
     direction movementDirection
     V3.set_x V3.set_y V3.set_z V3.x V3.y V3.z V2.x V2.z
     Input.getMovementDirection Input.isJumping andb orb negb] in *.

Ltac split_ifs :=
  repeat match goal with
    | |- context [if ?c then _ else _] => destruct c
    end.

(** Close an equation between a field of a block's result and a term
    over the block's argument. *)
Ltac solve_block s :=
  destruct s as [[|] [|] ? [? ? ?] [? ? ?] [? ? ?] [? ?] [? ?]];
  unfold_fields; split_ifs; unfold_fields; reflexivity.

(** ** A weakest-precondition calculus for the methods *)

Section WP.
Context {W : Type}.

Lemma wp_ret {A} (a : A) (h : Heap W) Q : Q (Ok a) h -> wp (ret a) h Q.
Proof. exact (fun H => H). Qed.

Lemma wp_throw {A} (h : Heap W) (Q : outcome A -> Heap W -> Prop) :
  Q Throw h -> wp throw h Q.
Proof. exact (fun H => H). Qed.

Lemma wp_bind {A B} (m : M A) (k : A -> M B) (h : Heap W) Q :
  wp m h (fun r h' => match r with
                      | Ok a => wp (k a) h' Q
                      | Throw => Q Throw h'
                      end) ->
  wp (bind m k) h Q.
Proof.
  unfold wp, returned, after, bind.
  destruct (m h) as [[a|] h']; exact (fun H => H).
Qed.

Lemma wp_try_catch {A} (m handler : M A) (h : Heap W) Q :
  wp m h (fun r h' => match r with
                      | Ok a => Q (Ok a) h'
                      | Throw => wp handler h' Q
                      end) ->
  wp (try_catch m handler) h Q.
Proof.
  unfold wp, returned, after, try_catch.
  destruct (m h) as [[a|] h']; exact (fun H => H).
Qed.

Lemma wp_readThis (h : Heap W) Q : Q (Ok (this h)) h -> wp readThis h Q.
Proof. exact (fun H => H). Qed.

Lemma wp_assignState f (h : Heap W) Q :
  Q (Ok tt) (mkHeap (set_state (f (state (this h))) (this h))
                    (engine h) (calls h)) ->
  wp (assignState f) h Q.
Proof. exact (fun H => H). Qed.

Lemma wp_assignUsingFallback b (h : Heap W) Q :
  Q (Ok tt) (mkHeap (set_usingFallback b (this h)) (engine h) (calls h)) ->
  wp (assignUsingFallback b) h Q.
Proof. exact (fun H => H). Qed.

Lemma wp_record c (h : Heap W) Q :
  Q (Ok tt) (mkHeap (this h) (engine h) (calls h ++ [c])) ->
  wp (record c) h Q.
Proof. exact (fun H => H). Qed.

Lemma wp_engineCall {A} (e : Exn W A) (h : Heap W) Q :
  (forall r w, e (engine h) = (r, w) -> Q r (mkHeap (this h) w (calls h))) ->
  wp (engineCall e) h Q.
Proof.
  unfold wp, returned, after, engineCall. intros H.
  specialize (H (fst (e (engine h))) (snd (e (engine h)))).
  destruct (e (engine h)) as [r w]. apply H. reflexivity.
Qed.

Lemma wp_after {A} (m : M A) (h : Heap W) (P : Heap W -> Prop) :
  wp m h (fun _ h' => P h') -> P (after m h).
Proof. exact (fun H => H). Qed.

Lemma wp_returned {A} (m : M A) (h : Heap W) (P : outcome A -> Prop) :
  wp m h (fun r _ => P r) -> P (returned m h).
Proof. exact (fun H => H). Qed.
End WP.

(** One step of symbolic execution; an engine call is split into its
    two outcomes. *)
Ltac wp_step :=
  heap_simpl;
  lazymatch goal with
  | |- wp (bind _ _) _ _ => apply wp_bind
  | |- wp (try_catch _ _) _ _ => apply wp_try_catch
  | |- wp (ret _) _ _ => apply wp_ret
  | |- wp throw _ _ => apply wp_throw
  | |- wp readThis _ _ => apply wp_readThis
  | |- wp (assignState _) _ _ => apply wp_assignState
  | |- wp (assignUsingFallback _) _ _ => apply wp_assignUsingFallback
  | |- wp (record _) _ _ => apply wp_record
  | |- wp (engineCall _) _ _ =>
      let r := fresh "r" in
      let w := fresh "w" in
      let E := fresh "E" in
      apply wp_engineCall; intros r w E; destruct r
  | |- wp (handleMovement _ _) _ _ => unfold handleMovement
  | |- wp (handleJump _ _) _ _ => unfold handleJump
  | |- wp (updatePhysics _ _ _) _ _ => unfold updatePhysics
  | |- wp (callUpdateFallbackMovement _ _) _ _ =>
      unfold callUpdateFallbackMovement
  | |- wp (update _ _) _ _ => unfold update
  | |- wp getPosition _ _ => unfold getPosition
  | |- wp getState _ _ => unfold getState
  | |- wp (if ?b then _ else _) _ _ => destruct b eqn:?
  | |- wp (match ?o with Some _ => _ | None => _ end) _ _ => destruct o eqn:?
  end.

Ltac wp_run := repeat wp_step; heap_simpl.

(** Take a heap apart so that its fields compute. *)
Ltac open_heap h :=
  let ph := fresh "ph" in
  let o := fresh "o" in
  let s := fresh "s" in
  let uf := fresh "uf" in
  let ch := fresh "ch" in
  let w := fresh "w" in
  let cs := fresh "cs" in
  destruct h as [[ph o s uf ch] w cs]; heap_simpl.

(** Decide the comparisons of concrete numbers in the goal. *)
Ltac decide_comparisons :=
  unfold Rgtb, Rltb, Rleb, Rneqb; split_comparisons.

(** Evaluate the engine calls of a run over a concrete engine. *)
Ltac eval_calls :=
  repeat match goal with
    | E : _ = (_, _) |- _ =>
        cbv beta iota zeta delta
          [PhysicsWorld.asPhysics PhysicsWorld.isGrounded
           PhysicsWorld.getBodyPosition PhysicsWorld.setBodyVelocity
           PhysicsWorld.applyImpulse PhysicsWorld.createFallbackBody
           PhysicsWorld.createFallbackWorld PhysicsWorld.fallbackWorld
           PhysicsWorld.uninitialized PhysicsWorld.initialized
           PhysicsWorld.world PhysicsWorld.castRay
           Physics.isGrounded Physics.getBodyPosition Physics.setBodyVelocity
           Physics.applyImpulse
           RigidBody.translation RigidBody.linvel RigidBody.setLinvel
           RigidBody.applyImpulse
           Scenario.restingBody Scenario.emptyWorld Scenario.noTranslationBody
           Scenario.noTranslationWorld Scenario.noLinvelBody
           Scenario.noLinvelWorld Scenario.throwingSetBodyVelocity
           Scenario.noSetLinvelBody Scenario.noSetLinvelWorld
           Scenario.breakingBody Scenario.breakingWorld
           try_catch bind ret throw negb] in E;
        first [ discriminate E
              | injection E as <- <-
              | injection E as <- ]
    end.

(** ** The blocks of the fallback integrator, field by field *)

Section Blocks.
Variables (o : Options) (input : Input.t) (deltaTime : R).

(** [updateRotation] writes [rotation] and [direction] only. *)
Lemma updateRotation_isGrounded d s :
  isGrounded (updateRotation o d deltaTime s) = isGrounded s.
Proof. unfold updateRotation. solve_block s. Qed.
Lemma updateRotation_isJumping d s :
  isJumping (updateRotation o d deltaTime s) = isJumping s.
Proof. unfold updateRotation. solve_block s. Qed.
Lemma updateRotation_jumpCooldownTimer d s :
  jumpCooldownTimer (updateRotation o d deltaTime s) = jumpCooldownTimer s.
Proof. unfold updateRotation. solve_block s. Qed.
Lemma updateRotation_velocity d s :
  velocity (updateRotation o d deltaTime s) = velocity s.
Proof. unfold updateRotation. solve_block s. Qed.
Lemma updateRotation_position d s :
  position (updateRotation o d deltaTime s) = position s.
Proof. unfold updateRotation. solve_block s. Qed.

(** The gravity block. *)
Lemma fallbackGravity_isGrounded s :
  isGrounded (fallbackGravity deltaTime s) = isGrounded s.
Proof. unfold fallbackGravity. solve_block s. Qed.
Lemma fallbackGravity_isJumping s :
  isJumping (fallbackGravity deltaTime s)
  = if isGrounded s then false else isJumping s.
Proof. unfold fallbackGravity, negb. solve_block s. Qed.
Lemma fallbackGravity_jumpCooldownTimer s :
  jumpCooldownTimer (fallbackGravity deltaTime s) = jumpCooldownTimer s.
Proof. unfold fallbackGravity. solve_block s. Qed.
Lemma fallbackGravity_velocity_y s :
  V3.y (velocity (fallbackGravity deltaTime s))
  = if isGrounded s then 0 else V3.y (velocity s) - 981 / 100 * deltaTime.
Proof. unfold fallbackGravity, negb. solve_block s. Qed.
Lemma fallbackGravity_position s :
  position (fallbackGravity deltaTime s) = position s.
Proof. unfold fallbackGravity. solve_block s. Qed.
Lemma fallbackGravity_rotation s :
  rotation (fallbackGravity deltaTime s) = rotation s.
Proof. unfold fallbackGravity. solve_block s. Qed.

(** The cooldown statement. *)
Lemma tickCooldown_isGrounded s :
  isGrounded (tickCooldown deltaTime s) = isGrounded s.
Proof. unfold tickCooldown. solve_block s. Qed.
Lemma tickCooldown_isJumping s :
  isJumping (tickCooldown deltaTime s) = isJumping s.
Proof. unfold tickCooldown. solve_block s. Qed.
Lemma tickCooldown_jumpCooldownTimer s :
  jumpCooldownTimer (tickCooldown deltaTime s)
  = if Rgtb (jumpCooldownTimer s) 0
    then jumpCooldownTimer s - deltaTime else jumpCooldownTimer s.
Proof. unfold tickCooldown. solve_block s. Qed.
Lemma tickCooldown_velocity s :
  velocity (tickCooldown deltaTime s) = velocity s.
Proof. unfold tickCooldown. solve_block s. Qed.
Lemma tickCooldown_position s :
  position (tickCooldown deltaTime s) = position s.
Proof. unfold tickCooldown. solve_block s. Qed.
Lemma tickCooldown_rotation s :
  rotation (tickCooldown deltaTime s) = rotation s.
Proof. unfold tickCooldown. solve_block s. Qed.

(** The jump block. *)
Lemma fallbackJump_isGrounded s :
  isGrounded (fallbackJump o input s)
  = if canJump input s then false else isGrounded s.
Proof. unfold fallbackJump. solve_block s. Qed.
Lemma fallbackJump_isJumping s :
  isJumping (fallbackJump o input s)
  = if canJump input s then true else isJumping s.
Proof. unfold fallbackJump. solve_block s. Qed.
Lemma fallbackJump_jumpCooldownTimer s :
  jumpCooldownTimer (fallbackJump o input s)
  = if canJump input s then jumpCooldown o else jumpCooldownTimer s.
Proof. unfold fallbackJump. solve_block s. Qed.
Lemma fallbackJump_velocity_y s :
  V3.y (velocity (fallbackJump o input s))
  = if canJump input s then jumpForce o * (1 / 10) else V3.y (velocity s).
Proof. unfold fallbackJump. solve_block s. Qed.
Lemma fallbackJump_position s :
  position (fallbackJump o input s) = position s.
Proof. unfold fallbackJump. solve_block s. Qed.
Lemma fallbackJump_rotation s :
  rotation (fallbackJump o input s) = rotation s.
Proof. unfold fallbackJump. solve_block s. Qed.

(** The horizontal movement and decay block. *)
Lemma fallbackHorizontal_isGrounded d s :
  isGrounded (fallbackHorizontal o d s) = isGrounded s.
Proof. unfold fallbackHorizontal. solve_block s. Qed.
Lemma fallbackHorizontal_isJumping d s :
  isJumping (fallbackHorizontal o d s) = isJumping s.
Proof. unfold fallbackHorizontal. solve_block s. Qed.
Lemma fallbackHorizontal_jumpCooldownTimer d s :
  jumpCooldownTimer (fallbackHorizontal o d s) = jumpCooldownTimer s.
Proof. unfold fallbackHorizontal. solve_block s. Qed.
Lemma fallbackHorizontal_velocity_y d s :
  V3.y (velocity (fallbackHorizontal o d s)) = V3.y (velocity s).
Proof. unfold fallbackHorizontal. solve_block s. Qed.
Lemma fallbackHorizontal_position d s :
  position (fallbackHorizontal o d s) = position s.
Proof. unfold fallbackHorizontal. solve_block s. Qed.
Lemma fallbackHorizontal_rotation d s :
  rotation (fallbackHorizontal o d s) = rotation s.
Proof. unfold fallbackHorizontal. solve_block s. Qed.

(** The position update. *)
Lemma fallbackIntegrate_isGrounded s :
  isGrounded (fallbackIntegrate deltaTime s) = isGrounded s.
Proof. unfold fallbackIntegrate. solve_block s. Qed.
Lemma fallbackIntegrate_isJumping s :
  isJumping (fallbackIntegrate deltaTime s) = isJumping s.
Proof. unfold fallbackIntegrate. solve_block s. Qed.
Lemma fallbackIntegrate_jumpCooldownTimer s :
  jumpCooldownTimer (fallbackIntegrate deltaTime s) = jumpCooldownTimer s.
Proof. unfold fallbackIntegrate. solve_block s. Qed.
Lemma fallbackIntegrate_velocity s :
  velocity (fallbackIntegrate deltaTime s) = velocity s.
Proof. unfold fallbackIntegrate. solve_block s. Qed.
Lemma fallbackIntegrate_position s :
  position (fallbackIntegrate deltaTime s)
  = V3.mk (V3.x (position s) + V3.x (velocity s) * deltaTime)
          (V3.y (position s) + V3.y (velocity s) * deltaTime)
          (V3.z (position s) + V3.z (velocity s) * deltaTime).
Proof. unfold fallbackIntegrate. solve_block s. Qed.
Lemma fallbackIntegrate_rotation s :
  rotation (fallbackIntegrate deltaTime s) = rotation s.
Proof. unfold fallbackIntegrate. solve_block s. Qed.

(** The ground collision. *)
Lemma fallbackGroundCollision_isGrounded s :
  isGrounded (fallbackGroundCollision s) = Rltb (V3.y (position s)) 1.
Proof. unfold fallbackGroundCollision. solve_block s. Qed.
Lemma fallbackGroundCollision_isJumping s :
  isJumping (fallbackGroundCollision s) = isJumping s.
Proof. unfold fallbackGroundCollision. solve_block s. Qed.
Lemma fallbackGroundCollision_jumpCooldownTimer s :
  jumpCooldownTimer (fallbackGroundCollision s) = jumpCooldownTimer s.
Proof. unfold fallbackGroundCollision. solve_block s. Qed.
Lemma fallbackGroundCollision_velocity s :
  velocity (fallbackGroundCollision s) = velocity s.
Proof. unfold fallbackGroundCollision. solve_block s. Qed.
Lemma fallbackGroundCollision_position s :
  position (fallbackGroundCollision s)
  = V3.mk (V3.x (position s))
          (if Rltb (V3.y (position s)) 1 then 1 else V3.y (position s))
          (V3.z (position s)).
Proof. unfold fallbackGroundCollision. solve_block s. Qed.
Lemma fallbackGroundCollision_rotation s :
  rotation (fallbackGroundCollision s) = rotation s.
Proof. unfold fallbackGroundCollision. solve_block s. Qed.

(** The landing reset of [handleJump]. *)
Lemma landingReset_isGrounded s : isGrounded (landingReset s) = isGrounded s.
Proof. unfold landingReset. solve_block s. Qed.
Lemma landingReset_isJumping s :
  isJumping (landingReset s) = if isGrounded s then false else isJumping s.
Proof. unfold landingReset. solve_block s. Qed.
Lemma landingReset_jumpCooldownTimer s :
  jumpCooldownTimer (landingReset s) = jumpCooldownTimer s.
Proof. unfold landingReset. solve_block s. Qed.
Lemma landingReset_velocity s : velocity (landingReset s) = velocity s.
Proof. unfold landingReset. solve_block s. Qed.
Lemma landingReset_position s : position (landingReset s) = position s.
Proof. unfold landingReset. solve_block s. Qed.
Lemma landingReset_rotation s : rotation (landingReset s) = rotation s.
Proof. unfold landingReset. solve_block s. Qed.

(** Without movement input, [updateRotation] does nothing. *)
Lemma updateRotation_still d s :
  V2.x d = 0 -> V2.z d = 0 -> updateRotation o d deltaTime s = s.
Proof.
  intros Hx Hz. unfold updateRotation, Rneqb. rewrite Hx, Hz.
  destruct (Req_dec_T 0 0) as [_ | Hne]; [reflexivity | contradiction].
Qed.

Lemma set_movementDirection_fields d s :
  isGrounded (set_movementDirection d s) = isGrounded s
  /\ isJumping (set_movementDirection d s) = isJumping s
  /\ jumpCooldownTimer (set_movementDirection d s) = jumpCooldownTimer s
  /\ velocity (set_movementDirection d s) = velocity s
  /\ position (set_movementDirection d s) = position s
  /\ rotation (set_movementDirection d s) = rotation s
  /\ direction (set_movementDirection d s) = direction s.
Proof. repeat split. Qed.
End Blocks.

Create Rewrite HintDb blocks.
#[local] Hint Rewrite
  updateRotation_isGrounded updateRotation_isJumping
  updateRotation_jumpCooldownTimer updateRotation_velocity
  updateRotation_position
  fallbackGravity_isGrounded fallbackGravity_isJumping
  fallbackGravity_jumpCooldownTimer fallbackGravity_velocity_y
  fallbackGravity_position fallbackGravity_rotation
  tickCooldown_isGrounded tickCooldown_isJumping
  tickCooldown_jumpCooldownTimer tickCooldown_velocity
  tickCooldown_position tickCooldown_rotation
  fallbackJump_isGrounded fallbackJump_isJumping
  fallbackJump_jumpCooldownTimer fallbackJump_velocity_y
  fallbackJump_position fallbackJump_rotation
  fallbackHorizontal_isGrounded fallbackHorizontal_isJumping
  fallbackHorizontal_jumpCooldownTimer fallbackHorizontal_velocity_y
  fallbackHorizontal_position fallbackHorizontal_rotation
  fallbackIntegrate_isGrounded fallbackIntegrate_isJumping
  fallbackIntegrate_jumpCooldownTimer fallbackIntegrate_velocity
  fallbackIntegrate_position fallbackIntegrate_rotation
  fallbackGroundCollision_isGrounded fallbackGroundCollision_isJumping
  fallbackGroundCollision_jumpCooldownTimer fallbackGroundCollision_velocity
  fallbackGroundCollision_position fallbackGroundCollision_rotation
  landingReset_isGrounded landingReset_isJumping
  landingReset_jumpCooldownTimer landingReset_velocity
  landingReset_position landingReset_rotation
  : blocks.

(** Push the field projections through the blocks and the assignments. *)
Ltac state_simpl :=
  repeat (progress
            (autorewrite with blocks in *;
             cbn [set_isGrounded set_isJumping set_jumpCooldownTimer
                  set_velocity set_position set_rotation set_direction
                  set_movementDirection
                  isGrounded isJumping jumpCooldownTimer velocity position
                  rotation direction movementDirection initialState
                  V3.set_x V3.set_y V3.set_z V3.x V3.y V3.z V3.zero V2.x V2.z
                  Input.getMovementDirection Input.isJumping
                  Scenario.noInput Scenario.jumpPressed Scenario.moveRight
                  Scenario.groundedAtOrigin Scenario.groundedAtRest
                  Scenario.comingDown
                  defaultOptions moveSpeed jumpForce jumpCooldown
                  rotationSpeed airControl
                  andb orb negb] in *)).

Section FallbackFrame.
Variables (o : Options) (input : Input.t) (deltaTime : R).

Lemma canJump_after_gravity d s :
  canJump input
    (tickCooldown deltaTime
       (fallbackGravity deltaTime
          (updateRotation o d deltaTime (set_movementDirection d s))))
  = jumps input deltaTime s.
Proof.
  unfold canJump, jumps, ticked. autorewrite with blocks. reflexivity.
Qed.

Lemma updateFallbackMovement_jumpCooldownTimer s :
  jumpCooldownTimer (updateFallbackMovement o input deltaTime s)
  = if jumps input deltaTime s then jumpCooldown o
    else ticked deltaTime (jumpCooldownTimer s).
Proof.
  unfold updateFallbackMovement. autorewrite with blocks.
  rewrite canJump_after_gravity. reflexivity.
Qed.

Lemma updateFallbackMovement_isJumping s :
  isJumping (updateFallbackMovement o input deltaTime s)
  = if jumps input deltaTime s then true
    else if isGrounded s then false else isJumping s.
Proof.
  unfold updateFallbackMovement. autorewrite with blocks.
  rewrite canJump_after_gravity. reflexivity.
Qed.

Lemma updateFallbackMovement_velocity_y s :
  V3.y (velocity (updateFallbackMovement o input deltaTime s))
  = verticalVelocity o input deltaTime s.
Proof.
  unfold updateFallbackMovement, verticalVelocity. autorewrite with blocks.
  rewrite canJump_after_gravity. autorewrite with blocks. reflexivity.
Qed.

Lemma updateFallbackMovement_position_y s :
  V3.y (position (updateFallbackMovement o input deltaTime s))
  = let y := V3.y (position s) + verticalVelocity o input deltaTime s * deltaTime in
    if Rltb y 1 then 1 else y.
Proof.
  unfold updateFallbackMovement, verticalVelocity. autorewrite with blocks.
  cbn [V3.y]. autorewrite with blocks.
  rewrite canJump_after_gravity. autorewrite with blocks. reflexivity.
Qed.

Lemma updateFallbackMovement_isGrounded s :
  isGrounded (updateFallbackMovement o input deltaTime s)
  = Rltb (V3.y (position s) + verticalVelocity o input deltaTime s * deltaTime) 1.
Proof.
  unfold updateFallbackMovement, verticalVelocity. autorewrite with blocks.
  cbn [V3.y]. autorewrite with blocks.
  rewrite canJump_after_gravity. autorewrite with blocks. reflexivity.
Qed.

Lemma updateFallbackMovement_rotation s :
  rotation (updateFallbackMovement o input deltaTime s)
  = rotation (updateRotation o (Input.getMovementDirection input) deltaTime s).
Proof.
  unfold updateFallbackMovement. autorewrite with blocks.
  unfold updateRotation. solve_block s.
Qed.

(** An airborne frame of the fallback integrator takes [9.81 * deltaTime]
    off the vertical velocity. *)
Lemma airborne_frame_velocity_y s :
  isGrounded s = false ->
  V3.y (velocity (updateFallbackMovement o input deltaTime s))
  = V3.y (velocity s) - 981 / 100 * deltaTime.
Proof.
  intros Hairborne. rewrite updateFallbackMovement_velocity_y.
  unfold verticalVelocity, jumps. rewrite Hairborne, andb_false_r.
  reflexivity.
Qed.
End FallbackFrame.

(** Evaluate the fields of a run of fallback frames from a concrete
    state. *)
Ltac eval_fallback_frames :=
  repeat (progress
            (rewrite ?updateFallbackMovement_jumpCooldownTimer,
               ?updateFallbackMovement_isJumping,
               ?updateFallbackMovement_isGrounded,
               ?updateFallbackMovement_position_y,
               ?updateFallbackMovement_velocity_y;
             unfold jumps, verticalVelocity; state_simpl));
  unfold ticked, Rgtb, Rltb, Rleb, Rneqb;
  repeat (progress (state_simpl; split_comparisons)).

(** ** Frames in general *)

Section Frames.
Context {W : Type}.

(** In fallback mode, [update] is [updateFallbackMovement] on the state
    and nothing else. *)
Lemma update_in_fallback input deltaTime (h : Heap W) :
  usingFallback (this h) = true ->
  update input deltaTime h
  = (Ok tt,
     mkHeap (set_state (updateFallbackMovement (options (this h)) input
                                               deltaTime (state (this h)))
                       (this h))
            (engine h)
            (calls h ++ [CallUpdateFallbackMovement input deltaTime])).
Proof.
  intros Hmode. open_heap h. subst uf. reflexivity.
Qed.

(** [update] never assigns [this.physics] or [this.options]. *)
Lemma update_keeps_physics input deltaTime (h : Heap W) :
  physics (this (after (update input deltaTime) h)) = physics (this h)
  /\ options (this (after (update input deltaTime) h)) = options (this h).
Proof.
  apply (wp_after (update input deltaTime) h
           (fun h' => physics (this h') = physics (this h)
                      /\ options (this h') = options (this h))).
  open_heap h. wp_run; split; reflexivity.
Qed.

(** [update] never throws outward, whatever [physics] and the engine do. *)
Lemma update_never_throws input deltaTime (h : Heap W) :
  returned (update input deltaTime) h = Ok tt.
Proof.
  apply (wp_returned (update input deltaTime) h (fun r => r = Ok tt)).
  open_heap h. wp_run; try reflexivity.
  all: match goal with u : unit |- _ => destruct u; reflexivity end.
Qed.

(** [new CharacterController(physics, options)] never throws either. *)
Lemma constructor_never_throws (physics : Physics.t W) o w w' :
  constructor physics o w <> (Throw, w').
Proof.
  unfold constructor, try_catch, bind, ret.
  destruct (Physics.createCharacter physics _ _ _ w) as [[c |] w1];
    discriminate.
Qed.

End Frames.

(** The floor of the fallback integrator. *)
Lemma fallback_floor o input deltaTime s :
  1 <= V3.y (position (updateFallbackMovement o input deltaTime s))
  /\ (isGrounded (updateFallbackMovement o input deltaTime s) = true ->
      V3.y (position (updateFallbackMovement o input deltaTime s)) = 1).
Proof.
  rewrite updateFallbackMovement_position_y, updateFallbackMovement_isGrounded.
  cbv zeta. unfold Rltb.
  destruct (Rlt_dec _ 1) as [Hbelow | Habove].
  - split; [lra | reflexivity].
  - split; [lra | discriminate].
Qed.

(** *** The wrappers of [PhysicsWorld] *)

Section Wrappers.
Context {W : Type}.

(** The wrappers of [PhysicsWorld] catch every engine failure. *)
Lemma isGrounded_never_throws (pw : PhysicsWorld.t W) body rayLength w w' :
  PhysicsWorld.isGrounded pw body rayLength w <> (Throw, w').
Proof.
  unfold PhysicsWorld.isGrounded, try_catch, bind, ret.
  destruct body as [b |]; [| discriminate].
  destruct (negb (PhysicsWorld.initialized pw)); [discriminate |].
  destruct (RigidBody.translation b w) as [[p |] w1]; [| discriminate].
  destruct (PhysicsWorld.castRay _ _ _ _ w1) as [[hit |] w2]; discriminate.
Qed.

Lemma getBodyPosition_never_throws (body : option (RigidBody.t W)) w w' :
  PhysicsWorld.getBodyPosition body w <> (Throw, w').
Proof.
  unfold PhysicsWorld.getBodyPosition, try_catch, bind, ret.
  destruct body as [b |]; [| discriminate].
  destruct (RigidBody.translation b w) as [[p |] w1]; discriminate.
Qed.

Lemma setBodyVelocity_never_throws (body : option (RigidBody.t W)) v w w' :
  PhysicsWorld.setBodyVelocity body v w <> (Throw, w').
Proof.
  unfold PhysicsWorld.setBodyVelocity, try_catch, ret.
  destruct body as [b |]; [| discriminate].
  destruct (RigidBody.setLinvel b _ w) as [[u |] w1]; discriminate.
Qed.

Lemma applyImpulse_never_throws (body : option (RigidBody.t W)) v w w' :
  PhysicsWorld.applyImpulse body v w <> (Throw, w').
Proof.
  unfold PhysicsWorld.applyImpulse, try_catch, ret.
  destruct body as [b |]; [| discriminate].
  destruct (RigidBody.applyImpulse b _ w) as [[u |] w1]; discriminate.
Qed.

End Wrappers.

(** Read the calls on [physics] as calls on a [PhysicsWorld], and drop
    the cases in which a wrapper would have thrown. *)
Ltac over_physicsWorld :=
  cbn [PhysicsWorld.asPhysics Physics.isGrounded Physics.getBodyPosition
       Physics.setBodyVelocity Physics.applyImpulse] in *;
  repeat match goal with
    | E : PhysicsWorld.isGrounded _ _ _ _ = (Throw, _) |- _ =>
        destruct (isGrounded_never_throws _ _ _ _ _ E)
    | E : PhysicsWorld.getBodyPosition _ _ = (Throw, _) |- _ =>
        destruct (getBodyPosition_never_throws _ _ _ E)
    | E : PhysicsWorld.setBodyVelocity _ _ _ = (Throw, _) |- _ =>
        destruct (setBodyVelocity_never_throws _ _ _ _ E)
    | E : PhysicsWorld.applyImpulse _ _ _ = (Throw, _) |- _ =>
        destruct (applyImpulse_never_throws _ _ _ _ E)
    end.

(** ** C1: which failures are reprocessed through the fallback path *)

Section Reprocessing.
Context {W : Type}.

(** The [catch] of [update]: a failure of the velocity read degrades the
    mode and runs [updateFallbackMovement] with the same input and
    [deltaTime], on the state as the [try] block left it. *)
Lemma velocity_read_failure_is_reprocessed (h : Heap W) (b : RigidBody.t W)
      input deltaTime g w1 w2 :
  usingFallback (this h) = false ->
  character (this h) = Some (Character.mk (Some b)) ->
  Physics.isGrounded (physics (this h)) (Some b) (engine h) = (Ok g, w1) ->
  RigidBody.linvel b w1 = (Throw, w2) ->
  update input deltaTime h
  = (Ok tt,
     mkHeap (set_usingFallback true
               (set_state
                  (updateFallbackMovement (options (this h)) input deltaTime
                     (tickCooldown deltaTime
                        (set_isGrounded g (state (this h)))))
                  (this h)))
            w2
            (calls h ++ [CallIsGrounded; CallLinvel;
                         CallUpdateFallbackMovement input deltaTime])).
Proof.
  intros Hmode Hbody Hprobe Hread. open_heap h. subst uf ch.
  unfold update, updatePhysics, try_catch, bind, readThis, record, engineCall.
  heap_simpl. rewrite Hprobe. cbn [assignState]. heap_simpl.
  rewrite Hread. unfold callUpdateFallbackMovement, bind, readThis,
    assignUsingFallback, record, assignState. heap_simpl.
  rewrite <- !app_assoc. reflexivity.
Qed.

(** The [catch] of [handleJump]: a failure of [applyImpulse] degrades
    the mode, and [update] goes on along the physics path without calling
    [updateFallbackMovement]; the jump state is not set either. *)
Lemma applyImpulse_failure_is_not_reprocessed (h : Heap W)
      (b : RigidBody.t W) input deltaTime impulse :
  usingFallback (this h) = false ->
  character (this h) = Some (Character.mk (Some b)) ->
  calls h = [] ->
  (forall body v w w',
      Physics.applyImpulse (physics (this h)) body v w <> (Ok tt, w')) ->
  (forall body w w',
      Physics.getBodyPosition (physics (this h)) body w <> (Throw, w')) ->
  In (CallApplyImpulse impulse) (calls (after (update input deltaTime) h)) ->
  usingFallback (this (after (update input deltaTime) h)) = true
  /\ forall i d,
      ~ In (CallUpdateFallbackMovement i d)
           (calls (after (update input deltaTime) h)).
Proof.
  intros Hmode Hbody Hcalls Himpulse Hposition.
  apply (wp_after (update input deltaTime) h
           (fun h' => In (CallApplyImpulse impulse) (calls h') ->
                      usingFallback (this h') = true
                      /\ forall i d,
                          ~ In (CallUpdateFallbackMovement i d) (calls h'))).
  open_heap h. subst uf ch cs.
  wp_run.
  all: try match goal with
         | E : Physics.applyImpulse _ _ _ _ = (Ok ?u, _) |- _ =>
             destruct u; destruct (Himpulse _ _ _ _ E)
         end.
  all: try match goal with
         | E : Physics.getBodyPosition _ _ _ = (Throw, _) |- _ =>
             destruct (Hposition _ _ _ E)
         end.
  all: cbn [app In]; intros Hcall.
  all: try (repeat (destruct Hcall as [Hcall | Hcall]; try discriminate Hcall);
            contradiction).
  all: split; [reflexivity |].
  all: intros i d Hin;
    repeat (destruct Hin as [Hin | Hin]; try discriminate Hin);
    exact Hin.
Qed.

(** The [catch] of [handleMovement]: when the [physics] object itself
    throws in [setBodyVelocity], [update] returns normally with
    [usingFallback = true], but it has not called
    [updateFallbackMovement]; the frame goes on along the physics path. *)
Lemma setBodyVelocity_failure_is_not_reprocessed :
  forall (h : Heap W) (b : RigidBody.t W) (input : Input.t)
         (deltaTime : R) (g : bool) (w1 : W) (v : V3.t) (w2 : W),
    usingFallback (this h) = false ->
    character (this h) = Some (Character.mk (Some b)) ->
    calls h = [] ->
    Physics.isGrounded (physics (this h)) (Some b) (engine h) = (Ok g, w1) ->
    RigidBody.linvel b w1 = (Ok v, w2) ->
    (forall tv, exists w3,
        Physics.setBodyVelocity (physics (this h)) (Some b) tv w2
        = (Throw, w3)) ->
    (forall w, exists p w',
        Physics.getBodyPosition (physics (this h)) (Some b) w = (Ok p, w')) ->
    returned (update input deltaTime) h = Ok tt
    /\ usingFallback (this (after (update input deltaTime) h)) = true
    /\ forall i d,
        ~ In (CallUpdateFallbackMovement i d)
             (calls (after (update input deltaTime) h)).
Proof.
  intros h b input deltaTime g w1 v w2
         Hmode Hbody Hcalls Hprobe Hread Hset Hposition.
  change (wp (update input deltaTime) h
            (fun r h' => r = Ok tt
                         /\ usingFallback (this h') = true
                         /\ forall i d,
                             ~ In (CallUpdateFallbackMovement i d) (calls h'))).
  open_heap h. subst uf ch cs.
  wp_run.
  all: try match goal with
         | E : Physics.isGrounded _ _ _ = _ |- _ =>
             rewrite Hprobe in E; first [discriminate E | injection E as <- <-]
         end.
  all: try match goal with
         | E : RigidBody.linvel _ _ = _ |- _ =>
             rewrite Hread in E; first [discriminate E | injection E as <- <-]
         end.
  all: try match goal with
         | E : Physics.setBodyVelocity _ _ ?tv _ = (Ok _, _) |- _ =>
             destruct (Hset tv) as [w3 Hthrow]; rewrite Hthrow in E;
             discriminate E
         end.
  all: try match goal with
         | E : Physics.getBodyPosition _ _ ?w = (Throw, _) |- _ =>
             destruct (Hposition w) as (p & w' & Hok); rewrite Hok in E;
             discriminate E
         end.
  all: split; [reflexivity | split; [reflexivity |]].
  all: intros i d Hin; cbn [app In] in Hin;
    repeat (destruct Hin as [Hin | Hin]; try discriminate Hin);
    exact Hin.
Qed.

(** The [catch] of [update]: whatever makes the [try] block throw, the
    mode is degraded and [updateFallbackMovement] is run with the same
    input and [deltaTime], on the state as the [try] block left it. *)
Lemma try_block_failure_is_reprocessed (h : Heap W) (b : RigidBody.t W)
      input deltaTime :
  usingFallback (this h) = false ->
  character (this h) = Some (Character.mk (Some b)) ->
  returned (updatePhysics b input deltaTime) h = Throw ->
  update input deltaTime h
  = (Ok tt,
     let abandoned := after (updatePhysics b input deltaTime) h in
     mkHeap (set_usingFallback true
               (set_state
                  (updateFallbackMovement (options (this abandoned)) input
                                          deltaTime (state (this abandoned)))
                  (this abandoned)))
            (engine abandoned)
            (calls abandoned ++ [CallUpdateFallbackMovement input deltaTime])).
Proof.
  intros Hmode Hbody Hthrow. unfold returned, after in *.
  unfold update, bind at 1, readThis. rewrite Hmode, Hbody.
  cbn [bodyOf Character.body]. unfold try_catch.
  destruct (updatePhysics b input deltaTime h) as [[u |] abandoned];
    [discriminate Hthrow |].
  cbn [snd]. destruct abandoned as [[ph o s uf ch] w cs]. reflexivity.
Qed.

(** The failures that make the [try] block throw: the ground probe of the
    [physics] object and the velocity read of the body.  (So does the
    position read of the [physics] object, after the two handlers.) *)
Lemma ground_probe_failure_propagates (h : Heap W) (b : RigidBody.t W)
      input deltaTime w1 :
  Physics.isGrounded (physics (this h)) (Some b) (engine h) = (Throw, w1) ->
  returned (updatePhysics b input deltaTime) h = Throw.
Proof.
  intros Hprobe. unfold returned, updatePhysics, bind, readThis, record,
    engineCall. heap_simpl. rewrite Hprobe. reflexivity.
Qed.

Lemma velocity_read_failure_propagates (h : Heap W) (b : RigidBody.t W)
      input deltaTime g w1 w2 :
  Physics.isGrounded (physics (this h)) (Some b) (engine h) = (Ok g, w1) ->
  RigidBody.linvel b w1 = (Throw, w2) ->
  returned (updatePhysics b input deltaTime) h = Throw.
Proof.
  intros Hprobe Hread. unfold returned, updatePhysics, bind, readThis, record,
    engineCall, assignState. heap_simpl. rewrite Hprobe. heap_simpl.
  rewrite Hread. reflexivity.
Qed.
End Reprocessing.

(** The first frame of a controller whose [physics.setBodyVelocity]
    throws. *)
Lemma throwing_setBodyVelocity_frame :
  usingFallback (this Scenario.overThrowingSetBodyVelocity) = false
  /\ (forall tv,
         Physics.setBodyVelocity Scenario.throwingSetBodyVelocity
           (Some (Scenario.restingBody (V3.mk 0 5 0))) tv tt = (Throw, tt))
  /\ returned (update Scenario.moveRight (1 / 10))
              Scenario.overThrowingSetBodyVelocity = Ok tt
  /\ usingFallback
       (this (after (update Scenario.moveRight (1 / 10))
                    Scenario.overThrowingSetBodyVelocity)) = true
  /\ forall i d,
      ~ In (CallUpdateFallbackMovement i d)
           (calls (after (update Scenario.moveRight (1 / 10))
                         Scenario.overThrowingSetBodyVelocity)).
Proof.
  split; [reflexivity | split; [reflexivity |]].
  apply (setBodyVelocity_failure_is_not_reprocessed
           Scenario.overThrowingSetBodyVelocity
           (Scenario.restingBody (V3.mk 0 5 0)) Scenario.moveRight (1 / 10)
           false tt V3.zero tt eq_refl eq_refl eq_refl eq_refl eq_refl).
  - intros tv. exists tt. reflexivity.
  - intros w. exists (V3.mk 0 5 0), tt. destruct w. reflexivity.
Qed.

(** C1 (amended).  In physics mode, whenever a failure reaches the [try]
    block of [update] (the velocity read [body.linvel()] throws, or the
    [physics] object throws in the ground probe), [update] returns
    normally, the mode is Fallback, and the same frame has been
    reprocessed: the last call made is
    [updateFallbackMovement(input, deltaTime)] with the same input and
    [deltaTime], and the state is its result on the state as the [try]
    block left it. *)
Theorem propagated_failure_is_reprocessed :
  forall (W : Type) (h : Heap W) (b : RigidBody.t W) (input : Input.t)
         (deltaTime : R),
    usingFallback (this h) = false ->
    character (this h) = Some (Character.mk (Some b)) ->
    (exists w1,
        Physics.isGrounded (physics (this h)) (Some b) (engine h)
        = (Throw, w1))
    \/ (exists g w1 w2,
           Physics.isGrounded (physics (this h)) (Some b) (engine h)
           = (Ok g, w1)
           /\ RigidBody.linvel b w1 = (Throw, w2)) ->
    let abandoned := after (updatePhysics b input deltaTime) h in
    let h' := after (update input deltaTime) h in
    returned (update input deltaTime) h = Ok tt
    /\ usingFallback (this h') = true
    /\ calls h'
       = calls abandoned ++ [CallUpdateFallbackMovement input deltaTime]
    /\ state (this h')
       = updateFallbackMovement (options (this h)) input deltaTime
                                (state (this abandoned)).
Proof.
  intros W h b input deltaTime Hmode Hbody Hfailure abandoned h'.
  subst abandoned h'.
  assert (Hthrow : returned (updatePhysics b input deltaTime) h = Throw).
  { destruct Hfailure as [[w1 Hprobe] | (g & w1 & w2 & Hprobe & Hread)].
    - apply (ground_probe_failure_propagates h b input deltaTime w1 Hprobe).
    - apply (velocity_read_failure_propagates h b input deltaTime g w1 w2
               Hprobe Hread). }
  assert (Hoptions :
            options (this (after (updatePhysics b input deltaTime) h))
            = options (this h)).
  { apply (wp_after (updatePhysics b input deltaTime) h
             (fun h1 => options (this h1) = options (this h))).
    open_heap h. wp_run; reflexivity. }
  change (returned (update input deltaTime) h)
    with (fst (update input deltaTime h)).
  change (after (update input deltaTime) h)
    with (snd (update input deltaTime h)).
  rewrite (try_block_failure_is_reprocessed h b input deltaTime
             Hmode Hbody Hthrow).
  cbv zeta. cbn [fst snd]. heap_simpl.
  split; [reflexivity | split; [reflexivity | split]].
  - reflexivity.
  - rewrite Hoptions. reflexivity.
Qed.

(** A frame over a body whose [linvel()] throws. *)
Lemma propagated_failure_is_reprocessed_witness :
  usingFallback (this Scenario.overNoLinvel) = false
  /\ RigidBody.linvel Scenario.noLinvelBody tt = (Throw, tt)
  /\ let abandoned :=
       after (updatePhysics Scenario.noLinvelBody Scenario.moveRight (1 / 10))
             Scenario.overNoLinvel in
     let h' := after (update Scenario.moveRight (1 / 10))
                     Scenario.overNoLinvel in
     returned (update Scenario.moveRight (1 / 10)) Scenario.overNoLinvel
     = Ok tt
     /\ usingFallback (this h') = true
     /\ calls h'
        = calls abandoned
          ++ [CallUpdateFallbackMovement Scenario.moveRight (1 / 10)]
     /\ state (this h')
        = updateFallbackMovement defaultOptions Scenario.moveRight (1 / 10)
                                 (state (this abandoned)).
Proof.
  split; [reflexivity | split; [reflexivity |]].
  apply (propagated_failure_is_reprocessed
           unit Scenario.overNoLinvel Scenario.noLinvelBody
           Scenario.moveRight (1 / 10) eq_refl eq_refl).
  right. exists false, tt, tt. split; reflexivity.
Defined.

(** C1, counterexample.  Over a body whose [setLinvel()] throws, the
    failure arises inside [handleMovement]: [update] calls
    [setBodyVelocity], the engine call throws, [PhysicsWorld] catches it,
    and when [update] returns the controller is still in physics mode and
    [updateFallbackMovement] has not been called. *)
Lemma velocity_set_failure_is_not_reprocessed :
  (forall v, RigidBody.setLinvel Scenario.noSetLinvelBody v tt = (Throw, tt))
  /\ usingFallback (this Scenario.overNoSetLinvel) = false
  /\ let h' := after (update Scenario.moveRight (1 / 10))
                     Scenario.overNoSetLinvel in
     (exists v, In (CallSetBodyVelocity v) (calls h'))
     /\ usingFallback (this h') = false
     /\ forall i d, ~ In (CallUpdateFallbackMovement i d) (calls h').
Proof.
  split; [reflexivity | split; [reflexivity |]].
  apply (wp_after (update Scenario.moveRight (1 / 10))
           Scenario.overNoSetLinvel
           (fun h' =>
              (exists v, In (CallSetBodyVelocity v) (calls h'))
              /\ usingFallback (this h') = false
              /\ forall i d,
                  ~ In (CallUpdateFallbackMovement i d) (calls h'))).
  change Scenario.overNoSetLinvel
    with (mkHeap (mk (PhysicsWorld.asPhysics Scenario.noSetLinvelWorld)
                     defaultOptions initialState false
                     (Some (Character.mk (Some Scenario.noSetLinvelBody))))
                 tt []).
  wp_run; eval_calls; unfold canJump in *; state_simpl; try discriminate.
  cbn [app In]. split; [| split; [reflexivity |]].
  - eexists. right; right; left. reflexivity.
  - intros i d Hin.
    repeat (destruct Hin as [Hin | Hin]; try discriminate Hin);
      exact Hin.
Qed.

(** ** C2: which engine failures reach the controller *)

Section Swallowing.
Context {W : Type}.

(** A failing [translation()] makes the ground probe answer [true] and
    the position read answer the origin. *)
Lemma isGrounded_swallows_translation (pw : PhysicsWorld.t W) b rayLength w w' :
  PhysicsWorld.initialized pw = true ->
  RigidBody.translation b w = (Throw, w') ->
  PhysicsWorld.isGrounded pw (Some b) rayLength w = (Ok true, w').
Proof.
  intros Hinit Hthrow.
  unfold PhysicsWorld.isGrounded. rewrite Hinit. cbn [negb].
  unfold try_catch, bind, ret. rewrite Hthrow. reflexivity.
Qed.

Lemma getBodyPosition_swallows_translation (b : RigidBody.t W) w w' :
  RigidBody.translation b w = (Throw, w') ->
  PhysicsWorld.getBodyPosition (Some b) w = (Ok V3.zero, w').
Proof.
  intros Hthrow. unfold PhysicsWorld.getBodyPosition, try_catch, bind, ret.
  rewrite Hthrow. reflexivity.
Qed.

End Swallowing.

(** C2 (amended).  Over a [PhysicsWorld], a call of [update] in physics
    mode ends in fallback mode if and only if the velocity read
    [body.linvel()] throws; whatever the engine does in the ground probe,
    the velocity set, the impulse and the position read, a failure there
    is caught inside the [PhysicsWorld] wrapper and the controller stays
    in physics mode. *)
Theorem only_velocity_read_failure_degrades :
  forall (W : Type) (pw : PhysicsWorld.t W) (h : Heap W) (b : RigidBody.t W)
         (input : Input.t) (deltaTime : R),
    physics (this h) = PhysicsWorld.asPhysics pw ->
    usingFallback (this h) = false ->
    character (this h) = Some (Character.mk (Some b)) ->
    usingFallback (this (after (update input deltaTime) h))
    = match fst (RigidBody.linvel b
                   (snd (PhysicsWorld.isGrounded pw (Some b) (6 / 10)
                                                 (engine h))))
      with
      | Ok _ => false
      | Throw => true
      end.
Proof.
  intros W pw h b input deltaTime Hphysics Hmode Hbody.
  apply (wp_after (update input deltaTime) h
           (fun h' => usingFallback (this h') = _)).
  open_heap h. subst ph uf ch.
  wp_run; over_physicsWorld.
  all: match goal with
       | E : PhysicsWorld.isGrounded _ _ _ _ = _ |- _ => rewrite E
       end; cbn [snd].
  all: match goal with
       | E : RigidBody.linvel _ _ = _ |- _ => rewrite E
       end; reflexivity.
Qed.

(** A frame over a body whose [linvel()] throws: the controller degrades. *)
Lemma only_velocity_read_failure_degrades_witness :
  physics (this Scenario.overNoLinvel)
  = PhysicsWorld.asPhysics Scenario.noLinvelWorld
  /\ usingFallback (this Scenario.overNoLinvel) = false
  /\ character (this Scenario.overNoLinvel)
     = Some (Character.mk (Some Scenario.noLinvelBody))
  /\ usingFallback
       (this (after (update Scenario.noInput (1 / 10)) Scenario.overNoLinvel))
     = true.
Proof.
  split; [reflexivity | split; [reflexivity | split; [reflexivity |]]].
  apply (only_velocity_read_failure_degrades
           unit Scenario.noLinvelWorld Scenario.overNoLinvel
           Scenario.noLinvelBody Scenario.noInput (1 / 10)
           eq_refl eq_refl eq_refl).
Defined.

(** C2, counterexample.  Over a body whose [translation()] throws, the
    ground probe fails inside [PhysicsWorld.isGrounded], which answers
    [true]; the position read fails inside [getBodyPosition], which
    answers the origin; and the controller is still in physics mode when
    [update] returns. *)
Lemma translation_failure_is_swallowed :
  RigidBody.translation Scenario.noTranslationBody tt = (Throw, tt)
  /\ usingFallback (this Scenario.overNoTranslation) = false
  /\ let h' := after (update Scenario.noInput (1 / 10))
                     Scenario.overNoTranslation in
     usingFallback (this h') = false
     /\ isGrounded (state (this h')) = true
     /\ position (state (this h')) = V3.mk 0 0 0.
Proof.
  split; [reflexivity | split; [reflexivity |]].
  apply (wp_after (update Scenario.noInput (1 / 10))
           Scenario.overNoTranslation
           (fun h' => usingFallback (this h') = false
                      /\ isGrounded (state (this h')) = true
                      /\ position (state (this h')) = V3.mk 0 0 0)).
  change Scenario.overNoTranslation
    with (mkHeap (mk (PhysicsWorld.asPhysics Scenario.noTranslationWorld)
                     defaultOptions initialState false
                     (Some (Character.mk (Some Scenario.noTranslationBody))))
                 tt []).
  wp_run; eval_calls; unfold canJump in *; state_simpl;
    try discriminate; repeat split.
Qed.

(** ** C3: the jump cooldown timer *)

Section Cooldown.
Context {W : Type}.

(** A run of [update] calls in fallback mode is a run of the fallback
    integrator on the state. *)
Lemma serveAll_in_fallback fs (h : Heap W) :
  usingFallback (this h) = true ->
  state (this (Session.serveAll (asRequests fs) h))
  = fallbackRun (options (this h)) fs (state (this h)).
Proof.
  revert h. induction fs as [| [input deltaTime] fs IH]; intros h Hmode.
  - reflexivity.
  - change (Session.serveAll (asRequests ((input, deltaTime) :: fs)) h)
      with (Session.serveAll (asRequests fs)
                             (after (update input deltaTime) h)).
    unfold after. rewrite update_in_fallback by exact Hmode. cbn [snd].
    rewrite IH by (heap_simpl; exact Hmode).
    destruct h as [[ph o s uf ch] w cs]. reflexivity.
Qed.

(** What one call of [update] does to the timer over a [PhysicsWorld],
    in either mode and whatever the engine does: a reset to the
    configured cooldown, or one decrement-if-positive, or two of them
    (when the physics path has decremented it before a failing velocity
    read sends the frame to the fallback path). *)
Lemma update_timer (pw : PhysicsWorld.t W) input deltaTime (h : Heap W) :
  physics (this h) = PhysicsWorld.asPhysics pw ->
  let t := jumpCooldownTimer (state (this h)) in
  let t' := jumpCooldownTimer (state (this (after (update input deltaTime) h))) in
  t' = jumpCooldown (options (this h))
  \/ t' = ticked deltaTime t
  \/ t' = ticked deltaTime (ticked deltaTime t).
Proof.
  intros Hphysics. cbv zeta. open_heap h. subst ph.
  apply (wp_after (update input deltaTime) _
           (fun h' =>
              let t' := jumpCooldownTimer (state (this h')) in
              t' = jumpCooldown o
              \/ t' = ticked deltaTime (jumpCooldownTimer s)
              \/ t' = ticked deltaTime (ticked deltaTime (jumpCooldownTimer s)))).
  cbv zeta.
  wp_run; over_physicsWorld;
    rewrite ?updateFallbackMovement_jumpCooldownTimer;
    state_simpl; fold (ticked deltaTime (jumpCooldownTimer s));
    repeat match goal with
      | |- context [if jumps ?i ?d ?x then _ else _] => destruct (jumps i d x)
      end;
    state_simpl;
    try fold (ticked deltaTime (jumpCooldownTimer s));
    try fold (ticked deltaTime (ticked deltaTime (jumpCooldownTimer s)));
    auto.
Qed.

Lemma ticked_cases deltaTime t :
  (t <= 0 /\ ticked deltaTime t = t)
  \/ (0 < t /\ ticked deltaTime t = t - deltaTime).
Proof.
  unfold ticked, Rgtb. destruct (Rgt_dec t 0); [right | left]; split; lra.
Qed.

Lemma update_timer_step (pw : PhysicsWorld.t W) input deltaTime (h : Heap W) :
  physics (this h) = PhysicsWorld.asPhysics pw ->
  0 <= deltaTime ->
  let t := jumpCooldownTimer (state (this h)) in
  let t' := jumpCooldownTimer (state (this (after (update input deltaTime) h))) in
  t' = jumpCooldown (options (this h))
  \/ (t <= 0 /\ t' = t)
  \/ (0 < t /\ - deltaTime < t'
      /\ (t' = t - deltaTime \/ t' = t - deltaTime - deltaTime)).
Proof.
  intros Hphysics Hdt. cbv zeta.
  destruct (update_timer pw input deltaTime h Hphysics) as [Hreset | [H1 | H2]].
  - left. exact Hreset.
  - right. destruct (ticked_cases deltaTime (jumpCooldownTimer (state (this h))))
      as [[Hle Heq] | [Hlt Heq]]; rewrite Heq in H1.
    + left. split; [exact Hle | exact H1].
    + right. split; [exact Hlt | split; [lra | left; exact H1]].
  - right. destruct (ticked_cases deltaTime (jumpCooldownTimer (state (this h))))
      as [[Hle Heq] | [Hlt Heq]]; rewrite Heq in H2.
    + left. rewrite Heq in H2. split; [exact Hle | exact H2].
    + right. split; [exact Hlt |].
      destruct (ticked_cases deltaTime
                  (jumpCooldownTimer (state (this h)) - deltaTime))
        as [[Hle' Heq'] | [Hlt' Heq']]; rewrite Heq' in H2.
      * split; [lra | left; exact H2].
      * split; [lra | right; exact H2].
Qed.

(** Over a run of frames with [0 <= deltaTime <= D], a timer above [- D]
    stays above [- D]. *)
Lemma cooldown_timer_stays_above (pw : PhysicsWorld.t W) D fs (h : Heap W) :
  physics (this h) = PhysicsWorld.asPhysics pw ->
  Forall (fun f => 0 <= snd f <= D) fs ->
  - D < jumpCooldown (options (this h)) ->
  - D < jumpCooldownTimer (state (this h)) ->
  Forall (fun h' => - D < jumpCooldownTimer (state (this h')))
         (Session.frames fs h).
Proof.
  intros Hphysics Hdts Hcooldown. revert h Hphysics Hcooldown.
  induction Hdts as [| [input deltaTime] fs [Hdt HD] _ IH];
    intros h Hphysics Hcooldown Htimer.
  - constructor.
  - cbn [Session.frames snd] in *.
    assert (Hnext : - D < jumpCooldownTimer
                            (state (this (after (update input deltaTime) h)))).
    { destruct (update_timer_step pw input deltaTime h Hphysics Hdt)
        as [Hreset | [[_ Hsame] | (_ & Habove & _)]].
      - rewrite Hreset. exact Hcooldown.
      - rewrite Hsame. exact Htimer.
      - lra. }
    constructor; [exact Hnext |].
    apply IH.
    + rewrite <- Hphysics. apply update_keeps_physics.
    + destruct (update_keeps_physics input deltaTime h) as [_ Hoptions].
      rewrite Hoptions. exact Hcooldown.
    + exact Hnext.
Qed.
End Cooldown.

(** C3 (amended).  Over a [PhysicsWorld], for every call of [update] with
    [deltaTime >= 0] the timer afterwards is the configured cooldown (a
    jump was started), or it is unchanged because it was not positive, or
    it was positive and has been decremented by [deltaTime] (twice in a
    frame whose velocity read fails after the physics path has already
    decremented it) without any clamp: it can end below zero, but stays
    above [- deltaTime]. *)
Theorem cooldown_timer_step :
  forall (W : Type) (pw : PhysicsWorld.t W) (h : Heap W) (input : Input.t)
         (deltaTime : R),
    physics (this h) = PhysicsWorld.asPhysics pw ->
    0 <= deltaTime ->
    let t := jumpCooldownTimer (state (this h)) in
    let t' :=
      jumpCooldownTimer (state (this (after (update input deltaTime) h))) in
    t' = jumpCooldown (options (this h))
    \/ (t <= 0 /\ t' = t)
    \/ (0 < t /\ - deltaTime < t'
        /\ (t' = t - deltaTime \/ t' = t - deltaTime - deltaTime)).
Proof.
  intros W pw h input deltaTime. apply update_timer_step.
Qed.

(** The first frame of a controller that starts in fallback mode: the
    timer is [0] and stays [0]. *)
Lemma cooldown_timer_step_witness :
  physics (this Scenario.fallbackFromStart)
  = PhysicsWorld.asPhysics PhysicsWorld.uninitialized
  /\ 0 <= 1 / 10
  /\ let t := jumpCooldownTimer (state (this Scenario.fallbackFromStart)) in
     let t' :=
       jumpCooldownTimer
         (state (this (after (update Scenario.noInput (1 / 10))
                             Scenario.fallbackFromStart))) in
     t' = jumpCooldown (options (this Scenario.fallbackFromStart))
     \/ (t <= 0 /\ t' = t)
     \/ (0 < t /\ - (1 / 10) < t'
         /\ (t' = t - 1 / 10 \/ t' = t - 1 / 10 - 1 / 10)).
Proof.
  split; [reflexivity | split; [lra |]].
  apply (cooldown_timer_step unit PhysicsWorld.uninitialized
           Scenario.fallbackFromStart Scenario.noInput (1 / 10) eq_refl).
  lra.
Defined.

(** C3, counterexample.  From the constructor's state in fallback mode,
    six frames with [0 <= deltaTime <= 0.1] (land, jump, then four frames
    without input) leave the timer at [0.3 - 0.1 - 0.1 - 0.07 - 0.1 < 0]. *)
Lemma cooldown_timer_goes_below_zero :
  jumpCooldownTimer
    (state (this (Session.serveAll (asRequests Scenario.cooldownRun)
                                   Scenario.fallbackFromStart)))
  < 0.
Proof.
  rewrite serveAll_in_fallback by reflexivity.
  change (options (this Scenario.fallbackFromStart)) with defaultOptions.
  change (state (this Scenario.fallbackFromStart)) with initialState.
  unfold Scenario.cooldownRun, fallbackRun. cbn [fold_left fst snd].
  set (s1 := updateFallbackMovement defaultOptions Scenario.noInput (1 / 10)
                                    initialState).
  assert (Hlanded : isGrounded s1 = true /\ jumpCooldownTimer s1 = 0).
  { subst s1. split; eval_fallback_frames; reflexivity. }
  destruct Hlanded as [Hgrounded1 Htimer1].
  set (s2 := updateFallbackMovement defaultOptions Scenario.jumpPressed
                                    (1 / 10) s1).
  assert (Htimer2 : jumpCooldownTimer s2 = 3 / 10).
  { subst s2. rewrite updateFallbackMovement_jumpCooldownTimer.
    unfold jumps. rewrite Hgrounded1, Htimer1. eval_fallback_frames.
    reflexivity. }
  clearbody s2. clear s1 Hgrounded1 Htimer1.
  repeat rewrite updateFallbackMovement_jumpCooldownTimer.
  unfold jumps. state_simpl. rewrite Htimer2.
  unfold ticked, Rgtb. split_comparisons. lra.
Qed.

(** ** C4: one rotation update *)

Section Rotation.

Lemma atan2_bounds y x : - PI <= atan2 y x <= PI.
Proof.
  pose proof PI_RGT_0 as Hpi.
  pose proof (atan_bound (y / x)) as [Hlow Hhigh].
  unfold atan2.
  destruct (Rlt_dec 0 x) as [Hpos | Hnotpos]; [lra |].
  destruct (Rlt_dec x 0) as [Hneg | Hnotneg].
  - assert (Hinv : / x < 0) by (apply Rinv_lt_0_compat; exact Hneg).
    destruct (Rle_dec 0 y) as [Hy | Hy].
    + assert (Hquot : y / x <= 0) by (unfold Rdiv; nra).
      assert (Hatan : atan (y / x) <= 0).
      { destruct Hquot as [Hlt | Heq].
        - left. rewrite <- atan_0. apply atan_increasing. exact Hlt.
        - rewrite Heq, atan_0. lra. }
      lra.
    + assert (Hquot : 0 < y / x) by (unfold Rdiv; nra).
      assert (Hatan : 0 < atan (y / x)).
      { rewrite <- atan_0. apply atan_increasing. exact Hquot. }
      lra.
  - destruct (Rlt_dec 0 y); [lra |]. destruct (Rlt_dec y 0); lra.
Qed.

(** The first loop exits once enough turns have been taken off. *)
Lemma whileAbovePI_exit n a :
  a - PI * 2 * INR n <= PI -> whileAbovePI n a <= PI.
Proof.
  revert a. induction n as [| n IH]; intros a Hfuel.
  - cbn in *. lra.
  - cbn [whileAbovePI]. destruct (Rgt_dec a PI) as [Habove | Hbelow]; [| lra].
    apply IH. rewrite S_INR in Hfuel. lra.
Qed.

Lemma whileAbovePI_shape n a :
  exists k : Z,
    whileAbovePI n a = a + 2 * PI * IZR k
    /\ (whileAbovePI n a = a \/ - PI < whileAbovePI n a).
Proof.
  revert a. induction n as [| n IH]; intros a.
  - exists 0%Z. cbn. split; [lra | left; reflexivity].
  - cbn [whileAbovePI]. destruct (Rgt_dec a PI) as [Habove | Hbelow].
    + destruct (IH (a - PI * 2)) as (k & Heq & Hcase).
      exists (k - 1)%Z. rewrite minus_IZR. split; [lra |].
      right. destruct Hcase as [Hsame | Hgt]; lra.
    + exists 0%Z. split; [lra | left; reflexivity].
Qed.

Lemma whileBelowPI_exit n a :
  - PI <= a + PI * 2 * INR n -> - PI <= whileBelowPI n a.
Proof.
  revert a. induction n as [| n IH]; intros a Hfuel.
  - cbn in *. lra.
  - cbn [whileBelowPI]. destruct (Rlt_dec a (- PI)) as [Hbelow | Habove]; [| lra].
    apply IH. rewrite S_INR in Hfuel. lra.
Qed.

Lemma whileBelowPI_shape n a :
  exists k : Z,
    whileBelowPI n a = a + 2 * PI * IZR k
    /\ (whileBelowPI n a = a \/ whileBelowPI n a < PI).
Proof.
  revert a. induction n as [| n IH]; intros a.
  - exists 0%Z. cbn. split; [lra | left; reflexivity].
  - cbn [whileBelowPI]. destruct (Rlt_dec a (- PI)) as [Hbelow | Habove].
    + destruct (IH (a + PI * 2)) as (k & Heq & Hcase).
      exists (k + 1)%Z. rewrite plus_IZR. split; [lra |].
      right. destruct Hcase as [Hsame | Hlt]; lra.
    + exists 0%Z. split; [lra | left; reflexivity].
Qed.

(** [turns a] iterations are enough for an angle [a]. *)
Lemma turns_enough a : a - PI * 2 * INR (turns a) <= PI.
Proof.
  pose proof PI_RGT_0 as Hpi. unfold turns.
  destruct (Rle_dec a PI) as [Hsmall | Hlarge].
  - pose proof (pos_INR (Z.to_nat (up (a / (PI * 2))))) as Hnat. nra.
  - destruct (archimed (a / (PI * 2))) as [Hup _].
    assert (Hquot : 0 < a / (PI * 2)).
    { apply Rdiv_lt_0_compat; lra. }
    assert (Hz : (0 <= up (a / (PI * 2)))%Z).
    { apply le_IZR. lra. }
    rewrite INR_IZR_INZ, Z2Nat.id by exact Hz.
    assert (Hmul : a < IZR (up (a / (PI * 2))) * (PI * 2)).
    { apply (Rmult_lt_compat_r (PI * 2)) in Hup; [| lra].
      unfold Rdiv in Hup. rewrite Rmult_assoc, Rinv_l in Hup by lra. lra. }
    lra.
Qed.

(** The two loops leave the angle in [[-PI, PI]], a whole number of
    turns away from where it was. *)
Lemma normalizeAngle_spec a :
  - PI <= normalizeAngle a <= PI
  /\ exists k : Z, normalizeAngle a = a + 2 * PI * IZR k.
Proof.
  pose proof PI_RGT_0 as Hpi. unfold normalizeAngle. cbv zeta.
  set (a1 := whileAbovePI (turns a) a).
  assert (Hexit1 : a1 <= PI) by (apply whileAbovePI_exit, turns_enough).
  destruct (whileAbovePI_shape (turns a) a) as (k1 & Heq1 & _).
  fold a1 in Heq1.
  assert (Hexit2 : - PI <= whileBelowPI (turns (- a1)) a1).
  { apply whileBelowPI_exit. pose proof (turns_enough (- a1)). lra. }
  destruct (whileBelowPI_shape (turns (- a1)) a1) as (k2 & Heq2 & Hcase).
  split.
  - split; [exact Hexit2 |]. destruct Hcase as [Hsame | Hlt]; lra.
  - exists (k1 + k2)%Z. rewrite plus_IZR. lra.
Qed.

(** An angle already in [[-PI, PI]] is left as it is. *)
Lemma normalizeAngle_in_range a :
  - PI <= a <= PI -> normalizeAngle a = a.
Proof.
  intros [Hlow Hhigh]. unfold normalizeAngle. cbv zeta.
  assert (Hfirst : whileAbovePI (turns a) a = a).
  { destruct (turns a); cbn [whileAbovePI]; [reflexivity |].
    destruct (Rgt_dec a PI); [lra | reflexivity]. }
  rewrite Hfirst.
  destruct (turns (- a)); cbn [whileBelowPI]; [reflexivity |].
  destruct (Rlt_dec a (- PI)); [lra | reflexivity].
Qed.

Lemma shortestDiff_spec targetAngle currentAngle :
  - PI <= targetAngle <= PI ->
  - PI <= currentAngle <= PI ->
  - PI <= shortestDiff targetAngle currentAngle <= PI
  /\ exists k : Z,
      shortestDiff targetAngle currentAngle
      = targetAngle - currentAngle + 2 * PI * IZR k.
Proof.
  intros Htarget Hcurrent. pose proof PI_RGT_0 as Hpi.
  unfold shortestDiff. cbv zeta.
  destruct (Rgt_dec (targetAngle - currentAngle) PI) as [Habove | Hnot].
  - destruct (Rlt_dec (targetAngle - currentAngle - PI * 2) (- PI)); [lra |].
    split; [lra |]. exists (-1)%Z. lra.
  - destruct (Rlt_dec (targetAngle - currentAngle) (- PI)) as [Hbelow | Hin].
    + split; [lra |]. exists 1%Z. lra.
    + split; [lra |]. exists 0%Z. lra.
Qed.

(** One rotation update with movement input: the step is the signed
    shortest angular difference to the target, scaled by
    [rotationSpeed * deltaTime]. *)
Lemma updateRotation_step o move deltaTime s :
  V2.x move <> 0 \/ V2.z move <> 0 ->
  exists (d : R) (k : Z),
    d = atan2 (V2.x move) (V2.z move) - V3.y (rotation s) + 2 * PI * IZR k
    /\ - PI <= d <= PI
    /\ V3.y (rotation (updateRotation o move deltaTime s))
       = V3.y (rotation s) + d * rotationSpeed o * deltaTime
    /\ direction (updateRotation o move deltaTime s)
       = V2.mk (sin (V3.y (rotation (updateRotation o move deltaTime s))))
               (cos (V3.y (rotation (updateRotation o move deltaTime s)))).
Proof.
  intros Hmove.
  destruct (normalizeAngle_spec (V3.y (rotation s))) as (Hrange & k1 & Hk1).
  destruct (shortestDiff_spec (atan2 (V2.x move) (V2.z move))
                              (normalizeAngle (V3.y (rotation s)))
                              (atan2_bounds _ _) Hrange)
    as (Hdiff & k2 & Hk2).
  exists (shortestDiff (atan2 (V2.x move) (V2.z move))
                       (normalizeAngle (V3.y (rotation s)))),
    (k2 - k1)%Z.
  split; [rewrite minus_IZR; lra | split; [exact Hdiff |]].
  unfold updateRotation, Rneqb.
  destruct (Req_dec_T (V2.x move) 0) as [Hx | Hx];
    destruct (Req_dec_T (V2.z move) 0) as [Hz | Hz];
    cbn [orb]; try (split; reflexivity).
  destruct Hmove; contradiction.
Qed.
End Rotation.

(** C4 (amended).  For every non-zero movement input, [deltaTime > 0] and
    [rotationSpeed >= 0], one rotation update changes [rotation.y] by
    [d * rotationSpeed * deltaTime], where [d] is the signed shortest
    angular difference ([-PI <= d <= PI], a whole number of turns away
    from [atan2(move.x, move.z) - rotation.y]): the step is toward the
    target, at most [PI * rotationSpeed * deltaTime] radians, and it does
    not go past the target when [rotationSpeed * deltaTime <= 1]. *)
Theorem rotation_step :
  forall (o : Options) (move : V2.t) (deltaTime : R) (s : State),
    V2.x move <> 0 \/ V2.z move <> 0 ->
    0 < deltaTime ->
    0 <= rotationSpeed o ->
    let yaw := V3.y (rotation s) in
    let yaw' := V3.y (rotation (updateRotation o move deltaTime s)) in
    exists (d : R) (k : Z),
      d = atan2 (V2.x move) (V2.z move) - yaw + 2 * PI * IZR k
      /\ - PI <= d <= PI
      /\ yaw' = yaw + d * rotationSpeed o * deltaTime
      /\ 0 <= (yaw' - yaw) * d
      /\ Rabs (yaw' - yaw) <= PI * (rotationSpeed o * deltaTime)
      /\ (rotationSpeed o * deltaTime <= 1 -> Rabs (yaw' - yaw) <= Rabs d).
Proof.
  intros o move deltaTime s Hmove Hdt Hspeed yaw yaw'.
  destruct (updateRotation_step o move deltaTime s Hmove)
    as (d & k & Hd & Hrange & Hstep & _).
  fold yaw in Hd. fold yaw yaw' in Hstep.
  exists d, k.
  assert (Hrate : 0 <= rotationSpeed o * deltaTime) by nra.
  assert (Hdelta : yaw' - yaw = d * (rotationSpeed o * deltaTime))
    by (rewrite Hstep; ring).
  split; [exact Hd | split; [exact Hrange | split; [exact Hstep |]]].
  rewrite Hdelta, Rabs_mult, (Rabs_pos_eq _ Hrate).
  assert (Habs : Rabs d <= PI) by (apply Rabs_le; lra).
  pose proof (Rabs_pos d) as Hnonneg.
  split; [nra | split; [nra |]].
  intros Hslow. nra.
Qed.

(** A quarter turn to the right from the constructor's orientation, at the
    default rotation speed and a tenth of a second. *)
Lemma rotation_step_witness :
  let yaw := V3.y (rotation initialState) in
  let yaw' :=
    V3.y (rotation (updateRotation defaultOptions (V2.mk 1 0) (1 / 10)
                                   initialState)) in
  exists (d : R) (k : Z),
    d = atan2 1 0 - yaw + 2 * PI * IZR k
    /\ - PI <= d <= PI
    /\ yaw' = yaw + d * 5 * (1 / 10)
    /\ 0 <= (yaw' - yaw) * d
    /\ Rabs (yaw' - yaw) <= PI * (5 * (1 / 10))
    /\ (5 * (1 / 10) <= 1 -> Rabs (yaw' - yaw) <= Rabs d).
Proof.
  apply (rotation_step defaultOptions (V2.mk 1 0) (1 / 10) initialState).
  - left. cbn. lra.
  - lra.
  - cbn. lra.
Defined.

(** From the constructor's orientation [0], a movement input to the right
    has target [PI / 2], and the step is [PI / 2 * 5 * deltaTime]. *)
Lemma quarter_turn_step deltaTime :
  atan2 1 0 = PI / 2
  /\ V3.y (rotation (updateRotation defaultOptions (V2.mk 1 0) deltaTime
                                    initialState))
     = PI / 2 * 5 * deltaTime.
Proof.
  pose proof PI_RGT_0 as Hpi.
  assert (Htarget : atan2 1 0 = PI / 2).
  { unfold atan2. split_comparisons. reflexivity. }
  split; [exact Htarget |].
  unfold updateRotation, Rneqb. cbn [V2.x V2.z].
  destruct (Req_dec_T 1 0) as [Habsurd | _]; [lra |]. cbn [orb].
  rewrite Htarget. state_simpl.
  rewrite normalizeAngle_in_range by lra.
  unfold shortestDiff. cbv zeta. split_comparisons. lra.
Qed.

(** C4, counterexample.  With the default [rotationSpeed = 5], facing
    [0], target [PI / 2]: in a frame of [0.1 s] the step is
    [PI / 4 > 0.5 = rotationSpeed * deltaTime]; and in a frame of [0.4 s],
    where [rotationSpeed * deltaTime = 2] is at least the angular distance
    [PI / 2], the update goes to [PI], past the target. *)
Lemma rotation_step_exceeds_rate_and_overshoots :
  let facing (deltaTime : R) :=
    V3.y (rotation (updateRotation defaultOptions (V2.mk 1 0) deltaTime
                                   initialState)) in
  V3.y (rotation initialState) = 0
  /\ atan2 1 0 = PI / 2
  /\ Rabs (facing (1 / 10) - 0) > rotationSpeed defaultOptions * (1 / 10)
  /\ rotationSpeed defaultOptions * (4 / 10) >= Rabs (PI / 2 - 0)
  /\ facing (4 / 10) > PI / 2.
Proof.
  cbv zeta. pose proof PI_RGT_0 as Hpi. pose proof PI2_1 as Hpi2.
  pose proof PI_4 as Hpi4.
  destruct (quarter_turn_step (1 / 10)) as [Htarget Htenth].
  destruct (quarter_turn_step (4 / 10)) as [_ Hlong].
  rewrite Htenth, Hlong. cbn [rotationSpeed defaultOptions].
  split; [reflexivity | split; [exact Htarget |]].
  rewrite !Rabs_pos_eq by lra. repeat split; lra.
Qed.

(** ** C5: the mode never returns to physics *)

Section ModeMonotonicity.
Context {W : Type}.

Lemma serve_keeps_fallback r (h : Heap W) :
  usingFallback (this h) = true ->
  usingFallback (this (Session.serve r h)) = true.
Proof.
  intros Hmode. destruct r as [input deltaTime | |]; unfold Session.serve.
  - unfold after. rewrite update_in_fallback by exact Hmode. exact Hmode.
  - apply (wp_after getPosition h (fun h' => usingFallback (this h') = true)).
    open_heap h. subst uf. wp_run. reflexivity.
  - apply (wp_after getState h (fun h' => usingFallback (this h') = true)).
    open_heap h. subst uf. wp_run. reflexivity.
Qed.

Lemma serveAll_keeps_fallback rs (h : Heap W) :
  usingFallback (this h) = true ->
  usingFallback (this (Session.serveAll rs h)) = true.
Proof.
  revert h. induction rs as [| r rs IH]; intros h Hmode.
  - exact Hmode.
  - cbn [Session.serveAll fold_left]. apply IH, serve_keeps_fallback, Hmode.
Qed.

Lemma modeTrace_in_fallback rs (h : Heap W) :
  usingFallback (this h) = true ->
  Session.modeTrace rs h = repeat true (S (length rs)).
Proof.
  revert h. induction rs as [| r rs IH]; intros h Hmode.
  - cbn. rewrite Hmode. reflexivity.
  - cbn [Session.modeTrace length]. rewrite Hmode.
    rewrite (IH _ (serve_keeps_fallback r h Hmode)). reflexivity.
Qed.

Lemma modeTrace_shape rs (h : Heap W) :
  exists n m, Session.modeTrace rs h = repeat false n ++ repeat true m.
Proof.
  revert h. induction rs as [| r rs IH]; intros h.
  - destruct (usingFallback (this h)) eqn:Hmode.
    + exists O, 1%nat. cbn. rewrite Hmode. reflexivity.
    + exists 1%nat, O. cbn. rewrite Hmode. reflexivity.
  - destruct (usingFallback (this h)) eqn:Hmode.
    + exists O, (S (length (r :: rs))).
      apply modeTrace_in_fallback, Hmode.
    + destruct (IH (Session.serve r h)) as (n & m & Htail).
      exists (S n), m. cbn [Session.modeTrace]. rewrite Hmode, Htail.
      reflexivity.
Qed.
End ModeMonotonicity.

(** C5.  Once [usingFallback] is true it is true after every sequence of
    [update], [getPosition] and [getState] calls, with any inputs; and in
    every session the modes read before the first call and after each
    call are a run of Physics followed by a run of Fallback, so the
    transition from Physics to Fallback happens at most once. *)
Theorem mode_monotonicity :
  forall (W : Type) (rs : list Session.Request) (h : Heap W),
    (usingFallback (this h) = true ->
     usingFallback (this (Session.serveAll rs h)) = true)
    /\ exists n m, Session.modeTrace rs h = repeat false n ++ repeat true m.
Proof.
  intros W rs h. split.
  - apply serveAll_keeps_fallback.
  - apply modeTrace_shape.
Qed.

(** A session on a controller that starts in fallback mode. *)
Lemma mode_monotonicity_witness :
  usingFallback (this Scenario.fallbackFromStart) = true
  /\ usingFallback
       (this (Session.serveAll
                [Session.ReqUpdate Scenario.jumpPressed (1 / 10);
                 Session.ReqGetPosition; Session.ReqGetState]
                Scenario.fallbackFromStart)) = true.
Proof.
  split; [reflexivity |].
  apply (mode_monotonicity unit
           [Session.ReqUpdate Scenario.jumpPressed (1 / 10);
            Session.ReqGetPosition; Session.ReqGetState]
           Scenario.fallbackFromStart).
  reflexivity.
Defined.

(** ** C6: the frame that starts a jump *)

Section JumpFrame.
Context {W : Type}.

(** A fallback frame that starts a jump at or above the resting height
    ends airborne. *)
Lemma fallback_jump_frame o input deltaTime s :
  Input.isJumping input = true ->
  isGrounded s = true ->
  jumpCooldownTimer s <= 0 ->
  1 <= V3.y (position s) ->
  0 <= deltaTime ->
  0 <= jumpForce o ->
  let s' := updateFallbackMovement o input deltaTime s in
  isJumping s' = true /\ isGrounded s' = false
  /\ jumpCooldownTimer s' = jumpCooldown o.
Proof.
  intros Hjump Hgrounded Htimer Hy Hdt Hforce. cbv zeta.
  assert (Hjumps : jumps input deltaTime s = true).
  { unfold jumps, ticked, Rgtb, Rleb. rewrite Hjump, Hgrounded.
    split_comparisons; reflexivity. }
  rewrite updateFallbackMovement_isJumping, updateFallbackMovement_isGrounded,
    updateFallbackMovement_jumpCooldownTimer.
  unfold verticalVelocity. rewrite Hjumps.
  split; [reflexivity | split; [| reflexivity]].
  unfold Rltb. destruct (Rlt_dec _ 1) as [Hbelow | _]; [| reflexivity].
  exfalso. nra.
Qed.

(** A physics frame over a [PhysicsWorld] in which the ground probe
    answers [true] and the velocity read succeeds. *)
Lemma physics_jump_frame (pw : PhysicsWorld.t W) (h : Heap W)
      (b : RigidBody.t W) input deltaTime w1 v w2 :
  physics (this h) = PhysicsWorld.asPhysics pw ->
  usingFallback (this h) = false ->
  character (this h) = Some (Character.mk (Some b)) ->
  PhysicsWorld.isGrounded pw (Some b) (6 / 10) (engine h) = (Ok true, w1) ->
  RigidBody.linvel b w1 = (Ok v, w2) ->
  Input.isJumping input = true ->
  jumpCooldownTimer (state (this h)) <= 0 ->
  let s' := state (this (after (update input deltaTime) h)) in
  isJumping s' = true /\ isGrounded s' = false
  /\ jumpCooldownTimer s' = jumpCooldown (options (this h)).
Proof.
  intros Hphysics Hmode Hbody Hprobe Hread Hjump Htimer. cbv zeta.
  open_heap h. subst ph uf ch.
  apply (wp_after (update input deltaTime) _
           (fun h' => isJumping (state (this h')) = true
                      /\ isGrounded (state (this h')) = false
                      /\ jumpCooldownTimer (state (this h')) = jumpCooldown o)).
  wp_run; over_physicsWorld.
  all: match goal with
       | E : PhysicsWorld.isGrounded _ _ _ _ = _ |- _ =>
           rewrite Hprobe in E; injection E as <- <-
       end.
  all: match goal with
       | E : RigidBody.linvel _ _ = _ |- _ =>
           rewrite Hread in E; first [discriminate E | injection E as <- <-]
       end.
  all: unfold canJump in *; state_simpl; try (repeat split; reflexivity).
  all: exfalso; rewrite Hjump in *; unfold Rgtb, Rleb in *;
    repeat match goal with
      | H : context [Rgt_dec ?x ?y] |- _ => destruct (Rgt_dec x y)
      | H : context [Rle_dec ?x ?y] |- _ => destruct (Rle_dec x y)
      end; cbn [andb] in *; try discriminate; lra.
Qed.
End JumpFrame.

(** C6 (amended).  Over a [PhysicsWorld], with [deltaTime >= 0] and a
    non-negative jump force, a call of [update] with jump requested and
    the cooldown timer [<= 0] ends with [isJumping = true],
    [isGrounded = false] and the timer equal to the configured cooldown
    ([0.3] by default), provided that: in fallback mode the state is
    grounded at or above the resting height ([position.y >= 1], as after
    every fallback frame); in physics mode the ground probe answers
    grounded and the velocity read succeeds.  The landing reset of the
    same frame does not clear [isJumping]. *)
Theorem jump_frame :
  forall (W : Type) (pw : PhysicsWorld.t W) (h : Heap W) (input : Input.t)
         (deltaTime : R),
    physics (this h) = PhysicsWorld.asPhysics pw ->
    Input.isJumping input = true ->
    jumpCooldownTimer (state (this h)) <= 0 ->
    0 <= deltaTime ->
    0 <= jumpForce (options (this h)) ->
    (if usingFallback (this h)
     then isGrounded (state (this h)) = true
          /\ 1 <= V3.y (position (state (this h)))
     else exists b w1 v w2,
         character (this h) = Some (Character.mk (Some b))
         /\ PhysicsWorld.isGrounded pw (Some b) (6 / 10) (engine h)
            = (Ok true, w1)
         /\ RigidBody.linvel b w1 = (Ok v, w2)) ->
    let s' := state (this (after (update input deltaTime) h)) in
    isJumping s' = true /\ isGrounded s' = false
    /\ jumpCooldownTimer s' = jumpCooldown (options (this h)).
Proof.
  intros W pw h input deltaTime Hphysics Hjump Htimer Hdt Hforce Hgrounded.
  destruct (usingFallback (this h)) eqn:Hmode.
  - destruct Hgrounded as [Hgrounded Hy]. cbv zeta.
    unfold after. rewrite update_in_fallback by exact Hmode.
    cbn [snd]. heap_simpl.
    apply fallback_jump_frame; assumption.
  - destruct Hgrounded as (b & w1 & v & w2 & Hbody & Hprobe & Hread).
    apply (physics_jump_frame pw h b input deltaTime w1 v w2); assumption.
Qed.

(** A jump from the resting height in fallback mode, with the default
    options. *)
Lemma jump_frame_witness :
  let h := Scenario.inFallback Scenario.groundedAtRest in
  let s' := state (this (after (update Scenario.jumpPressed (1 / 10)) h)) in
  isJumping s' = true /\ isGrounded s' = false
  /\ jumpCooldownTimer s' = 3 / 10.
Proof.
  apply (jump_frame unit PhysicsWorld.uninitialized
           (Scenario.inFallback Scenario.groundedAtRest)
           Scenario.jumpPressed (1 / 10) eq_refl eq_refl).
  - cbn. lra.
  - lra.
  - cbn. lra.
  - cbn. split; [reflexivity | lra].
Defined.

(** The fallback integrator on a grounded state below the resting height,
    with the timer at [0] and jump requested: the jump is started, but
    [0 + 1.0 * 0.1 < 1], so the ground collision of the same frame sets
    [isGrounded] again. *)
Lemma fallback_jump_below_rest_ends_grounded :
  let h := Scenario.inFallback Scenario.groundedAtOrigin in
  isGrounded (state (this h)) = true
  /\ jumpCooldownTimer (state (this h)) <= 0
  /\ Input.isJumping Scenario.jumpPressed = true
  /\ let s' := state (this (after (update Scenario.jumpPressed (1 / 10)) h)) in
     isJumping s' = true /\ isGrounded s' = true.
Proof.
  cbv zeta. split; [reflexivity | split; [cbn; lra | split; [reflexivity |]]].
  unfold after. rewrite update_in_fallback by reflexivity.
  cbn [snd]. heap_simpl.
  change (options _) with defaultOptions.
  change (state _) with Scenario.groundedAtOrigin.
  split; eval_fallback_frames; reflexivity.
Qed.

(** The first frame over the breaking engine: the ground probe and the
    position read fail inside [PhysicsWorld], the controller stays in
    physics mode, grounded at the origin, and the engine is broken. *)
Lemma breaking_world_first_frame :
  let h1 := after (update Scenario.noInput (1 / 10))
                  Scenario.overBreakingWorld in
  physics (this h1) = PhysicsWorld.asPhysics Scenario.breakingWorld
  /\ options (this h1) = defaultOptions
  /\ usingFallback (this h1) = false
  /\ character (this h1) = Some (Character.mk (Some Scenario.breakingBody))
  /\ engine h1 = true
  /\ isGrounded (state (this h1)) = true
  /\ isJumping (state (this h1)) = false
  /\ jumpCooldownTimer (state (this h1)) = 0
  /\ position (state (this h1)) = V3.mk 0 0 0.
Proof.
  cbv zeta.
  apply (wp_after (update Scenario.noInput (1 / 10)) Scenario.overBreakingWorld
           (fun h1 =>
              physics (this h1) = PhysicsWorld.asPhysics Scenario.breakingWorld
              /\ options (this h1) = defaultOptions
              /\ usingFallback (this h1) = false
              /\ character (this h1)
                 = Some (Character.mk (Some Scenario.breakingBody))
              /\ engine h1 = true
              /\ isGrounded (state (this h1)) = true
              /\ isJumping (state (this h1)) = false
              /\ jumpCooldownTimer (state (this h1)) = 0
              /\ position (state (this h1)) = V3.mk 0 0 0)).
  change Scenario.overBreakingWorld
    with (mkHeap (mk (PhysicsWorld.asPhysics Scenario.breakingWorld)
                     defaultOptions initialState false
                     (Some (Character.mk (Some Scenario.breakingBody))))
                 false []).
  wp_run; eval_calls; unfold canJump in *; state_simpl; try discriminate.
  unfold Rgtb. split_comparisons. repeat split.
Qed.

(** The second frame over the breaking engine, with jump requested: the
    velocity read throws, the frame is reprocessed by the fallback
    integrator from the origin, a jump is started, and the ground
    collision of the same frame puts the character on the ground. *)
Lemma breaking_world_second_frame :
  let h1 := after (update Scenario.noInput (1 / 10))
                  Scenario.overBreakingWorld in
  let h2 := after (update Scenario.jumpPressed (1 / 10)) h1 in
  usingFallback (this h2) = true
  /\ jumpCooldownTimer (state (this h2)) = 3 / 10
  /\ isJumping (state (this h2)) = true
  /\ isGrounded (state (this h2)) = true.
Proof.
  cbv zeta.
  destruct breaking_world_first_frame
    as (Hphysics & Hoptions & Hmode & Hbody & Hengine & Hgrounded & Hjumping
        & Htimer & Hposition).
  set (h1 := after (update Scenario.noInput (1 / 10))
                   Scenario.overBreakingWorld) in *.
  unfold after.
  rewrite (velocity_read_failure_is_reprocessed
             h1 Scenario.breakingBody Scenario.jumpPressed (1 / 10)
             true true true Hmode Hbody).
  - cbn [snd]. heap_simpl. rewrite Hoptions.
    set (s := tickCooldown (1 / 10) (set_isGrounded true (state (this h1)))).
    assert (Hs : isGrounded s = true /\ jumpCooldownTimer s = 0
                 /\ V3.y (position s) = 0).
    { subst s. state_simpl. rewrite Htimer, Hposition.
      unfold Rgtb. split_comparisons. repeat split. }
    destruct Hs as (Hsg & Hst & Hsy). clearbody s.
    rewrite updateFallbackMovement_jumpCooldownTimer,
      updateFallbackMovement_isJumping, updateFallbackMovement_isGrounded.
    unfold verticalVelocity, jumps. rewrite Hsg, Hst, Hsy.
    state_simpl. unfold ticked, Rgtb, Rleb, Rltb.
    repeat (progress (state_simpl; split_comparisons)).
    repeat split.
  - rewrite Hphysics, Hengine. reflexivity.
  - reflexivity.
Qed.

(** C6, counterexample.  Over the breaking engine, after one frame the
    controller is in physics mode, grounded ([isGrounded] is true and the
    ground probe answers [true]), with the timer at [0]; a call of
    [update] with jump requested then ends with [isJumping = true] but
    [isGrounded = true]: the velocity read throws, the frame is
    reprocessed by the fallback integrator from the engine-reported
    position (the origin), and since [0 + 1.0 * 0.1 < 1] its ground
    collision grounds the character again. *)
Lemma jump_frame_can_end_grounded :
  let h1 := after (update Scenario.noInput (1 / 10))
                  Scenario.overBreakingWorld in
  let s' := state (this (after (update Scenario.jumpPressed (1 / 10)) h1)) in
  isGrounded (state (this h1)) = true
  /\ Physics.isGrounded (physics (this h1))
                        (Some Scenario.breakingBody) (engine h1)
     = (Ok true, true)
  /\ jumpCooldownTimer (state (this h1)) <= 0
  /\ Input.isJumping Scenario.jumpPressed = true
  /\ isJumping s' = true
  /\ isGrounded s' = true.
Proof.
  cbv zeta.
  destruct breaking_world_first_frame
    as (Hphysics & _ & _ & _ & Hengine & Hgrounded & _ & Htimer & _).
  destruct breaking_world_second_frame as (_ & _ & Hjumping2 & Hgrounded2).
  split; [exact Hgrounded |].
  split; [rewrite Hphysics, Hengine; reflexivity |].
  split; [rewrite Htimer; lra |].
  split; [reflexivity | split; [exact Hjumping2 | exact Hgrounded2]].
Qed.

(** ** C7: grounded and jumping at once *)

Section GroundedAndJumping.
Context {W : Type}.

(** Over a [PhysicsWorld], a frame that ends in physics mode ends with
    the flags not both set, and a frame that ends in fallback mode has run
    the fallback integrator last. *)
Lemma frame_end (pw : PhysicsWorld.t W) input deltaTime (h : Heap W) :
  physics (this h) = PhysicsWorld.asPhysics pw ->
  let h' := after (update input deltaTime) h in
  (usingFallback (this h') = true ->
   1 <= V3.y (position (state (this h')))
   /\ (isGrounded (state (this h')) = true ->
       V3.y (position (state (this h'))) = 1))
  /\ (usingFallback (this h') = false ->
      groundedAndJumping (state (this h')) = false).
Proof.
  intros Hphysics. cbv zeta.
  apply (wp_after (update input deltaTime) h
           (fun h' =>
              (usingFallback (this h') = true ->
               1 <= V3.y (position (state (this h')))
               /\ (isGrounded (state (this h')) = true ->
                   V3.y (position (state (this h'))) = 1))
              /\ (usingFallback (this h') = false ->
                  groundedAndJumping (state (this h')) = false))).
  open_heap h. subst ph. destruct ch as [[[b |]] |].
  all: wp_run; over_physicsWorld.
  all: split; intros Hmode; try discriminate Hmode.
  all: try apply fallback_floor.
  all: unfold groundedAndJumping; state_simpl; try reflexivity.
  all: match goal with
       | |- ?a && _ = false => destruct a; reflexivity
       end.
Qed.

Lemma betweenFrames_update (pw : PhysicsWorld.t W) input deltaTime (h : Heap W) :
  betweenFrames pw h -> betweenFrames pw (after (update input deltaTime) h).
Proof.
  intros (Hphysics & _ & _). unfold betweenFrames.
  destruct (update_keeps_physics input deltaTime h) as [Hsame _].
  destruct (frame_end pw input deltaTime h Hphysics) as [Hfallback Hphys].
  split; [rewrite Hsame; exact Hphysics | split].
  - intros Hmode. apply Hfallback, Hmode.
  - exact Hphys.
Qed.

Lemma betweenFrames_spawn (pw : PhysicsWorld.t W) o w :
  betweenFrames pw (Session.spawn (PhysicsWorld.asPhysics pw) o w).
Proof.
  unfold Session.spawn, constructor, try_catch, bind, ret.
  destruct (Physics.createCharacter _ _ _ _ w) as [[[[[b |]] |] |] w'];
    unfold betweenFrames; heap_simpl; cbn; repeat split; try reflexivity; lra.
Qed.

(** A fallback frame that starts grounded at or above the resting height
    does not end with both flags set. *)
Lemma fallback_frame_from_ground o input deltaTime s :
  isGrounded s = true ->
  1 <= V3.y (position s) ->
  0 <= deltaTime ->
  0 <= jumpForce o ->
  groundedAndJumping (updateFallbackMovement o input deltaTime s) = false.
Proof.
  intros Hgrounded Hy Hdt Hforce. unfold groundedAndJumping.
  rewrite updateFallbackMovement_isJumping, updateFallbackMovement_isGrounded.
  unfold verticalVelocity. rewrite Hgrounded.
  destruct (jumps input deltaTime s).
  - unfold Rltb. destruct (Rlt_dec _ 1) as [Hbelow | _]; [| reflexivity].
    exfalso. nra.
  - apply andb_false_r.
Qed.

(** A fallback frame that starts a jump at or above the resting height
    ends airborne. *)
Lemma fallback_jump_ends_airborne o input deltaTime s :
  jumps input deltaTime s = true ->
  1 <= V3.y (position s) ->
  0 <= deltaTime ->
  0 <= jumpForce o ->
  isGrounded (updateFallbackMovement o input deltaTime s) = false.
Proof.
  intros Hjumps Hy Hdt Hforce.
  rewrite updateFallbackMovement_isGrounded.
  unfold verticalVelocity. rewrite Hjumps.
  unfold Rltb. destruct (Rlt_dec _ 1) as [Hbelow | _]; [| reflexivity].
  exfalso. nra.
Qed.

(** The frame after a frame that ended with both flags set. *)
Lemma next_frame_after_both (pw : PhysicsWorld.t W) input deltaTime (h : Heap W) :
  betweenFrames pw h ->
  0 <= deltaTime ->
  0 <= jumpForce (options (this h)) ->
  groundedAndJumping (state (this h)) = true ->
  groundedAndJumping (state (this (after (update input deltaTime) h))) = false.
Proof.
  intros (Hphysics & Hfallback & Hphys) Hdt Hforce Hboth.
  destruct (usingFallback (this h)) eqn:Hmode.
  - unfold after. rewrite update_in_fallback by exact Hmode.
    cbn [snd]. heap_simpl.
    apply fallback_frame_from_ground; auto.
    unfold groundedAndJumping in Hboth.
    apply andb_true_iff in Hboth. apply Hboth.
  - rewrite (Hphys eq_refl) in Hboth. discriminate Hboth.
Qed.

(** Every frame of a run is a call of [update] on the heap the frame
    before it ended in. *)
Lemma frames_nth (pw : PhysicsWorld.t W) fs (h : Heap W) n hA :
  betweenFrames pw h ->
  nth_error (Session.frames fs h) n = Some hA ->
  exists hP input deltaTime,
    nth_error fs n = Some (input, deltaTime)
    /\ betweenFrames pw hP
    /\ options (this hP) = options (this h)
    /\ hA = after (update input deltaTime) hP
    /\ match n with
       | O => hP = h
       | S m => nth_error (Session.frames fs h) m = Some hP
       end.
Proof.
  revert h n hA.
  induction fs as [| [input deltaTime] fs IH]; intros h n hA Hbetween Hnth.
  - destruct n; discriminate Hnth.
  - cbn [Session.frames] in *. destruct n as [| n].
    + injection Hnth as <-. exists h, input, deltaTime.
      split; [reflexivity | split; [exact Hbetween |]].
      split; [reflexivity | split; reflexivity].
    + cbn [nth_error] in Hnth.
      pose proof (betweenFrames_update pw input deltaTime h Hbetween) as Hnext.
      destruct (IH _ _ _ Hnext Hnth)
        as (hP & input' & deltaTime' & Hfs & HbetweenP & Hoptions & HhA & Hprev).
      exists hP, input', deltaTime'. cbn [nth_error].
      split; [exact Hfs | split; [exact HbetweenP | split; [| split]]].
      * rewrite Hoptions. apply update_keeps_physics.
      * exact HhA.
      * destruct n as [| n]; [subst hP; reflexivity | exact Hprev].
Qed.

(** The frames of a run over a [PhysicsWorld], with [deltaTime >= 0]
    and a non-negative jump force. *)
Lemma frames_grounded_and_jumping (pw : PhysicsWorld.t W) fs (h : Heap W) :
  betweenFrames pw h ->
  0 <= jumpForce (options (this h)) ->
  Forall (fun f => 0 <= snd f) fs ->
  (forall n hA hB,
      nth_error (Session.frames fs h) n = Some hA ->
      nth_error (Session.frames fs h) (S n) = Some hB ->
      groundedAndJumping (state (this hA)) = true ->
      groundedAndJumping (state (this hB)) = false)
  /\ (forall n hA,
         nth_error (Session.frames fs h) n = Some hA ->
         groundedAndJumping (state (this hA)) = true ->
         usingFallback (this hA) = true
         /\ V3.y (position (state (this hA))) = 1)
  /\ (forall n hA hB input deltaTime,
         nth_error (Session.frames fs h) n = Some hA ->
         nth_error (Session.frames fs h) (S n) = Some hB ->
         nth_error fs (S n) = Some (input, deltaTime) ->
         usingFallback (this hA) = true ->
         jumps input deltaTime (state (this hA)) = true ->
         isGrounded (state (this hB)) = false).
Proof.
  intros Hbetween Hforce Hdts.
  assert (Hstep : forall n hA hB,
             nth_error (Session.frames fs h) n = Some hA ->
             nth_error (Session.frames fs h) (S n) = Some hB ->
             exists input deltaTime,
               nth_error fs (S n) = Some (input, deltaTime)
               /\ 0 <= deltaTime
               /\ betweenFrames pw hA
               /\ options (this hA) = options (this h)
               /\ hB = after (update input deltaTime) hA).
  { intros n hA hB HA HB.
    destruct (frames_nth pw fs h (S n) hB Hbetween HB)
      as (hP & input & deltaTime & Hfs & HbetweenP & Hoptions & HhB & Hprev).
    rewrite HA in Hprev. injection Hprev as <-.
    exists input, deltaTime.
    split; [exact Hfs |].
    split; [| split; [exact HbetweenP | split; [exact Hoptions | exact HhB]]].
    apply nth_error_In in Hfs.
    rewrite Forall_forall in Hdts. apply (Hdts _ Hfs). }
  split; [| split].
  - intros n hA hB HA HB Hboth.
    destruct (Hstep n hA hB HA HB)
      as (input & deltaTime & _ & Hdt & HbetweenA & Hoptions & ->).
    apply (next_frame_after_both pw); try assumption.
    rewrite Hoptions. exact Hforce.
  - intros n hA HA Hboth.
    destruct (frames_nth pw fs h n hA Hbetween HA)
      as (hP & input & deltaTime & _ & (HphysicsP & _) & _ & -> & _).
    destruct (frame_end pw input deltaTime hP HphysicsP) as [Hfallback Hphys].
    destruct (usingFallback (this (after (update input deltaTime) hP))) eqn:Hmode.
    + split; [reflexivity |]. apply Hfallback; [reflexivity |].
      unfold groundedAndJumping in Hboth. apply andb_true_iff in Hboth.
      apply Hboth.
    + rewrite (Hphys eq_refl) in Hboth. discriminate Hboth.
  - intros n hA hB input deltaTime HA HB Hfs Hmode Hjumps.
    destruct (Hstep n hA hB HA HB)
      as (input' & deltaTime' & Hfs' & Hdt & (_ & Hfloor & _) & Hoptions & ->).
    rewrite Hfs in Hfs'. injection Hfs' as <- <-.
    unfold after. rewrite update_in_fallback by exact Hmode.
    cbn [snd]. heap_simpl.
    apply fallback_jump_ends_airborne; auto.
    rewrite Hoptions. exact Hforce.
Qed.
End GroundedAndJumping.

(** C7 (amended).  Over a [PhysicsWorld], with a non-negative jump force
    and [deltaTime >= 0] in every frame, in every run of [update] calls
    from the constructor: [isGrounded] and [isJumping] are never both true
    at the end of two consecutive frames; they are both true only at the
    end of a frame that finished in the fallback integrator with the
    character put on the ground ([position.y = 1]); and a frame that
    starts in fallback mode and starts a jump ends with
    [isGrounded = false]. *)
Theorem grounded_and_jumping_frames :
  forall (W : Type) (pw : PhysicsWorld.t W) (o : Options) (w : W)
         (fs : list (Input.t * R)),
    0 <= jumpForce o ->
    Forall (fun f => 0 <= snd f) fs ->
    let trace :=
      Session.frames fs (Session.spawn (PhysicsWorld.asPhysics pw) o w) in
    (forall n hA hB,
        nth_error trace n = Some hA ->
        nth_error trace (S n) = Some hB ->
        groundedAndJumping (state (this hA)) = true ->
        groundedAndJumping (state (this hB)) = false)
    /\ (forall n hA,
           nth_error trace n = Some hA ->
           groundedAndJumping (state (this hA)) = true ->
           usingFallback (this hA) = true
           /\ V3.y (position (state (this hA))) = 1)
    /\ (forall n hA hB input deltaTime,
           nth_error trace n = Some hA ->
           nth_error trace (S n) = Some hB ->
           nth_error fs (S n) = Some (input, deltaTime) ->
           usingFallback (this hA) = true ->
           jumps input deltaTime (state (this hA)) = true ->
           isGrounded (state (this hB)) = false).
Proof.
  intros W pw o w fs Hforce Hdts trace. subst trace.
  apply (frames_grounded_and_jumping pw).
  - apply betweenFrames_spawn.
  - assert (Hoptions : options (this (Session.spawn (PhysicsWorld.asPhysics pw)
                                                     o w)) = o).
    { unfold Session.spawn, constructor, try_catch, bind, ret.
      destruct (Physics.createCharacter _ _ _ _ w) as [[[[[b |]] |] |] w'];
        reflexivity. }
    rewrite Hoptions. exact Hforce.
  - exact Hdts.
Qed.

(** The six frames of [Scenario.cooldownRun] on a controller that starts
    in fallback mode. *)
Lemma grounded_and_jumping_frames_witness :
  0 <= jumpForce defaultOptions
  /\ Forall (fun f => 0 <= snd f) Scenario.cooldownRun
  /\ forall n hA hB,
      nth_error (Session.frames Scenario.cooldownRun
                                Scenario.fallbackFromStart) n = Some hA ->
      nth_error (Session.frames Scenario.cooldownRun
                                Scenario.fallbackFromStart) (S n) = Some hB ->
      groundedAndJumping (state (this hA)) = true ->
      groundedAndJumping (state (this hB)) = false.
Proof.
  assert (Hforce : 0 <= jumpForce defaultOptions) by (cbn; lra).
  assert (Hdts : Forall (fun f => 0 <= snd f) Scenario.cooldownRun)
    by (repeat constructor; cbn; lra).
  split; [exact Hforce | split; [exact Hdts |]].
  apply (grounded_and_jumping_frames unit PhysicsWorld.uninitialized
           defaultOptions tt Scenario.cooldownRun Hforce Hdts).
Defined.

(** The landing frame of a jump in fallback mode ends with both flags
    set: the ground collision sets [isGrounded], and [isJumping] is only
    cleared by the gravity block of the next frame. *)
Lemma landing_frame_has_both_flags :
  let s' := updateFallbackMovement defaultOptions Scenario.noInput (1 / 10)
                                   Scenario.comingDown in
  groundedAndJumping Scenario.comingDown = false
  /\ groundedAndJumping s' = true
  /\ groundedAndJumping
       (updateFallbackMovement defaultOptions Scenario.noInput (1 / 10) s')
     = false.
Proof.
  cbv zeta. split; [reflexivity |].
  assert (Hlanded : groundedAndJumping
                      (updateFallbackMovement defaultOptions Scenario.noInput
                                              (1 / 10) Scenario.comingDown)
                    = true).
  { unfold groundedAndJumping. eval_fallback_frames. reflexivity. }
  split; [exact Hlanded |].
  apply andb_true_iff in Hlanded. destruct Hlanded as [Hgrounded _].
  apply fallback_frame_from_ground.
  - exact Hgrounded.
  - apply fallback_floor.
  - lra.
  - cbn. lra.
Qed.

(** C7, counterexample.  Over the breaking engine, the first frame ends
    grounded and not jumping, in physics mode.  In the second frame the
    velocity read throws, the frame is reprocessed by the fallback
    integrator from the origin, a jump is started (the timer is reset to
    [0.3]), and the ground collision of the same frame sets [isGrounded]
    again: a jump initiation, not a landing, ends with both flags true. *)
Lemma jump_initiation_can_leave_both_flags_set :
  let h1 := after (update Scenario.noInput (1 / 10))
                  Scenario.overBreakingWorld in
  let h2 := after (update Scenario.jumpPressed (1 / 10)) h1 in
  Session.frames [(Scenario.noInput, 1 / 10); (Scenario.jumpPressed, 1 / 10)]
                 Scenario.overBreakingWorld = [h1; h2]
  /\ groundedAndJumping (state (this h1)) = false
  /\ isGrounded (state (this h1)) = true
  /\ jumpCooldownTimer (state (this h2)) = jumpCooldown defaultOptions
  /\ groundedAndJumping (state (this h2)) = true.
Proof.
  cbv zeta.
  destruct breaking_world_first_frame
    as (_ & _ & _ & _ & _ & Hgrounded & Hjumping & _ & _).
  destruct breaking_world_second_frame
    as (_ & Htimer2 & Hjumping2 & Hgrounded2).
  unfold groundedAndJumping.
  rewrite Hgrounded, Hjumping, Htimer2, Hjumping2, Hgrounded2.
  repeat split.
Qed.

(** ** C8: frames with no movement input and a zero time step *)

Section StillFrames.
Context {W : Type}.

(** With no movement input, no call of [update] changes [rotation], in
    either mode and whatever the engine does. *)
Lemma update_still_rotation input deltaTime (h : Heap W) :
  V2.x (Input.getMovementDirection input) = 0 ->
  V2.z (Input.getMovementDirection input) = 0 ->
  rotation (state (this (after (update input deltaTime) h)))
  = rotation (state (this h)).
Proof.
  intros Hx Hz.
  apply (wp_after (update input deltaTime) h
           (fun h' => rotation (state (this h')) = rotation (state (this h)))).
  open_heap h.
  wp_run; rewrite ?updateFallbackMovement_rotation;
    rewrite ?(updateRotation_still _ _ _ _ Hx Hz); state_simpl;
    rewrite ?(updateRotation_still _ _ _ _ Hx Hz); reflexivity.
Qed.

(** A fallback frame with a zero time step keeps a position at or above
    the resting height. *)
Lemma fallback_zero_step_position o input s :
  1 <= V3.y (position s) ->
  position (updateFallbackMovement o input 0 s) = position s.
Proof.
  intros Hy. unfold updateFallbackMovement.
  rewrite fallbackGroundCollision_position, fallbackIntegrate_position.
  cbn [V3.x V3.y V3.z]. autorewrite with blocks.
  rewrite !Rmult_0_r, !Rplus_0_r. cbn [position set_movementDirection].
  unfold Rltb. destruct (Rlt_dec (V3.y (position s)) 1) as [Hbelow | _];
    [exfalso; lra |].
  destruct (position s); reflexivity.
Qed.

Lemma still_frames input n (h : Heap W) :
  V2.x (Input.getMovementDirection input) = 0 ->
  V2.z (Input.getMovementDirection input) = 0 ->
  rotation (state (this (repeatUpdate n input 0 h)))
  = rotation (state (this h))
  /\ (usingFallback (this h) = true ->
      1 <= V3.y (position (state (this h))) ->
      usingFallback (this (repeatUpdate n input 0 h)) = true
      /\ position (state (this (repeatUpdate n input 0 h)))
         = position (state (this h))).
Proof.
  intros Hx Hz. induction n as [| n [IHrotation IHposition]].
  - split; [reflexivity | intros; split; [assumption | reflexivity]].
  - cbn [repeatUpdate]. split.
    + rewrite update_still_rotation by assumption. exact IHrotation.
    + intros Hmode Hy. destruct (IHposition Hmode Hy) as [Hmode' Hsame].
      unfold after at 1 2. rewrite update_in_fallback by exact Hmode'.
      cbn [snd]. heap_simpl. split; [exact Hmode' |].
      rewrite fallback_zero_step_position by (rewrite Hsame; exact Hy).
      exact Hsame.
Qed.
End StillFrames.

(** C8 (amended).  Calling [update] any number of times with a zero
    movement vector and [deltaTime = 0] leaves [rotation] (so
    [orientation_y]) unchanged in either mode, and leaves [position]
    unchanged when the controller is in fallback mode with
    [position.y >= 1] (as after every fallback frame). *)
Theorem still_frames_keep_pose :
  forall (W : Type) (h : Heap W) (input : Input.t) (n : nat),
    V2.x (Input.getMovementDirection input) = 0 ->
    V2.z (Input.getMovementDirection input) = 0 ->
    let h' := repeatUpdate n input 0 h in
    V3.y (rotation (state (this h'))) = V3.y (rotation (state (this h)))
    /\ (usingFallback (this h) = true ->
        1 <= V3.y (position (state (this h))) ->
        position (state (this h')) = position (state (this h))).
Proof.
  intros W h input n Hx Hz h'. subst h'.
  destruct (still_frames input n h Hx Hz) as [Hrotation Hposition].
  split.
  - rewrite Hrotation. reflexivity.
  - intros Hmode Hy. apply (Hposition Hmode Hy).
Qed.

(** Three still frames on a controller that starts in fallback mode. *)
Lemma still_frames_keep_pose_witness :
  let h' := repeatUpdate 3 Scenario.noInput 0 Scenario.fallbackFromStart in
  V3.y (rotation (state (this h'))) = 0
  /\ position (state (this h')) = V3.mk 0 1 0.
Proof.
  cbv zeta.
  destruct (still_frames_keep_pose unit Scenario.fallbackFromStart
              Scenario.noInput 3 eq_refl eq_refl) as [Hrotation Hposition].
  split.
  - exact Hrotation.
  - apply Hposition; [reflexivity | cbn; lra].
Defined.

(** C8, counterexample.  Right after the constructor, in physics mode
    over a body resting where it was created, [this.state.position] is
    the fallback position [(0, 1, 0)]; one call of [update] with a zero
    movement vector and [deltaTime = 0] overwrites it with the position
    of the body, [(0, 5, 0)]. *)
Lemma still_frame_can_move_position :
  Input.getMovementDirection Scenario.noInput = V2.mk 0 0
  /\ usingFallback (this Scenario.overEmptyWorld) = false
  /\ position (state (this Scenario.overEmptyWorld)) = V3.mk 0 1 0
  /\ position (state (this (after (update Scenario.noInput 0)
                                  Scenario.overEmptyWorld)))
     = V3.mk 0 5 0.
Proof.
  split; [reflexivity | split; [reflexivity | split; [reflexivity |]]].
  apply (wp_after (update Scenario.noInput 0) Scenario.overEmptyWorld
           (fun h' => position (state (this h')) = V3.mk 0 5 0)).
  change Scenario.overEmptyWorld
    with (mkHeap (mk (PhysicsWorld.asPhysics Scenario.emptyWorld)
                     defaultOptions initialState false
                     (Some (Character.mk
                              (Some (Scenario.restingBody (V3.mk 0 5 0))))))
                 tt []).
  wp_run; eval_calls; unfold canJump in *; state_simpl; try discriminate;
    reflexivity.
Qed.

(** ** C9: movement never writes the vertical velocity *)

Section VerticalVelocity.
Context {W : Type}.

Lemma targetVelocity_y o d s :
  V3.y (targetVelocity o d s) = V3.y (velocity s).
Proof. unfold targetVelocity. solve_block s. Qed.

(** [handleMovement] leaves [this.state] as it is. *)
Lemma handleMovement_state input deltaTime (h : Heap W) :
  state (this (after (handleMovement input deltaTime) h)) = state (this h).
Proof.
  apply (wp_after (handleMovement input deltaTime) h
                  (fun h' => state (this h') = state (this h))).
  open_heap h. wp_run; reflexivity.
Qed.
End VerticalVelocity.

(** C9.  In physics mode, every velocity that [update] passes to
    [setBodyVelocity] has the [y] of the velocity read from the engine
    ([body.linvel()]) earlier in the same call; the target computation
    keeps [velocity.y]; and in fallback mode the horizontal movement and
    decay block keeps [velocity.y], whose final value is fixed by the
    gravity, grounding and jump steps alone. *)
Theorem vertical_velocity_frame_condition :
  forall (W : Type) (h : Heap W) (b : RigidBody.t W) (input : Input.t)
         (deltaTime : R),
    usingFallback (this h) = false ->
    character (this h) = Some (Character.mk (Some b)) ->
    calls h = [] ->
    (forall tv,
        In (CallSetBodyVelocity tv) (calls (after (update input deltaTime) h)) ->
        exists g w1 v w2,
          Physics.isGrounded (physics (this h)) (Some b) (engine h) = (Ok g, w1)
          /\ RigidBody.linvel b w1 = (Ok v, w2)
          /\ V3.y tv = V3.y v)
    /\ (forall o d s, V3.y (targetVelocity o d s) = V3.y (velocity s))
    /\ (forall o d s,
           V3.y (velocity (fallbackHorizontal o d s)) = V3.y (velocity s))
    /\ (forall o s,
           V3.y (velocity (updateFallbackMovement o input deltaTime s))
           = if jumps input deltaTime s then jumpForce o * (1 / 10)
             else if isGrounded s then 0
             else V3.y (velocity s) - 981 / 100 * deltaTime).
Proof.
  intros W h b input deltaTime Hmode Hbody Hcalls.
  split; [| split; [| split]].
  - intros tv.
    apply (wp_after (update input deltaTime) h
             (fun h' => In (CallSetBodyVelocity tv) (calls h') -> _)).
    open_heap h. subst uf ch cs.
    wp_run; cbn [app In]; intros Hin;
      repeat (destruct Hin as [Hin | Hin]; try discriminate Hin);
      try contradiction.
    all: injection Hin as <-.
    all: do 4 eexists; split; [eassumption | split; [eassumption |]].
    all: rewrite targetVelocity_y; autorewrite with blocks; reflexivity.
  - intros o d s. apply targetVelocity_y.
  - intros o d s. apply fallbackHorizontal_velocity_y.
  - intros o s. apply updateFallbackMovement_velocity_y.
Qed.

(** One frame over the world of [createFallbackWorld()]: the controller
    is in physics mode, and the velocity it applies has the [y] of the
    velocity it read. *)
Lemma vertical_velocity_frame_condition_witness :
  usingFallback (this Scenario.overFallbackWorld) = false
  /\ character (this Scenario.overFallbackWorld)
     = Some (Character.mk (Some PhysicsWorld.createFallbackBody))
  /\ calls Scenario.overFallbackWorld = []
  /\ (forall tv,
         In (CallSetBodyVelocity tv)
            (calls (after (update Scenario.moveRight (1 / 10))
                          Scenario.overFallbackWorld)) ->
         exists g w1 v w2,
           Physics.isGrounded (physics (this Scenario.overFallbackWorld))
                              (Some PhysicsWorld.createFallbackBody)
                              (engine Scenario.overFallbackWorld) = (Ok g, w1)
           /\ RigidBody.linvel PhysicsWorld.createFallbackBody w1 = (Ok v, w2)
           /\ V3.y tv = V3.y v).
Proof.
  split; [reflexivity | split; [reflexivity | split; [reflexivity |]]].
  apply (vertical_velocity_frame_condition
           unit Scenario.overFallbackWorld PhysicsWorld.createFallbackBody
           Scenario.moveRight (1 / 10) eq_refl eq_refl eq_refl).
Defined.

(** ** C10: the floor of the fallback integrator *)

(** C10.  For every option set, input, [deltaTime] and state,
    [updateFallbackMovement] ends with [position.y >= 1], and whenever it
    ends with [isGrounded = true], [position.y] is exactly [1]. *)
Theorem updateFallbackMovement_floor :
  forall (o : Options) (input : Input.t) (deltaTime : R) (s : State),
    let s' := updateFallbackMovement o input deltaTime s in
    1 <= V3.y (position s')
    /\ (isGrounded s' = true -> V3.y (position s') = 1).
Proof.
  intros o input deltaTime s s'. subst s'.
  pose proof (fallback_floor o input deltaTime s) as [Hfloor Hrest].
  split; [exact Hfloor | exact Hrest].
Qed.

(** The first fallback frame after the constructor: the character falls
    from [y = 1], is clamped and grounded. *)
Lemma updateFallbackMovement_floor_witness :
  V3.y (position (updateFallbackMovement defaultOptions Scenario.noInput
                                         (1 / 10) initialState)) = 1.
Proof.
  apply (updateFallbackMovement_floor defaultOptions Scenario.noInput
                                      (1 / 10) initialState).
  rewrite updateFallbackMovement_isGrounded.
  unfold verticalVelocity, jumps. cbn.
  decide_comparisons. reflexivity.
Defined.

(** * Further properties of the code *)

(** ** The input handler *)

Section Keyboard.
Import InputHandler.

(** Dividing a vector by its length: what the normalisation of
    [getMovementDirection] does to any vector. *)
Lemma normalised_vector a b :
  let length := sqrt (a * a + b * b) in
  if Rgtb length 0
  then a / length * (a / length) + b / length * (b / length) = 1
  else a = 0 /\ b = 0.
Proof.
  cbv zeta.
  assert (Hsum : 0 <= a * a + b * b) by nra.
  pose proof (sqrt_pos (a * a + b * b)) as Hpos.
  pose proof (sqrt_sqrt _ Hsum) as Hsquare.
  unfold Rgtb. destruct (Rgt_dec (sqrt (a * a + b * b)) 0) as [Hlen | Hlen].
  - field_simplify_eq; [| lra]. nra.
  - assert (Hzero : sqrt (a * a + b * b) = 0) by lra.
    rewrite Hzero in Hsquare. split; nra.
Qed.

(** The vector before normalisation: one step back for [forward], one
    step on for [backward], and likewise for [left] and [right]. *)
Lemma getMovementDirection_shape keys :
  let a := (if right keys then 1 else 0) - (if left keys then 1 else 0) in
  let b := (if backward keys then 1 else 0)
           - (if forward keys then 1 else 0) in
  let length := sqrt (a * a + b * b) in
  getMovementDirection keys
  = if Rgtb length 0 then V2.mk (a / length) (b / length) else V2.mk a b.
Proof.
  destruct keys as [[|] [|] [|] [|] j]; unfold getMovementDirection;
    cbn [forward backward left right V2.x V2.z]; cbv zeta.
  all: match goal with
       | |- (if Rgtb (sqrt ?u) 0 then _ else _)
            = (if Rgtb (sqrt ?v) 0 then _ else _) =>
           replace u with v by ring
       end.
  all: destruct (Rgtb _ 0); f_equal; lra.
Qed.

(** Whether the held direction keys leave a direction: [forward] without
    [backward] or the reverse, [left] without [right] or the reverse. *)
Lemma getMovementDirection_cases keys :
  let d := getMovementDirection keys in
  if Bool.eqb (forward keys) (backward keys)
     && Bool.eqb (left keys) (right keys)
  then d = V2.mk 0 0
  else V2.x d * V2.x d + V2.z d * V2.z d = 1.
Proof.
  cbv zeta. rewrite getMovementDirection_shape. cbv zeta.
  set (a := (if right keys then 1 else 0) - (if left keys then 1 else 0)).
  set (b := (if backward keys then 1 else 0)
            - (if forward keys then 1 else 0)).
  pose proof (normalised_vector a b) as Hnorm. cbv zeta in Hnorm.
  destruct (Rgtb (sqrt (a * a + b * b)) 0) eqn:Hlen.
  - cbn [V2.x V2.z].
    destruct (Bool.eqb (forward keys) (backward keys)
              && Bool.eqb (left keys) (right keys)) eqn:Hcancel;
      [| exact Hnorm].
    exfalso. apply andb_prop in Hcancel as [Hfb Hlr].
    apply eqb_prop in Hfb, Hlr.
    assert (Ha : a = 0) by (subst a; rewrite Hlr; destruct (right keys); lra).
    assert (Hb : b = 0)
      by (subst b; rewrite Hfb; destruct (backward keys); lra).
    rewrite Ha, Hb in Hlen.
    replace (0 * 0 + 0 * 0) with 0 in Hlen by ring.
    rewrite sqrt_0 in Hlen. unfold Rgtb in Hlen.
    destruct (Rgt_dec 0 0); [lra | discriminate].
  - destruct Hnorm as [Ha Hb].
    assert (Hcancel : Bool.eqb (forward keys) (backward keys)
                      && Bool.eqb (left keys) (right keys) = true).
    { subst a b.
      destruct (forward keys), (backward keys), (left keys), (right keys);
        cbn; try reflexivity; exfalso; lra. }
    rewrite Hcancel, Ha, Hb. reflexivity.
Qed.

(** The controller's test for movement, on a keyboard direction. *)
Lemma keyboard_moving keys :
  moving (getMovementDirection keys)
  = negb (Bool.eqb (forward keys) (backward keys)
          && Bool.eqb (left keys) (right keys)).
Proof.
  pose proof (getMovementDirection_cases keys) as Hcases. cbv zeta in Hcases.
  unfold moving, Rneqb.
  destruct (Bool.eqb (forward keys) (backward keys)
            && Bool.eqb (left keys) (right keys)).
  - rewrite Hcases. cbn [V2.x V2.z].
    destruct (Req_dec_T 0 0); [reflexivity | lra].
  - destruct (Req_dec_T (V2.x (getMovementDirection keys)) 0) as [Hx | Hx];
      destruct (Req_dec_T (V2.z (getMovementDirection keys)) 0) as [Hz | Hz];
      try reflexivity.
    exfalso. rewrite Hx, Hz in Hcases. lra.
Qed.

Lemma setKey_setKey_same key a b keys :
  setKey key a (setKey key b keys) = setKey key a keys.
Proof. destruct key; reflexivity. Qed.

Lemma setKey_true_commute key1 key2 keys :
  setKey key1 true (setKey key2 true keys)
  = setKey key2 true (setKey key1 true keys).
Proof. destruct key1, key2; reflexivity. Qed.
End Keyboard.


(** X2.  Key events on the input handler: a repeated [keydown] of the
    same event changes nothing more than the first; a [keyup] after the
    [keydown] of the same event leaves the keys as the [keyup] alone
    would (the key released, the others as they were); and two
    [keydown]s give the same keys in either order. *)
Theorem key_events_compose :
  forall (event other : InputHandler.KeyboardEvent)
         (keys : InputHandler.Keys),
    InputHandler.onKeyDown event (InputHandler.onKeyDown event keys)
    = InputHandler.onKeyDown event keys
    /\ InputHandler.onKeyUp event (InputHandler.onKeyDown event keys)
       = InputHandler.onKeyUp event keys
    /\ InputHandler.onKeyDown event (InputHandler.onKeyDown other keys)
       = InputHandler.onKeyDown other (InputHandler.onKeyDown event keys).
Proof.
  intros event other keys.
  unfold InputHandler.onKeyDown, InputHandler.onKeyUp. cbv zeta.
  destruct (InputHandler.keyCodes (InputHandler.keyNameOf event))
    as [key |];
    destruct (InputHandler.keyCodes (InputHandler.keyNameOf other))
    as [key' |];
    repeat split;
    try reflexivity;
    try apply setKey_setKey_same;
    apply setKey_true_commute.
Qed.

(** ** Horizontal motion *)

Section Horizontal.
Variables (o : Options) (input : Input.t) (deltaTime : R).

(** The blocks that leave the horizontal velocity and the direction
    vector alone. *)
Lemma fallbackGravity_velocity_xz s :
  V3.x (velocity (fallbackGravity deltaTime s)) = V3.x (velocity s)
  /\ V3.z (velocity (fallbackGravity deltaTime s)) = V3.z (velocity s).
Proof. unfold fallbackGravity. split; solve_block s. Qed.

Lemma fallbackGravity_direction s :
  direction (fallbackGravity deltaTime s) = direction s.
Proof. unfold fallbackGravity. solve_block s. Qed.

Lemma tickCooldown_direction s :
  direction (tickCooldown deltaTime s) = direction s.
Proof. unfold tickCooldown, Rgtb. solve_block s. Qed.

Lemma fallbackJump_velocity_xz s :
  V3.x (velocity (fallbackJump o input s)) = V3.x (velocity s)
  /\ V3.z (velocity (fallbackJump o input s)) = V3.z (velocity s).
Proof. unfold fallbackJump, canJump, Rleb. split; solve_block s. Qed.

Lemma fallbackJump_direction s :
  direction (fallbackJump o input s) = direction s.
Proof. unfold fallbackJump, canJump, Rleb. solve_block s. Qed.

Lemma fallbackHorizontal_direction d s :
  direction (fallbackHorizontal o d s) = direction s.
Proof. unfold fallbackHorizontal, Rneqb, Rltb. solve_block s. Qed.

Lemma fallbackIntegrate_direction s :
  direction (fallbackIntegrate deltaTime s) = direction s.
Proof. unfold fallbackIntegrate. solve_block s. Qed.

Lemma fallbackGroundCollision_direction s :
  direction (fallbackGroundCollision s) = direction s.
Proof. unfold fallbackGroundCollision, Rltb. solve_block s. Qed.

Lemma landingReset_direction s : direction (landingReset s) = direction s.
Proof. unfold landingReset. solve_block s. Qed.

(** The movement block, with movement input: the input vector turned by
    the direction vector and scaled by the move speed. *)
Lemma fallbackHorizontal_moving d s :
  moving d = true ->
  let m := currentMoveSpeed o s in
  V3.x (velocity (fallbackHorizontal o d s))
  = V2.x (direction s) * V2.z d * m + - V2.z (direction s) * V2.x d * m
  /\ V3.z (velocity (fallbackHorizontal o d s))
     = V2.z (direction s) * V2.z d * m + V2.x (direction s) * V2.x d * m.
Proof.
  unfold moving, fallbackHorizontal. intros Hmoving. rewrite Hmoving.
  cbv zeta. split; cbn; reflexivity.
Qed.

(** The same vector in [handleMovement]. *)
Lemma targetVelocity_moving d s :
  moving d = true ->
  let m := currentMoveSpeed o s in
  V3.x (targetVelocity o d s)
  = V2.x (direction s) * V2.z d * m + - V2.z (direction s) * V2.x d * m
  /\ V3.z (targetVelocity o d s)
     = V2.z (direction s) * V2.z d * m + V2.x (direction s) * V2.x d * m.
Proof.
  unfold moving, targetVelocity. intros Hmoving. rewrite Hmoving.
  cbv zeta. split; cbn; reflexivity.
Qed.

Lemma targetVelocity_still d s :
  moving d = false ->
  V3.x (targetVelocity o d s) = 0 /\ V3.z (targetVelocity o d s) = 0.
Proof.
  unfold moving, targetVelocity. intros Hstill. rewrite Hstill.
  split; reflexivity.
Qed.

(** The direction vector after a rotation update with movement input. *)
Lemma updateRotation_faces d s :
  moving d = true -> facesYaw (updateRotation o d deltaTime s).
Proof.
  unfold moving, facesYaw, updateRotation. intros Hmoving.
  rewrite Hmoving. reflexivity.
Qed.

Lemma updateRotation_keeps_facing d s :
  facesYaw s -> facesYaw (updateRotation o d deltaTime s).
Proof.
  intros Hfaces. destruct (moving d) eqn:Hmoving.
  - apply updateRotation_faces. exact Hmoving.
  - unfold moving in Hmoving. unfold updateRotation.
    rewrite Hmoving. exact Hfaces.
Qed.

Lemma updateRotation_isGrounded_any d s :
  isGrounded (updateRotation o d deltaTime s) = isGrounded s.
Proof. apply updateRotation_isGrounded. Qed.
End Horizontal.

(** A unit input turned by a unit direction and scaled by [m] has length
    [m]. *)
Lemma turned_and_scaled (dx dz ix iz m : R) :
  dx * dx + dz * dz = 1 ->
  ix * ix + iz * iz = 1 ->
  (dx * iz * m + - dz * ix * m) * (dx * iz * m + - dz * ix * m)
  + (dz * iz * m + dx * ix * m) * (dz * iz * m + dx * ix * m)
  = m * m.
Proof.
  intros Hd Hi.
  replace ((dx * iz * m + - dz * ix * m) * (dx * iz * m + - dz * ix * m)
           + (dz * iz * m + dx * ix * m) * (dz * iz * m + dx * ix * m))
    with (m * m * ((dx * dx + dz * dz) * (ix * ix + iz * iz))) by ring.
  rewrite Hd, Hi. ring.
Qed.

Lemma facesYaw_unit s :
  facesYaw s ->
  V2.x (direction s) * V2.x (direction s)
  + V2.z (direction s) * V2.z (direction s) = 1.
Proof.
  unfold facesYaw. intros ->. cbn [V2.x V2.z].
  pose proof (sin2_cos2 (V3.y (rotation s))) as H. unfold Rsqr in H. exact H.
Qed.

(** The horizontal velocity of a fallback frame with movement input. *)
Lemma updateFallbackMovement_speed o input deltaTime s :
  let d := Input.getMovementDirection input in
  moving d = true ->
  V2.x d * V2.x d + V2.z d * V2.z d = 1 ->
  let m := moveSpeed o
           * (if jumps input deltaTime s then airControl o
              else if isGrounded s then 1 else airControl o) in
  horizontalSpeed2 (velocity (updateFallbackMovement o input deltaTime s))
  = m * m.
Proof.
  intros d Hmoving Hunit m.
  unfold updateFallbackMovement. fold d.
  set (s1 := updateRotation o d deltaTime (set_movementDirection d s)).
  set (s4 := fallbackJump o input
               (tickCooldown deltaTime (fallbackGravity deltaTime s1))).
  autorewrite with blocks.
  destruct (fallbackHorizontal_moving o d s4 Hmoving) as [Hx Hz].
  cbv zeta in Hx, Hz. unfold horizontalSpeed2. rewrite Hx, Hz.
  assert (Hdir : direction s4 = direction s1).
  { subst s4. rewrite fallbackJump_direction, tickCooldown_direction,
      fallbackGravity_direction. reflexivity. }
  assert (Hfaces : facesYaw s1) by (apply updateRotation_faces; exact Hmoving).
  pose proof (facesYaw_unit s1 Hfaces) as Hlen. rewrite <- Hdir in Hlen.
  assert (Hspeed : currentMoveSpeed o s4 = m).
  { unfold currentMoveSpeed. subst s4 m. autorewrite with blocks.
    subst s1. rewrite canJump_after_gravity. autorewrite with blocks.
    cbn [isGrounded set_movementDirection].
    destruct (jumps input deltaTime s); reflexivity. }
  rewrite Hspeed. apply turned_and_scaled; assumption.
Qed.



(** The velocity [handleMovement] asks for, right after a rotation update
    with keyboard input. *)
Lemma targetVelocity_keyboard_speed o keys deltaTime s :
  let d := InputHandler.getMovementDirection keys in
  let s1 := updateRotation o d deltaTime s in
  horizontalSpeed2 (targetVelocity o d s1)
  = if Bool.eqb (InputHandler.forward keys) (InputHandler.backward keys)
       && Bool.eqb (InputHandler.left keys) (InputHandler.right keys)
    then 0
    else let m := moveSpeed o * (if isGrounded s then 1 else airControl o) in
         m * m.
Proof.
  intros d s1.
  pose proof (getMovementDirection_cases keys) as Hcases.
  pose proof (keyboard_moving keys) as Hmoving.
  cbv zeta in Hcases. fold d in Hcases, Hmoving. unfold horizontalSpeed2.
  destruct (Bool.eqb (InputHandler.forward keys) (InputHandler.backward keys)
            && Bool.eqb (InputHandler.left keys) (InputHandler.right keys)).
  - destruct (targetVelocity_still o d s1 Hmoving) as [Hx Hz].
    rewrite Hx, Hz. ring.
  - destruct (targetVelocity_moving o d s1 Hmoving) as [Hx Hz].
    cbv zeta in Hx, Hz. rewrite Hx, Hz. cbv zeta.
    assert (Hspeed : currentMoveSpeed o s1
                     = moveSpeed o * (if isGrounded s then 1 else airControl o)).
    { unfold currentMoveSpeed, s1. rewrite updateRotation_isGrounded.
      reflexivity. }
    rewrite Hspeed. apply turned_and_scaled; [| exact Hcases].
    apply facesYaw_unit, updateRotation_faces. exact Hmoving.
Qed.



(** ** The direction vector and the yaw *)

Section Facing.
Variables (o : Options) (input : Input.t) (deltaTime : R).

Lemma facesYaw_same s1 s2 :
  direction s1 = direction s2 -> rotation s1 = rotation s2 ->
  facesYaw s2 -> facesYaw s1.
Proof. unfold facesYaw. intros -> ->. exact (fun H => H). Qed.

Lemma updateFallbackMovement_direction s :
  direction (updateFallbackMovement o input deltaTime s)
  = direction (updateRotation o (Input.getMovementDirection input)
                              deltaTime s).
Proof.
  unfold updateFallbackMovement.
  rewrite fallbackGroundCollision_direction, fallbackIntegrate_direction,
    fallbackHorizontal_direction, fallbackJump_direction,
    tickCooldown_direction, fallbackGravity_direction.
  unfold updateRotation. solve_block s.
Qed.

Lemma updateFallbackMovement_faces s :
  moving (Input.getMovementDirection input) = true ->
  facesYaw (updateFallbackMovement o input deltaTime s).
Proof.
  intros Hmoving.
  apply (facesYaw_same _ (updateRotation o (Input.getMovementDirection input)
                                         deltaTime s)).
  - apply updateFallbackMovement_direction.
  - apply updateFallbackMovement_rotation.
  - apply updateRotation_faces. exact Hmoving.
Qed.

Lemma updateFallbackMovement_keeps_facing s :
  facesYaw s -> facesYaw (updateFallbackMovement o input deltaTime s).
Proof.
  intros Hfaces.
  apply (facesYaw_same _ (updateRotation o (Input.getMovementDirection input)
                                         deltaTime s)).
  - apply updateFallbackMovement_direction.
  - apply updateFallbackMovement_rotation.
  - apply updateRotation_keeps_facing. exact Hfaces.
Qed.

Lemma tickCooldown_keeps_facing s :
  facesYaw s -> facesYaw (tickCooldown deltaTime s).
Proof.
  apply facesYaw_same;
    [apply tickCooldown_direction | apply tickCooldown_rotation].
Qed.

Lemma landingReset_keeps_facing s : facesYaw s -> facesYaw (landingReset s).
Proof.
  apply facesYaw_same;
    [apply landingReset_direction | apply landingReset_rotation].
Qed.
End Facing.

(** Walk down the assignments of a frame to the rotation update. *)
Ltac facing :=
  repeat first
    [ assumption
    | apply updateRotation_faces; assumption
    | apply updateFallbackMovement_faces; assumption
    | apply updateRotation_keeps_facing
    | apply updateFallbackMovement_keeps_facing
    | apply tickCooldown_keeps_facing
    | apply landingReset_keeps_facing
    | match goal with
      | |- facesYaw (set_isGrounded _ ?s) => change (facesYaw s)
      | |- facesYaw (set_isJumping _ ?s) => change (facesYaw s)
      | |- facesYaw (set_jumpCooldownTimer _ ?s) => change (facesYaw s)
      | |- facesYaw (set_velocity _ ?s) => change (facesYaw s)
      | |- facesYaw (set_position _ ?s) => change (facesYaw s)
      | |- facesYaw (set_movementDirection _ ?s) => change (facesYaw s)
      end ].

Lemma update_facing {W : Type} (h : Heap W) input deltaTime :
  moving (Input.getMovementDirection input) = true
  \/ facesYaw (state (this h)) ->
  facesYaw (state (this (after (update input deltaTime) h))).
Proof.
  intros Hcase.
  apply (wp_after (update input deltaTime) h
           (fun h' => facesYaw (state (this h')))).
  open_heap h.
  destruct Hcase as [Hmoving | Hfaces]; wp_run; facing.
Qed.

(** X5.  After a call of [update] with movement input, or after any call
    of [update] on a controller whose direction vector agreed with its
    yaw, [getDirection()] is [(sin yaw, cos yaw)] for the yaw that
    [getRotation()] returns: the direction vector follows the rotation in
    both modes, also in a frame that fails over to the fallback
    integrator. *)
Theorem direction_follows_rotation :
  forall (W : Type) (h : Heap W) (input : Input.t) (deltaTime : R),
    moving (Input.getMovementDirection input) = true
    \/ facesYaw (state (this h)) ->
    let h' := after (update input deltaTime) h in
    exists r,
      returned getRotation h' = Ok r
      /\ returned getDirection h'
         = Ok (V2.mk (sin (V3.y r)) (cos (V3.y r))).
Proof.
  intros W h input deltaTime Hcase h'.
  pose proof (update_facing h input deltaTime Hcase) as Hfaces.
  fold h' in Hfaces. unfold facesYaw in Hfaces.
  eexists. split; [reflexivity |].
  unfold returned, getDirection, bind, readThis, ret. cbn [fst].
  rewrite Hfaces. reflexivity.
Qed.

(** The first frame of a controller that starts in fallback mode, moving
    to the right. *)
Lemma direction_follows_rotation_witness :
  moving (Input.getMovementDirection Scenario.moveRight) = true
  /\ let h' := after (update Scenario.moveRight (1 / 10))
                     Scenario.fallbackFromStart in
     exists r,
       returned getRotation h' = Ok r
       /\ returned getDirection h'
          = Ok (V2.mk (sin (V3.y r)) (cos (V3.y r))).
Proof.
  assert (Hmoving : moving (Input.getMovementDirection Scenario.moveRight)
                    = true).
  { unfold moving, Rneqb. cbn [Scenario.moveRight Input.getMovementDirection
                                V2.x V2.z].
    destruct (Req_dec_T 1 0) as [Habsurd | _]; [lra | reflexivity]. }
  split; [exact Hmoving |].
  apply (direction_follows_rotation
           unit Scenario.fallbackFromStart Scenario.moveRight (1 / 10)
           (or_introl Hmoving)).
Defined.

(** ** Creating the character *)

Section Construction.
Context {W : Type}.

(** [createCharacter] of [PhysicsWorld], case by case. *)
Lemma createCharacter_cases (pw : PhysicsWorld.t W) position radius height w :
  exists res w',
    PhysicsWorld.createCharacter pw position radius height w = (Ok res, w')
    /\ if PhysicsWorld.initialized pw
       then exists b,
           res = Some (Character.mk (Some b))
           /\ (b = PhysicsWorld.createFallbackBody
               \/ exists w1,
                  PhysicsWorld.createRigidBody (PhysicsWorld.world pw)
                                               position w = (Ok b, w1))
       else res = None /\ w' = w.
Proof.
  unfold PhysicsWorld.createCharacter.
  destruct (PhysicsWorld.initialized pw); cbn [negb].
  - unfold try_catch, bind, ret.
    destruct (PhysicsWorld.createRigidBody (PhysicsWorld.world pw) position w)
      as [[b |] w1] eqn:Hbody.
    + destruct (PhysicsWorld.createCollider (PhysicsWorld.world pw)
                                            (height / 2) radius w1)
        as [[u |] w2].
      * do 2 eexists. split; [reflexivity |].
        exists b. split; [reflexivity |]. right. exists w1. reflexivity.
      * do 2 eexists. split; [reflexivity |].
        eexists. split; [reflexivity |]. left. reflexivity.
    + do 2 eexists. split; [reflexivity |].
      eexists. split; [reflexivity |]. left. reflexivity.
  - do 2 eexists. split; [reflexivity |]. split; reflexivity.
Qed.

(** [update] assigns neither [this.character] nor [this.physics]. *)
Lemma update_keeps_character input deltaTime (h : Heap W) :
  character (this (after (update input deltaTime) h)) = character (this h).
Proof.
  apply (wp_after (update input deltaTime) h
           (fun h' => character (this h') = character (this h))).
  open_heap h. wp_run; reflexivity.
Qed.

(** One frame over the body made by [createFallbackBody]. *)
Lemma fallback_body_frame (pw : PhysicsWorld.t W) input deltaTime
      (h : Heap W) :
  physics (this h) = PhysicsWorld.asPhysics pw ->
  usingFallback (this h) = false ->
  character (this h)
  = Some (Character.mk (Some PhysicsWorld.createFallbackBody)) ->
  let h' := after (update input deltaTime) h in
  usingFallback (this h') = false
  /\ position (state (this h')) = V3.zero
  /\ velocity (state (this h')) = V3.zero.
Proof.
  intros Hphysics Hmode Hbody. cbv zeta.
  apply (wp_after (update input deltaTime) h
           (fun h' => usingFallback (this h') = false
                      /\ position (state (this h')) = V3.zero
                      /\ velocity (state (this h')) = V3.zero)).
  open_heap h. subst ph uf ch.
  wp_run; over_physicsWorld; eval_calls.
  all: state_simpl; repeat split; reflexivity.
Qed.
End Construction.

(** X6.  [createCharacter] of [PhysicsWorld] never throws.  On a world
    that is not initialised it returns [null] without calling the engine;
    on an initialised world it always returns a character with a body:
    the body the engine created, or, when creating the body or its
    collider failed, the stand-in of [createFallbackBody]. *)
Theorem createCharacter_always_returns :
  forall (W : Type) (pw : PhysicsWorld.t W) (position : V3.t)
         (radius height : R) (w : W),
    exists res w',
      PhysicsWorld.createCharacter pw position radius height w = (Ok res, w')
      /\ if PhysicsWorld.initialized pw
         then exists b,
             res = Some (Character.mk (Some b))
             /\ (b = PhysicsWorld.createFallbackBody
                 \/ exists w1,
                    PhysicsWorld.createRigidBody (PhysicsWorld.world pw)
                                                 position w = (Ok b, w1))
         else res = None /\ w' = w.
Proof.
  intros W pw position radius height w.
  exact (createCharacter_cases pw position radius height w).
Qed.

(** X7.  [new CharacterController(physics, options)] over a
    [PhysicsWorld] never throws, starts from the initial state, and
    starts in physics mode exactly when the world is initialised: also
    when the engine failed to create the body, in which case the
    controller drives the stand-in body. *)
Theorem constructor_over_physicsWorld :
  forall (W : Type) (pw : PhysicsWorld.t W) (o : Options) (w : W),
    exists c w',
      constructor (PhysicsWorld.asPhysics pw) o w = (Ok c, w')
      /\ usingFallback c = negb (PhysicsWorld.initialized pw)
      /\ state c = initialState
      /\ options c = o
      /\ if PhysicsWorld.initialized pw
         then exists b, character c = Some (Character.mk (Some b))
         else character c = None.
Proof.
  intros W pw o w.
  destruct (createCharacter_cases pw (V3.mk 0 5 0) (1 / 2) 1 w)
    as (res & w' & Hcreate & Hcases).
  unfold constructor, try_catch, bind.
  cbn [PhysicsWorld.asPhysics Physics.createCharacter].
  rewrite Hcreate.
  destruct (PhysicsWorld.initialized pw).
  - destruct Hcases as (b & -> & _). cbn [negb].
    do 2 eexists. split; [reflexivity |].
    repeat split. exists b. reflexivity.
  - destruct Hcases as [-> _]. cbn [negb].
    do 2 eexists. split; [reflexivity |]. repeat split.
Qed.

(** X8.  A controller in physics mode whose body is the stand-in of
    [createFallbackBody] (as after a failed engine start) never leaves
    physics mode over a [PhysicsWorld], and at the end of every frame its
    position is [(0, 0, 0)] and its velocity is zero, whatever the
    input: the character does not move. *)
Theorem fallback_body_stays_at_origin :
  forall (W : Type) (pw : PhysicsWorld.t W) (h : Heap W)
         (fs : list (Input.t * R)),
    physics (this h) = PhysicsWorld.asPhysics pw ->
    usingFallback (this h) = false ->
    character (this h)
    = Some (Character.mk (Some PhysicsWorld.createFallbackBody)) ->
    Forall (fun h' => usingFallback (this h') = false
                      /\ position (state (this h')) = V3.zero
                      /\ velocity (state (this h')) = V3.zero)
           (Session.frames fs h).
Proof.
  intros W pw h fs. revert h.
  induction fs as [| [input deltaTime] fs IH]; intros h Hphysics Hmode Hbody.
  - constructor.
  - cbn [Session.frames].
    pose proof (fallback_body_frame pw input deltaTime h Hphysics Hmode Hbody)
      as Hframe. cbv zeta in Hframe.
    constructor; [exact Hframe |].
    apply IH.
    + rewrite <- Hphysics. apply update_keeps_physics.
    + apply Hframe.
    + rewrite <- Hbody. apply update_keeps_character.
Qed.

(** Two frames of movement to the right over the world of
    [createFallbackWorld()]. *)
Lemma fallback_body_stays_at_origin_witness :
  usingFallback (this Scenario.overFallbackWorld) = false
  /\ Forall (fun h' => usingFallback (this h') = false
                       /\ position (state (this h')) = V3.zero
                       /\ velocity (state (this h')) = V3.zero)
            (Session.frames [(Scenario.moveRight, 1 / 10);
                             (Scenario.moveRight, 1 / 10)]
                            Scenario.overFallbackWorld).
Proof.
  split; [reflexivity |].
  apply (fallback_body_stays_at_origin
           unit PhysicsWorld.createFallbackWorld Scenario.overFallbackWorld
           [(Scenario.moveRight, 1 / 10); (Scenario.moveRight, 1 / 10)]
           eq_refl eq_refl eq_refl).
Defined.

(** ** What the methods return and which calls they make *)

Section Calls.
Context {W : Type}.

(** [getPosition()] returns what it leaves in [state.position]; in
    fallback mode it changes nothing. *)
Lemma getPosition_result (h : Heap W) :
  exists p,
    returned getPosition h = Ok p
    /\ position (state (this (after getPosition h))) = p
    /\ (usingFallback (this h) = true ->
        p = position (state (this h)) /\ after getPosition h = h).
Proof.
  change (wp getPosition h
            (fun r h' =>
               exists p,
                 r = Ok p
                 /\ position (state (this h')) = p
                 /\ (usingFallback (this h) = true ->
                     p = position (state (this h)) /\ h' = h))).
  open_heap h.
  wp_run; eexists; (split; [reflexivity |]); (split; [reflexivity |]);
    intros Hmode; try discriminate Hmode; split; reflexivity.
Qed.

(** In fallback mode no request reaches the engine. *)
Lemma serve_in_fallback_engine r (h : Heap W) :
  usingFallback (this h) = true ->
  engine (Session.serve r h) = engine h
  /\ forall c, In c (calls (Session.serve r h)) ->
               In c (calls h)
               \/ exists input deltaTime,
                   c = CallUpdateFallbackMovement input deltaTime.
Proof.
  intros Hmode. destruct r as [input deltaTime | |]; unfold Session.serve.
  - unfold after. rewrite update_in_fallback by exact Hmode.
    cbn [snd engine calls]. split; [reflexivity |].
    intros c Hin. apply in_app_or in Hin as [Hin | [<- | []]].
    + left. exact Hin.
    + right. do 2 eexists. reflexivity.
  - destruct (getPosition_result h) as (p & _ & _ & Hsame).
    destruct (Hsame Hmode) as [_ ->]. split; [reflexivity |]. auto.
  - split; [reflexivity |]. intros c Hin. left. exact Hin.
Qed.

(** The jump impulse of [update]. *)
Lemma update_impulse (h : Heap W) input deltaTime impulse :
  calls h = [] ->
  In (CallApplyImpulse impulse) (calls (after (update input deltaTime) h)) ->
  impulse = V3.mk 0 (jumpForce (options (this h))) 0
  /\ Input.isJumping input = true
  /\ usingFallback (this h) = false
  /\ ticked deltaTime (jumpCooldownTimer (state (this h))) <= 0
  /\ exists b w1,
      bodyOf (character (this h)) = Some b
      /\ Physics.isGrounded (physics (this h)) (Some b) (engine h)
         = (Ok true, w1).
Proof.
  intros Hcalls.
  apply (wp_after (update input deltaTime) h
           (fun h' => In (CallApplyImpulse impulse) (calls h') -> _)).
  open_heap h. subst cs.
  wp_run; cbn [app In]; intros Hin;
    repeat (destruct Hin as [Hin | Hin]; try discriminate Hin);
    try contradiction.
  all: injection Hin as <-.
  all: match goal with
       | Hjump : canJump _ _ = true |- _ =>
           unfold canJump in Hjump; state_simpl;
           apply andb_prop in Hjump as [Hjump Htimer];
           apply andb_prop in Hjump as [Hpressed Hgrounded]
       end.
  all: subst; split; [reflexivity |]; split; [assumption |].
  all: split; [reflexivity |]; split.
  all: try (unfold ticked; unfold Rleb in *;
            match goal with
            | H : (if Rle_dec ?a 0 then true else false) = true |- _ =>
                destruct (Rle_dec a 0); [assumption | discriminate H]
            end).
  all: do 2 eexists; split; [reflexivity | eassumption].
Qed.
End Calls.

(** X9.  [update] never throws, in either mode, whatever the [physics]
    object and the engine do: every failure is caught inside the call. *)
Theorem update_returns_normally :
  forall (W : Type) (h : Heap W) (input : Input.t) (deltaTime : R),
    returned (update input deltaTime) h = Ok tt.
Proof.
  intros W h input deltaTime. apply update_never_throws.
Qed.

(** X10.  [getPosition()] never throws and the position it returns is
    the one [state.position] holds afterwards: the engine's position
    when the physics path succeeds, the stored position otherwise.  In
    fallback mode it returns the stored position and changes nothing. *)
Theorem getPosition_returns_stored_position :
  forall (W : Type) (h : Heap W),
    exists p,
      returned getPosition h = Ok p
      /\ position (state (this (after getPosition h))) = p
      /\ (usingFallback (this h) = true ->
          p = position (state (this h)) /\ after getPosition h = h).
Proof.
  intros W h. exact (getPosition_result h).
Qed.

(** X11.  Once the controller is in fallback mode, no request of a
    session ([update], [getPosition], [getState]) calls the physics
    object or the engine again: the engine's state stays as it was and
    the only calls added are calls of [updateFallbackMovement]. *)
Theorem fallback_mode_leaves_engine_alone :
  forall (W : Type) (rs : list Session.Request) (h : Heap W),
    usingFallback (this h) = true ->
    engine (Session.serveAll rs h) = engine h
    /\ forall c, In c (calls (Session.serveAll rs h)) ->
                 In c (calls h)
                 \/ exists input deltaTime,
                     c = CallUpdateFallbackMovement input deltaTime.
Proof.
  intros W rs. induction rs as [| r rs IH]; intros h Hmode.
  - split; [reflexivity |]. intros c Hin. left. exact Hin.
  - cbn [Session.serveAll fold_left].
    destruct (serve_in_fallback_engine r h Hmode) as [Hengine Hcalls].
    destruct (IH (Session.serve r h) (serve_keeps_fallback r h Hmode))
      as [Hengine' Hcalls'].
    split.
    + unfold Session.serveAll in Hengine'. rewrite Hengine'. exact Hengine.
    + intros c Hin. destruct (Hcalls' c Hin) as [Hold | Hnew].
      * apply Hcalls. exact Hold.
      * right. exact Hnew.
Qed.

(** Three requests on a controller that starts in fallback mode. *)
Lemma fallback_mode_leaves_engine_alone_witness :
  usingFallback (this Scenario.fallbackFromStart) = true
  /\ engine (Session.serveAll
               [Session.ReqUpdate Scenario.jumpPressed (1 / 10);
                Session.ReqGetPosition; Session.ReqGetState]
               Scenario.fallbackFromStart)
     = engine Scenario.fallbackFromStart
  /\ forall c,
      In c (calls (Session.serveAll
                     [Session.ReqUpdate Scenario.jumpPressed (1 / 10);
                      Session.ReqGetPosition; Session.ReqGetState]
                     Scenario.fallbackFromStart)) ->
      In c (calls Scenario.fallbackFromStart)
      \/ exists input deltaTime,
          c = CallUpdateFallbackMovement input deltaTime.
Proof.
  split; [reflexivity |].
  apply (fallback_mode_leaves_engine_alone
           unit
           [Session.ReqUpdate Scenario.jumpPressed (1 / 10);
            Session.ReqGetPosition; Session.ReqGetState]
           Scenario.fallbackFromStart eq_refl).
Defined.

(** X12.  [update] applies the jump impulse only in physics mode, only
    when the jump key is held, the ground probe of the same call answered
    grounded and the cooldown timer, after this frame's decrement, is not
    positive; the impulse is [(0, jumpForce, 0)]. *)
Theorem impulse_only_on_jump :
  forall (W : Type) (h : Heap W) (input : Input.t) (deltaTime : R)
         (impulse : V3.t),
    calls h = [] ->
    In (CallApplyImpulse impulse) (calls (after (update input deltaTime) h)) ->
    impulse = V3.mk 0 (jumpForce (options (this h))) 0
    /\ Input.isJumping input = true
    /\ usingFallback (this h) = false
    /\ ticked deltaTime (jumpCooldownTimer (state (this h))) <= 0
    /\ exists b w1,
        bodyOf (character (this h)) = Some b
        /\ Physics.isGrounded (physics (this h)) (Some b) (engine h)
           = (Ok true, w1).
Proof.
  intros W h input deltaTime impulse. apply update_impulse.
Qed.

(** The first frame over solid ground with the jump key held. *)
Lemma jump_over_solid_ground :
  In (CallApplyImpulse (V3.mk 0 10 0))
     (calls (after (update Scenario.jumpPressed (1 / 10))
                   Scenario.overSolidGround)).
Proof.
  apply (wp_after (update Scenario.jumpPressed (1 / 10))
           Scenario.overSolidGround
           (fun h' => In (CallApplyImpulse (V3.mk 0 10 0)) (calls h'))).
  change Scenario.overSolidGround
    with (mkHeap (mk (PhysicsWorld.asPhysics Scenario.solidGround)
                     defaultOptions initialState false
                     (Some (Character.mk
                              (Some (Scenario.restingBody (V3.mk 0 5 0))))))
                 tt []).
  wp_run; cbv delta [Scenario.solidGround] in *; eval_calls;
    unfold canJump in *; state_simpl; try discriminate.
  all: unfold tickCooldown, Rgtb, Rleb in *.
  - cbn [app In]. right; right; right; left. reflexivity.
  - exfalso. destruct (Rgt_dec 0 0) as [Habsurd | _]; [lra |].
    destruct (Rle_dec 0 0) as [_ | Habsurd]; [discriminate | lra].
Qed.

(** The impulse of that frame. *)
Lemma impulse_only_on_jump_witness :
  calls Scenario.overSolidGround = []
  /\ V3.mk 0 10 0 = V3.mk 0 (jumpForce (options (this Scenario.overSolidGround))) 0
  /\ Input.isJumping Scenario.jumpPressed = true
  /\ usingFallback (this Scenario.overSolidGround) = false
  /\ ticked (1 / 10) (jumpCooldownTimer (state (this Scenario.overSolidGround)))
     <= 0
  /\ exists b w1,
      bodyOf (character (this Scenario.overSolidGround)) = Some b
      /\ Physics.isGrounded (physics (this Scenario.overSolidGround)) (Some b)
                            (engine Scenario.overSolidGround)
         = (Ok true, w1).
Proof.
  split; [reflexivity |].
  apply (impulse_only_on_jump
           unit Scenario.overSolidGround Scenario.jumpPressed (1 / 10)
           (V3.mk 0 10 0) eq_refl jump_over_solid_ground).
Defined.

(** X20.  The calls of one physics-mode frame over a [PhysicsWorld], in
    order: the ground probe, the velocity read, then either the velocity
    set, the jump impulse if a jump starts, and the position read, with
    the controller still in physics mode; or, when the velocity read
    throws, [updateFallbackMovement] with the same input and
    [deltaTime] and nothing else, with the controller in fallback
    mode. *)
Theorem physics_frame_calls :
  forall (W : Type) (pw : PhysicsWorld.t W) (h : Heap W) (b : RigidBody.t W)
         (input : Input.t) (deltaTime : R),
    physics (this h) = PhysicsWorld.asPhysics pw ->
    usingFallback (this h) = false ->
    character (this h) = Some (Character.mk (Some b)) ->
    let h' := after (update input deltaTime) h in
    let impulse := V3.mk 0 (jumpForce (options (this h))) 0 in
    (usingFallback (this h') = false
     /\ exists tv,
         calls h' = calls h ++ [CallIsGrounded; CallLinvel;
                                CallSetBodyVelocity tv; CallGetBodyPosition]
         \/ calls h' = calls h ++ [CallIsGrounded; CallLinvel;
                                   CallSetBodyVelocity tv;
                                   CallApplyImpulse impulse;
                                   CallGetBodyPosition])
    \/ (usingFallback (this h') = true
        /\ calls h' = calls h ++ [CallIsGrounded; CallLinvel;
                                  CallUpdateFallbackMovement input deltaTime]).
Proof.
  intros W pw h b input deltaTime Hphysics Hmode Hbody. cbv zeta.
  apply (wp_after (update input deltaTime) h
           (fun h' =>
              (usingFallback (this h') = false
               /\ exists tv,
                   calls h' = calls h ++ [CallIsGrounded; CallLinvel;
                                          CallSetBodyVelocity tv;
                                          CallGetBodyPosition]
                   \/ calls h' = calls h ++ [CallIsGrounded; CallLinvel;
                                             CallSetBodyVelocity tv;
                                             CallApplyImpulse
                                               (V3.mk 0 (jumpForce
                                                           (options (this h)))
                                                      0);
                                             CallGetBodyPosition])
              \/ (usingFallback (this h') = true
                  /\ calls h' = calls h ++ [CallIsGrounded; CallLinvel;
                                            CallUpdateFallbackMovement
                                              input deltaTime]))).
  open_heap h. subst ph uf ch.
  wp_run; over_physicsWorld; repeat rewrite <- app_assoc; cbn [app].
  all: first
         [ right; split; reflexivity
         | left; split; [reflexivity |]; eexists; left; reflexivity
         | left; split; [reflexivity |]; eexists; right; reflexivity ].
Qed.

(** The first frame over solid ground with the jump key held makes the
    five calls. *)
Lemma physics_frame_calls_witness :
  usingFallback (this Scenario.overSolidGround) = false
  /\ let h' := after (update Scenario.jumpPressed (1 / 10))
                     Scenario.overSolidGround in
     let impulse :=
       V3.mk 0 (jumpForce (options (this Scenario.overSolidGround))) 0 in
     (usingFallback (this h') = false
      /\ exists tv,
          calls h' = calls Scenario.overSolidGround
                     ++ [CallIsGrounded; CallLinvel;
                         CallSetBodyVelocity tv; CallGetBodyPosition]
          \/ calls h' = calls Scenario.overSolidGround
                        ++ [CallIsGrounded; CallLinvel;
                            CallSetBodyVelocity tv;
                            CallApplyImpulse impulse;
                            CallGetBodyPosition])
     \/ (usingFallback (this h') = true
         /\ calls h' = calls Scenario.overSolidGround
                       ++ [CallIsGrounded; CallLinvel;
                           CallUpdateFallbackMovement Scenario.jumpPressed
                                                      (1 / 10)]).
Proof.
  split; [reflexivity |].
  apply (physics_frame_calls
           unit Scenario.solidGround Scenario.overSolidGround
           (Scenario.restingBody (V3.mk 0 5 0)) Scenario.jumpPressed (1 / 10)
           eq_refl eq_refl eq_refl).
Defined.

(** ** Turning toward the movement direction *)

Section Turning.

(** Once a loop has exited, further iterations change nothing. *)
Lemma whileAbovePI_exited n k a :
  whileAbovePI n a <= PI -> whileAbovePI (n + k) a = whileAbovePI n a.
Proof.
  revert a. induction n as [| n IH]; intros a Hexit.
  - cbn [whileAbovePI Nat.add] in *.
    destruct k; cbn [whileAbovePI]; [reflexivity |].
    destruct (Rgt_dec a PI); [lra | reflexivity].
  - cbn [whileAbovePI Nat.add] in *.
    destruct (Rgt_dec a PI); [apply IH; exact Hexit | reflexivity].
Qed.

Lemma whileBelowPI_exited n k a :
  - PI <= whileBelowPI n a -> whileBelowPI (n + k) a = whileBelowPI n a.
Proof.
  revert a. induction n as [| n IH]; intros a Hexit.
  - cbn [whileBelowPI Nat.add] in *.
    destruct k; cbn [whileBelowPI]; [reflexivity |].
    destruct (Rlt_dec a (- PI)); [lra | reflexivity].
  - cbn [whileBelowPI Nat.add] in *.
    destruct (Rlt_dec a (- PI)); [apply IH; exact Hexit | reflexivity].
Qed.

(** Two angles of [[-PI, PI]] a whole number of turns apart have the
    same absolute value. *)
Lemma same_angle_same_size (a b : R) (n : Z) :
  - PI <= a <= PI -> - PI <= b <= PI -> a = b + 2 * PI * IZR n ->
  Rabs a = Rabs b.
Proof.
  intros Ha Hb Heq. pose proof PI_RGT_0 as Hpi.
  destruct (Z_lt_le_dec n 0) as [Hneg | Hnonneg].
  - assert (Hn : IZR n <= -1) by (apply IZR_le; lia).
    assert (Ha' : a = - PI) by nra. assert (Hb' : b = PI) by nra.
    rewrite Ha', Hb', Rabs_Ropp. reflexivity.
  - destruct (Z_lt_le_dec 0 n) as [Hpos | Hzero].
    + assert (Hn : 1 <= IZR n) by (apply IZR_le; lia).
      assert (Ha' : a = PI) by nra. assert (Hb' : b = - PI) by nra.
      rewrite Ha', Hb', Rabs_Ropp. reflexivity.
    + assert (Hn : n = 0%Z) by lia. subst n. f_equal. lra.
Qed.

(** The yaw after a rotation update with movement input. *)
Lemma updateRotation_yaw o move deltaTime s :
  moving move = true ->
  V3.y (rotation (updateRotation o move deltaTime s))
  = V3.y (rotation s) + headingError move s * rotationSpeed o * deltaTime.
Proof.
  unfold moving, updateRotation, headingError. intros Hmoving.
  rewrite Hmoving. reflexivity.
Qed.

(** The angle left to turn, as a whole number of turns away from the
    difference of target and yaw. *)
Lemma headingError_spec move s :
  - PI <= headingError move s <= PI
  /\ exists k : Z,
      headingError move s
      = atan2 (V2.x move) (V2.z move) - V3.y (rotation s) + 2 * PI * IZR k.
Proof.
  unfold headingError.
  destruct (normalizeAngle_spec (V3.y (rotation s))) as (Hrange & k1 & Hk1).
  destruct (shortestDiff_spec (atan2 (V2.x move) (V2.z move))
                              (normalizeAngle (V3.y (rotation s)))
                              (atan2_bounds _ _) Hrange)
    as (Hdiff & k2 & Hk2).
  split; [exact Hdiff |].
  exists (k2 - k1)%Z. rewrite minus_IZR. lra.
Qed.

Lemma headingError_step o move deltaTime s :
  moving move = true ->
  0 <= rotationSpeed o * deltaTime <= 1 ->
  Rabs (headingError move (updateRotation o move deltaTime s))
  = (1 - rotationSpeed o * deltaTime) * Rabs (headingError move s).
Proof.
  intros Hmoving Hrate. pose proof PI_RGT_0 as Hpi.
  destruct (headingError_spec move s) as (Hrange & k & Hk).
  destruct (headingError_spec move (updateRotation o move deltaTime s))
    as (Hrange' & k' & Hk').
  rewrite (updateRotation_yaw o move deltaTime s Hmoving) in Hk'.
  set (e := headingError move s) in *.
  set (e' := headingError move (updateRotation o move deltaTime s)) in *.
  set (K := rotationSpeed o * deltaTime) in *.
  assert (Hscaled : - PI <= (1 - K) * e <= PI) by (split; nra).
  rewrite (same_angle_same_size e' ((1 - K) * e) (k' - k) Hrange' Hscaled).
  - rewrite Rabs_mult, (Rabs_pos_eq (1 - K)) by lra. reflexivity.
  - rewrite minus_IZR. unfold K. lra.
Qed.
End Turning.


(** X14.  While a movement direction is held and
    [0 <= rotationSpeed * deltaTime <= 1], every rotation update
    multiplies the size of the angle left to turn by
    [1 - rotationSpeed * deltaTime]: the yaw approaches the target
    geometrically, never passes it, and reaches it in one update when
    [rotationSpeed * deltaTime = 1]. *)
Theorem heading_error_contracts :
  forall (o : Options) (move : V2.t) (deltaTime : R) (s : State) (n : nat),
    moving move = true ->
    0 <= rotationSpeed o * deltaTime <= 1 ->
    Rabs (headingError move (Nat.iter n (updateRotation o move deltaTime) s))
    = (1 - rotationSpeed o * deltaTime) ^ n * Rabs (headingError move s).
Proof.
  intros o move deltaTime s n Hmoving Hrate.
  induction n as [| n IH].
  - cbn [Nat.iter nat_rect pow]. lra.
  - change (Nat.iter (S n) (updateRotation o move deltaTime) s)
      with (updateRotation o move deltaTime
              (Nat.iter n (updateRotation o move deltaTime) s)).
    rewrite (headingError_step o move deltaTime _ Hmoving Hrate), IH.
    cbn [pow]. ring.
Qed.

(** Three updates toward the right at the default rotation speed, a
    tenth of a second each: an eighth of the angle is left. *)
Lemma heading_error_contracts_witness :
  moving (V2.mk 1 0) = true
  /\ 0 <= rotationSpeed defaultOptions * (1 / 10) <= 1
  /\ Rabs (headingError (V2.mk 1 0)
             (Nat.iter 3 (updateRotation defaultOptions (V2.mk 1 0) (1 / 10))
                       initialState))
     = (1 - rotationSpeed defaultOptions * (1 / 10)) ^ 3
       * Rabs (headingError (V2.mk 1 0) initialState).
Proof.
  assert (Hmoving : moving (V2.mk 1 0) = true).
  { unfold moving, Rneqb. cbn [V2.x V2.z].
    destruct (Req_dec_T 1 0) as [Habsurd | _]; [lra | reflexivity]. }
  assert (Hrate : 0 <= rotationSpeed defaultOptions * (1 / 10) <= 1).
  { cbn [rotationSpeed defaultOptions]. lra. }
  split; [exact Hmoving | split; [exact Hrate |]].
  apply (heading_error_contracts defaultOptions (V2.mk 1 0) (1 / 10)
                                 initialState 3 Hmoving Hrate).
Defined.

(** X21.  With the frame time of the application's game loop (at most a
    tenth of a second) and the default rotation speed, on timestamps that
    do not go back, a rotation update with movement input never turns
    past the target: it leaves [1 - 5 * deltaTime] of the angle, which is
    between a half and the whole of it. *)
Theorem game_loop_rotation_is_stable :
  forall (lastTime currentTime : R) (move : V2.t) (s : State),
    lastTime <= currentTime ->
    moving move = true ->
    let deltaTime := Application.deltaTime lastTime currentTime in
    let s' := updateRotation defaultOptions move deltaTime s in
    0 <= deltaTime <= 1 / 10
    /\ Rabs (headingError move s')
       = (1 - 5 * deltaTime) * Rabs (headingError move s)
    /\ 1 / 2 <= 1 - 5 * deltaTime <= 1.
Proof.
  intros lastTime currentTime move s Htime Hmoving deltaTime s'.
  assert (Hdt : 0 <= deltaTime <= 1 / 10).
  { unfold deltaTime, Application.deltaTime, Rgtb. cbv zeta.
    destruct (Rgt_dec ((currentTime - lastTime) / 1000) (1 / 10)); lra. }
  split; [exact Hdt | split; [| lra]].
  unfold s'.
  apply (headingError_step defaultOptions move deltaTime s Hmoving).
  cbn [rotationSpeed defaultOptions]. lra.
Qed.

(** A frame of 250 ms is cut to a tenth of a second. *)
Lemma game_loop_rotation_is_stable_witness :
  0 <= 250
  /\ moving (V2.mk 1 0) = true
  /\ let deltaTime := Application.deltaTime 0 250 in
     let s' := updateRotation defaultOptions (V2.mk 1 0) deltaTime
                              initialState in
     0 <= deltaTime <= 1 / 10
     /\ Rabs (headingError (V2.mk 1 0) s')
        = (1 - 5 * deltaTime) * Rabs (headingError (V2.mk 1 0) initialState)
     /\ 1 / 2 <= 1 - 5 * deltaTime <= 1.
Proof.
  assert (Htime : 0 <= 250) by lra.
  assert (Hmoving : moving (V2.mk 1 0) = true).
  { unfold moving, Rneqb. cbn [V2.x V2.z].
    destruct (Req_dec_T 1 0) as [Habsurd | _]; [lra | reflexivity]. }
  split; [exact Htime | split; [exact Hmoving |]].
  apply (game_loop_rotation_is_stable 0 250 (V2.mk 1 0) initialState
                                      Htime Hmoving).
Defined.

(** ** The fallback integrator over several frames *)

Section FallbackRuns.
Variable o : Options.

Lemma fallbackRun_cons f fs s :
  fallbackRun o (f :: fs) s
  = fallbackRun o fs (updateFallbackMovement o (fst f) (snd f) s).
Proof. reflexivity. Qed.

(** A frame that starts grounded at the resting height or above ends in
    the air. *)
Lemma grounded_frame_ends_airborne input deltaTime s :
  0 <= deltaTime -> 0 <= jumpForce o ->
  isGrounded s = true -> 1 <= V3.y (position s) ->
  isGrounded (updateFallbackMovement o input deltaTime s) = false.
Proof.
  intros Hdt Hforce Hgrounded Hy.
  rewrite updateFallbackMovement_isGrounded.
  unfold verticalVelocity. rewrite Hgrounded. unfold Rltb.
  destruct (jumps input deltaTime s);
    destruct (Rlt_dec _ 1) as [Hbelow | _]; try reflexivity;
    exfalso; nra.
Qed.

(** Standing: the frame after a grounded one, and the frame after that. *)
Lemma standing_frame_from_ground input deltaTime s :
  Input.isJumping input = false ->
  isGrounded s = true -> V3.y (position s) = 1 ->
  let s' := updateFallbackMovement o input deltaTime s in
  isGrounded s' = false /\ V3.y (position s') = 1
  /\ V3.y (velocity s') = 0.
Proof.
  intros Hjump Hgrounded Hy. cbv zeta.
  rewrite updateFallbackMovement_isGrounded,
    updateFallbackMovement_position_y, updateFallbackMovement_velocity_y.
  unfold verticalVelocity, jumps. rewrite Hjump, Hgrounded, Hy.
  cbn [andb]. cbv zeta. unfold Rltb.
  destruct (Rlt_dec (1 + 0 * deltaTime) 1) as [Hbelow | _]; [exfalso; lra |].
  repeat split; lra.
Qed.

Lemma standing_frame_from_rest input deltaTime s :
  Input.isJumping input = false -> 0 < deltaTime ->
  isGrounded s = false -> V3.y (position s) = 1 -> V3.y (velocity s) = 0 ->
  let s' := updateFallbackMovement o input deltaTime s in
  isGrounded s' = true /\ V3.y (position s') = 1.
Proof.
  intros Hjump Hdt Hairborne Hy Hv. cbv zeta.
  rewrite updateFallbackMovement_isGrounded,
    updateFallbackMovement_position_y.
  unfold verticalVelocity, jumps. rewrite Hjump, Hairborne, Hy, Hv.
  cbn [andb]. cbv zeta. unfold Rltb.
  destruct (Rlt_dec (1 + (0 - 981 / 100 * deltaTime) * deltaTime) 1)
    as [_ | Habove]; [split; reflexivity | exfalso; nra].
Qed.

Lemma standing_run fs :
  Forall (fun f => Input.isJumping (fst f) = false /\ 0 < snd f) fs ->
  forall s,
    V3.y (position s) = 1 ->
    (isGrounded s = true \/ V3.y (velocity s) = 0) ->
    let s' := fallbackRun o fs s in
    isGrounded s' = xorb (isGrounded s) (Nat.odd (length fs))
    /\ V3.y (position s') = 1
    /\ (isGrounded s' = true \/ V3.y (velocity s') = 0).
Proof.
  induction 1 as [| [input deltaTime] fs [Hjump Hdt] _ IH]; intros s Hy Hcase.
  - cbn [fallbackRun fold_left length Nat.odd]. rewrite xorb_false_r.
    repeat split; assumption.
  - cbn [fst snd] in Hjump, Hdt. rewrite fallbackRun_cons. cbn [fst snd].
    change (length ((input, deltaTime) :: fs)) with (S (length fs)).
    rewrite Nat.odd_succ, <- Nat.negb_odd.
    destruct (isGrounded s) eqn:Hgrounded.
    + destruct (standing_frame_from_ground input deltaTime s Hjump
                                           Hgrounded Hy)
        as (Hg & Hy' & Hv').
      destruct (IH _ Hy' (or_intror Hv')) as (Hg'' & Hrest).
      split; [| exact Hrest]. cbv zeta in Hg''. rewrite Hg'', Hg.
      destruct (Nat.odd (length fs)); reflexivity.
    + destruct Hcase as [Habsurd | Hv]; [discriminate Habsurd |].
      destruct (standing_frame_from_rest input deltaTime s Hjump Hdt
                                         Hgrounded Hy Hv)
        as (Hg & Hy').
      destruct (IH _ Hy' (or_introl Hg)) as (Hg'' & Hrest).
      split; [| exact Hrest]. cbv zeta in Hg''. rewrite Hg'', Hg.
      destruct (Nat.odd (length fs)); reflexivity.
Qed.

(** *** The cooldown between jumps *)

Lemma elapsed_nonneg fs :
  Forall (fun f : Input.t * R => 0 <= snd f) fs -> 0 <= elapsed fs.
Proof.
  induction 1 as [| f fs Hf _ IH]; cbn [elapsed fold_right]; [lra |].
  fold (elapsed fs). lra.
Qed.

(** While less time has passed than the timer holds, no frame starts a
    jump and each takes its [deltaTime] off the timer. *)
Lemma timer_runs_down fs :
  Forall (fun f : Input.t * R => 0 <= snd f) fs ->
  forall s,
    elapsed fs < jumpCooldownTimer s ->
    jumpCooldownTimer (fallbackRun o fs s) = jumpCooldownTimer s - elapsed fs.
Proof.
  induction 1 as [| [input deltaTime] fs Hdt Hrest IH]; intros s Helapsed.
  - cbn [fallbackRun fold_left elapsed fold_right]. lra.
  - cbn [fst snd] in Hdt. rewrite fallbackRun_cons. cbn [fst snd].
    cbn [elapsed fold_right snd] in *. fold (elapsed fs) in *.
    pose proof (elapsed_nonneg fs Hrest) as Hnonneg.
    assert (Hstep : jumpCooldownTimer
                      (updateFallbackMovement o input deltaTime s)
                    = jumpCooldownTimer s - deltaTime).
    { rewrite updateFallbackMovement_jumpCooldownTimer.
      unfold jumps, ticked, Rgtb, Rleb.
      destruct (Rgt_dec (jumpCooldownTimer s) 0) as [_ | Hnot];
        [| exfalso; lra].
      destruct (Rle_dec (jumpCooldownTimer s - deltaTime) 0) as [Hle | _];
        [exfalso; lra |].
      rewrite andb_false_r. reflexivity. }
    rewrite IH by (rewrite Hstep; lra). rewrite Hstep. lra.
Qed.

(** *** The decay of the horizontal velocity *)

(** [v *= 0.9; if (Math.abs(v) < 0.01) v = 0;] *)
Lemma decay_frame input deltaTime s :
  moving (Input.getMovementDirection input) = false ->
  let decayed (v : R) :=
    if Rltb (Rabs (v * (9 / 10))) (1 / 100) then 0 else v * (9 / 10) in
  V3.x (velocity (updateFallbackMovement o input deltaTime s))
  = decayed (V3.x (velocity s))
  /\ V3.z (velocity (updateFallbackMovement o input deltaTime s))
     = decayed (V3.z (velocity s)).
Proof.
  intros Hstill. cbv zeta. unfold updateFallbackMovement.
  set (d := Input.getMovementDirection input) in *.
  set (s4 := fallbackJump o input
               (tickCooldown deltaTime
                  (fallbackGravity deltaTime
                     (updateRotation o d deltaTime
                                     (set_movementDirection d s))))).
  assert (Hx : V3.x (velocity s4) = V3.x (velocity s)).
  { subst s4. rewrite (proj1 (fallbackJump_velocity_xz _ _ _)),
      tickCooldown_velocity, (proj1 (fallbackGravity_velocity_xz _ _)),
      updateRotation_velocity. reflexivity. }
  assert (Hz : V3.z (velocity s4) = V3.z (velocity s)).
  { subst s4. rewrite (proj2 (fallbackJump_velocity_xz _ _ _)),
      tickCooldown_velocity, (proj2 (fallbackGravity_velocity_xz _ _)),
      updateRotation_velocity. reflexivity. }
  autorewrite with blocks. rewrite <- Hx, <- Hz.
  unfold fallbackHorizontal. unfold moving in Hstill. rewrite Hstill.
  destruct s4 as [g j t [vx vy vz] p r dir md]. unfold_fields.
  destruct (Rltb (Rabs (vx * (9 / 10))) (1 / 100));
    destruct (Rltb (Rabs (vz * (9 / 10))) (1 / 100)); split; reflexivity.
Qed.

(** After [n] frames without movement input a component of the velocity
    is zero, or it is [0.9 ^ n] times what it was and not below
    [0.01]. *)
Lemma decay_run fs :
  Forall (fun f => moving (Input.getMovementDirection (fst f)) = false) fs ->
  forall s,
    let s' := fallbackRun o fs s in
    (V3.x (velocity s') = 0
     \/ (V3.x (velocity s') = V3.x (velocity s) * (9 / 10) ^ length fs
         /\ (fs = [] \/ 1 / 100 <= Rabs (V3.x (velocity s')))))
    /\ (V3.z (velocity s') = 0
        \/ (V3.z (velocity s') = V3.z (velocity s) * (9 / 10) ^ length fs
            /\ (fs = [] \/ 1 / 100 <= Rabs (V3.z (velocity s'))))).
Proof.
  induction 1 as [| [input deltaTime] fs Hstill _ IH]; intros s.
  - cbn [fallbackRun fold_left length pow]. split; right; split; auto; lra.
  - cbn [fst] in Hstill. cbv zeta. rewrite fallbackRun_cons. cbn [fst snd].
    destruct (decay_frame input deltaTime s Hstill) as [Hx Hz].
    cbv zeta in Hx, Hz.
    set (s1 := updateFallbackMovement o input deltaTime s) in *.
    destruct (IH s1) as [IHx IHz]. cbv zeta in IHx, IHz.
    cbn [length pow].
    assert (Hcomponent :
              forall v v1 v',
                v1 = (if Rltb (Rabs (v * (9 / 10))) (1 / 100)
                      then 0 else v * (9 / 10)) ->
                (v' = 0 \/ (v' = v1 * (9 / 10) ^ length fs
                            /\ (fs = [] \/ 1 / 100 <= Rabs v'))) ->
                v' = 0
                \/ (v' = v * (9 / 10 * (9 / 10) ^ length fs)
                    /\ ((input, deltaTime) :: fs = []
                        \/ 1 / 100 <= Rabs v'))).
    { intros v v1 v' Hv1 [Hzero | [Hscaled Hsize]]; [left; exact Hzero |].
      unfold Rltb in Hv1.
      destruct (Rlt_dec (Rabs (v * (9 / 10))) (1 / 100)) as [Hsmall | Hbig].
      - left. rewrite Hscaled, Hv1. ring.
      - right. split; [rewrite Hscaled, Hv1; ring |]. right.
        destruct Hsize as [-> | Hsize]; [| exact Hsize].
        cbn [length pow] in Hscaled. rewrite Hscaled, Hv1, Rmult_1_r. lra. }
    split.
    + apply (Hcomponent _ _ _ Hx IHx).
    + apply (Hcomponent _ _ _ Hz IHz).
Qed.

(** A number of frames after which a value decayed by [0.9] per frame is
    below [0.01]. *)
Lemma decay_bound (v : R) :
  exists N : nat,
    forall n, (N <= n)%nat -> Rabs (v * (9 / 10) ^ n) < 1 / 100.
Proof.
  assert (Hratio : Rabs (9 / 10) < 1) by (rewrite Rabs_pos_eq; lra).
  pose proof (Rabs_pos v) as Hv.
  assert (Hpos : 0 < 1 / 100 / (Rabs v + 1)).
  { apply Rdiv_lt_0_compat; lra. }
  destruct (pow_lt_1_zero (9 / 10) Hratio _ Hpos) as [N HN].
  exists N. intros n Hn. specialize (HN n Hn).
  rewrite Rabs_mult.
  pose proof (Rabs_pos ((9 / 10) ^ n)) as Hp.
  apply Rle_lt_trans with ((Rabs v + 1) * Rabs ((9 / 10) ^ n)); [nra |].
  apply Rlt_le_trans with ((Rabs v + 1) * (1 / 100 / (Rabs v + 1))).
  - apply Rmult_lt_compat_l; [lra | exact HN].
  - right. field. lra.
Qed.
End FallbackRuns.

(** X15.  The fallback integrator never ends two consecutive frames
    grounded (for [deltaTime >= 0] and a non-negative jump force): a
    frame that ends grounded leaves the character at the resting height
    with no downward velocity, so the next frame, whatever its input,
    ends with [isGrounded = false]. *)
Theorem fallback_never_grounded_twice :
  forall (o : Options) (input1 input2 : Input.t) (deltaTime1 deltaTime2 : R)
         (s : State),
    0 <= deltaTime2 ->
    0 <= jumpForce o ->
    let s1 := updateFallbackMovement o input1 deltaTime1 s in
    let s2 := updateFallbackMovement o input2 deltaTime2 s1 in
    isGrounded s1 = true -> isGrounded s2 = false.
Proof.
  intros o input1 input2 deltaTime1 deltaTime2 s Hdt Hforce s1 s2 Hgrounded.
  destruct (fallback_floor o input1 deltaTime1 s) as [Hfloor _].
  apply grounded_frame_ends_airborne; assumption.
Qed.

(** The first two frames after the constructor, without input. *)
Lemma fallback_never_grounded_twice_witness :
  0 <= 1 / 10
  /\ 0 <= jumpForce defaultOptions
  /\ isGrounded (updateFallbackMovement defaultOptions Scenario.noInput
                                        (1 / 10) initialState) = true
  /\ isGrounded
       (updateFallbackMovement defaultOptions Scenario.noInput (1 / 10)
          (updateFallbackMovement defaultOptions Scenario.noInput (1 / 10)
                                  initialState)) = false.
Proof.
  assert (Hdt : 0 <= 1 / 10) by lra.
  assert (Hforce : 0 <= jumpForce defaultOptions)
    by (cbn [jumpForce defaultOptions]; lra).
  assert (Hgrounded :
            isGrounded (updateFallbackMovement defaultOptions Scenario.noInput
                                               (1 / 10) initialState) = true).
  { rewrite updateFallbackMovement_isGrounded.
    unfold verticalVelocity, jumps. cbn.
    decide_comparisons. reflexivity. }
  split; [exact Hdt | split; [exact Hforce | split; [exact Hgrounded |]]].
  apply (fallback_never_grounded_twice
           defaultOptions Scenario.noInput Scenario.noInput (1 / 10) (1 / 10)
           initialState Hdt Hforce Hgrounded).
Defined.



(** X17.  In the fallback integrator, after a frame that starts a jump,
    no later frame starts another jump before the frame times since then
    (its own included) add up to [jumpCooldown], for frames with
    [deltaTime >= 0]: until then the timer is the cooldown less the
    time passed. *)
Theorem fallback_jumps_are_spaced :
  forall (o : Options) (s : State) (input0 : Input.t) (deltaTime0 : R)
         (fs : list (Input.t * R)) (input : Input.t) (deltaTime : R),
    jumps input0 deltaTime0 s = true ->
    Forall (fun f => 0 <= snd f) fs ->
    0 <= deltaTime ->
    elapsed fs + deltaTime < jumpCooldown o ->
    let s' := fallbackRun o fs (updateFallbackMovement o input0 deltaTime0 s)
    in
    jumpCooldownTimer s' = jumpCooldown o - elapsed fs
    /\ jumps input deltaTime s' = false.
Proof.
  intros o s input0 deltaTime0 fs input deltaTime Hjump Hfs Hdt Hshort s'.
  assert (Hstart : jumpCooldownTimer
                     (updateFallbackMovement o input0 deltaTime0 s)
                   = jumpCooldown o).
  { rewrite updateFallbackMovement_jumpCooldownTimer, Hjump. reflexivity. }
  assert (Htimer : jumpCooldownTimer s' = jumpCooldown o - elapsed fs).
  { unfold s'. rewrite timer_runs_down by (try exact Hfs; rewrite Hstart; lra).
    rewrite Hstart. reflexivity. }
  split; [exact Htimer |].
  unfold jumps, ticked, Rgtb, Rleb. rewrite Htimer.
  destruct (Rgt_dec (jumpCooldown o - elapsed fs) 0) as [_ | Hnot];
    [| exfalso; lra].
  destruct (Rle_dec (jumpCooldown o - elapsed fs - deltaTime) 0) as [Hle | _];
    [exfalso; lra |].
  apply andb_false_r.
Qed.

(** A jump from the resting height, one frame of a tenth of a second,
    and the jump key still held a tenth of a second later. *)
Lemma fallback_jumps_are_spaced_witness :
  jumps Scenario.jumpPressed (1 / 10) Scenario.groundedAtRest = true
  /\ elapsed [(Scenario.jumpPressed, 1 / 10)] + 1 / 10
     < jumpCooldown defaultOptions
  /\ let s' :=
       fallbackRun defaultOptions [(Scenario.jumpPressed, 1 / 10)]
         (updateFallbackMovement defaultOptions Scenario.jumpPressed (1 / 10)
                                 Scenario.groundedAtRest) in
     jumpCooldownTimer s'
     = jumpCooldown defaultOptions - elapsed [(Scenario.jumpPressed, 1 / 10)]
     /\ jumps Scenario.jumpPressed (1 / 10) s' = false.
Proof.
  assert (Hjump : jumps Scenario.jumpPressed (1 / 10) Scenario.groundedAtRest
                  = true).
  { unfold jumps, ticked. cbn. decide_comparisons. reflexivity. }
  assert (Hshort : elapsed [(Scenario.jumpPressed, 1 / 10)] + 1 / 10
                   < jumpCooldown defaultOptions).
  { cbn [elapsed fold_right snd jumpCooldown defaultOptions]. lra. }
  split; [exact Hjump | split; [exact Hshort |]].
  apply (fallback_jumps_are_spaced
           defaultOptions Scenario.groundedAtRest Scenario.jumpPressed
           (1 / 10) [(Scenario.jumpPressed, 1 / 10)] Scenario.jumpPressed
           (1 / 10) Hjump).
  - repeat constructor. cbn [snd]. lra.
  - lra.
  - exact Hshort.
Defined.

(** X18.  In the fallback integrator the horizontal velocity comes to a
    complete stop: for every state there is a number of frames after
    which, whenever at least that many frames without movement input
    have run, [velocity.x] and [velocity.z] are exactly [0], whatever
    the frame times. *)
Theorem fallback_friction_stops :
  forall (o : Options) (s : State),
    exists N : nat,
      forall fs : list (Input.t * R),
        (N <= length fs)%nat ->
        Forall (fun f => moving (Input.getMovementDirection (fst f)) = false)
               fs ->
        V3.x (velocity (fallbackRun o fs s)) = 0
        /\ V3.z (velocity (fallbackRun o fs s)) = 0.
Proof.
  intros o s.
  destruct (decay_bound (V3.x (velocity s))) as [Nx HNx].
  destruct (decay_bound (V3.z (velocity s))) as [Nz HNz].
  exists (S (Nx + Nz)). intros fs Hlen Hstill.
  destruct (decay_run o fs Hstill s) as [Hx Hz]. cbv zeta in Hx, Hz.
  assert (Hnonempty : fs <> []).
  { intros ->. cbn [length] in Hlen. lia. }
  split.
  - destruct Hx as [Hzero | [Hscaled [Hempty | Hsize]]];
      [exact Hzero | contradiction |].
    exfalso. rewrite Hscaled in Hsize.
    assert (Hn : (Nx <= length fs)%nat) by lia.
    specialize (HNx _ Hn). lra.
  - destruct Hz as [Hzero | [Hscaled [Hempty | Hsize]]];
      [exact Hzero | contradiction |].
    exfalso. rewrite Hscaled in Hsize.
    assert (Hn : (Nz <= length fs)%nat) by lia.
    specialize (HNz _ Hn). lra.
Qed.

(** ** Coming back down *)

Section Landing.
Variables (o : Options) (input : Input.t) (deltaTime : R).

(** The state after [n] frames with the same input and frame time. *)
Lemma fallbackRun_repeat_succ n s :
  fallbackRun o (repeat (input, deltaTime) (S n)) s
  = updateFallbackMovement o input deltaTime
      (fallbackRun o (repeat (input, deltaTime) n) s).
Proof.
  change (repeat (input, deltaTime) (S n))
    with ((input, deltaTime) :: repeat (input, deltaTime) n).
  rewrite repeat_cons. unfold fallbackRun. rewrite fold_left_app.
  reflexivity.
Qed.

(** An airborne frame that ends in the air. *)
Lemma airborne_frame s :
  isGrounded s = false ->
  isGrounded (updateFallbackMovement o input deltaTime s) = false ->
  V3.y (velocity (updateFallbackMovement o input deltaTime s))
  = V3.y (velocity s) - 981 / 100 * deltaTime
  /\ V3.y (position (updateFallbackMovement o input deltaTime s))
     = V3.y (position s)
       + (V3.y (velocity s) - 981 / 100 * deltaTime) * deltaTime.
Proof.
  intros Hairborne Hstill.
  rewrite updateFallbackMovement_isGrounded in Hstill.
  rewrite updateFallbackMovement_position_y, updateFallbackMovement_velocity_y.
  unfold verticalVelocity, jumps in *. rewrite Hairborne in *.
  rewrite andb_false_r in *. cbv zeta. rewrite Hstill.
  split; reflexivity.
Qed.

(** As long as every frame ends in the air, the fall is the one of a
    body under constant gravity, sampled once per frame. *)
Lemma free_fall n s :
  (forall k, (k <= n)%nat ->
             isGrounded (fallbackRun o (repeat (input, deltaTime) k) s)
             = false) ->
  let s' := fallbackRun o (repeat (input, deltaTime) n) s in
  V3.y (velocity s') = V3.y (velocity s) - 981 / 100 * deltaTime * INR n
  /\ V3.y (position s')
     = V3.y (position s) + INR n * V3.y (velocity s) * deltaTime
       - 981 / 200 * deltaTime * deltaTime * INR n * (INR n + 1).
Proof.
  induction n as [| n IH]; intros Hair.
  - cbv zeta. unfold fallbackRun. cbn [repeat fold_left INR]. split; ring.
  - cbv zeta. rewrite fallbackRun_repeat_succ.
    destruct IH as [Hv Hy].
    { intros k Hk. apply Hair. lia. }
    cbv zeta in Hv, Hy.
    destruct (airborne_frame (fallbackRun o (repeat (input, deltaTime) n) s))
      as [Hv' Hy'].
    { apply Hair. lia. }
    { rewrite <- fallbackRun_repeat_succ. apply Hair. lia. }
    rewrite Hv', Hy', Hv, Hy, S_INR. split; field.
Qed.

(** Within [n] frames some frame ends grounded, or they all end in the
    air. *)
Lemma landed_or_airborne n s :
  (exists k, (k <= n)%nat
             /\ isGrounded (fallbackRun o (repeat (input, deltaTime) k) s)
                = true)
  \/ (forall k, (k <= n)%nat ->
                isGrounded (fallbackRun o (repeat (input, deltaTime) k) s)
                = false).
Proof.
  induction n as [| n [(k & Hk & Hlanded) | Hair]].
  - destruct (isGrounded (fallbackRun o (repeat (input, deltaTime) 0) s))
      eqn:Hstart.
    + left. exists O. split; [lia | exact Hstart].
    + right. intros k Hk. replace k with O by lia. exact Hstart.
  - left. exists k. split; [lia | exact Hlanded].
  - destruct (isGrounded (fallbackRun o (repeat (input, deltaTime) (S n)) s))
      eqn:Hnext.
    + left. exists (S n). split; [lia | exact Hnext].
    + right. intros k Hk.
      destruct (Nat.eq_dec k (S n)) as [-> | Hneq]; [exact Hnext |].
      apply Hair. lia.
Qed.

(** A number of frames after which the free fall is below the resting
    height. *)
Lemma free_fall_bound (y v : R) :
  0 < deltaTime ->
  exists n : nat,
    (1 <= n)%nat
    /\ y + INR n * v * deltaTime
       - 981 / 200 * deltaTime * deltaTime * INR n * (INR n + 1) < 1.
Proof.
  intros Hdt.
  set (A := 981 / 200 * deltaTime * deltaTime).
  assert (HA : 0 < A) by (unfold A; nra).
  set (M := (Rabs (v * deltaTime) + Rabs y + 1) / A).
  pose proof (Rabs_pos (v * deltaTime)) as Hv.
  pose proof (Rabs_pos y) as Hy.
  assert (HM : 0 < M) by (apply Rdiv_lt_0_compat; lra).
  destruct (archimed M) as [Hup _].
  assert (Hz : (0 <= up M)%Z) by (apply le_IZR; lra).
  exists (Z.to_nat (up M)).
  assert (Hn : INR (Z.to_nat (up M)) = IZR (up M)).
  { rewrite INR_IZR_INZ, Z2Nat.id by exact Hz. reflexivity. }
  assert (Hone : (1 <= Z.to_nat (up M))%nat).
  { apply INR_lt. rewrite Hn. cbn [INR]. lra. }
  split; [exact Hone |].
  set (n := INR (Z.to_nat (up M))) in *.
  assert (Hn1 : 1 <= n).
  { unfold n. change 1 with (INR 1). apply le_INR. exact Hone. }
  assert (Hbig : Rabs (v * deltaTime) + Rabs y + 1 < A * n).
  { rewrite Hn. unfold M in Hup.
    apply (Rmult_lt_compat_l A) in Hup; [| exact HA].
    replace (A * ((Rabs (v * deltaTime) + Rabs y + 1) / A))
      with (Rabs (v * deltaTime) + Rabs y + 1) in Hup by (field; lra).
    exact Hup. }
  pose proof (Rle_abs (v * deltaTime)) as Hvabs.
  pose proof (Rle_abs y) as Hyabs.
  fold A.
  assert (Hterm : n * v * deltaTime <= n * Rabs (v * deltaTime)) by nra.
  assert (Hsquare : (Rabs (v * deltaTime) + Rabs y + 1) * n <= A * n * n)
    by nra.
  nra.
Qed.

Lemma lands_from_the_air s :
  0 < deltaTime ->
  exists n,
    isGrounded (fallbackRun o (repeat (input, deltaTime) n) s) = true.
Proof.
  intros Hdt.
  destruct (free_fall_bound (V3.y (position s)) (V3.y (velocity s)) Hdt)
    as (n & Hone & Hbelow).
  destruct (landed_or_airborne n s) as [(k & _ & Hlanded) | Hair].
  - exists k. exact Hlanded.
  - exfalso.
    destruct (free_fall n s Hair) as [_ Hy]. cbv zeta in Hy.
    destruct n as [| n]; [lia |].
    rewrite fallbackRun_repeat_succ in Hy.
    destruct (fallback_floor o input deltaTime
                (fallbackRun o (repeat (input, deltaTime) n) s))
      as [Hfloor _].
    lra.
Qed.
End Landing.


